(** * Bookstore ledger: a shallow embedding of the persistence and
      consistency layer (JSONStore, BookRepository, InventoryService,
      SalesService) and the properties checked against it.

    Conventions of the embedding.
    - Python values read back from the JSON file are values of [json];
      numbers are integers (the program itself only ever writes integers,
      strings and booleans), and an object is the list of its members in
      the order of the file, with distinct keys, as in the dict the parser
      builds.
    - Arguments that the signatures type as [str] or [int] are [string] and
      [Z] here, so the [isinstance] tests on them have no case to reject;
      values that come out of the file keep their dynamic type and the
      tests on them are modelled.
    - Python [str] is [string]; whitespace and letter case are the ASCII
      ones, characters above 127 are inert.
    - [Decimal] arithmetic runs in the default context: 28 significant
      digits, ROUND_HALF_EVEN.
    - Exceptions are values of [exn]; a computation is a function from the
      [world] (backing file and the state of the uuid/clock sources) to a
      [result] and a new world.  File-system failures of the atomic write
      itself are outside the model: a write always succeeds. *)

From Stdlib Require Import ZArith List Bool Ascii String Lia Permutation Sorted.
Import ListNotations.
Local Open Scope string_scope.
Local Open Scope Z_scope.
Set Warnings "-register-all".

(* ================================================================== *)
(** ** Python values *)

Inductive json : Type :=
| JNull
| JBool (b : bool)
| JInt (n : Z)
| JStr (s : string)
| JList (l : list json)
| JDict (kv : list (string * json)).

Module Py.

(** [dict.get(key)]: [None] when the key is absent. *)
Fixpoint dict_get {A : Type} (key : string) (kv : list (string * A)) : option A :=
  match kv with
  | [] => None
  | (k, v) :: rest => if String.eqb k key then Some v else dict_get key rest
  end.

(** Truth value of an object ([x or y], [bool(x)], [if x]). *)
Definition truthy (v : json) : bool :=
  match v with
  | JNull => false
  | JBool b => b
  | JInt n => negb (n =? 0)
  | JStr s => negb (String.eqb s "")
  | JList l => match l with [] => false | _ => true end
  | JDict kv => match kv with [] => false | _ => true end
  end.

(** [a == b] on decoded JSON: numeric across bool and int, structural on
    lists, key-wise on dicts. *)
Fixpoint eq (a b : json) {struct a} : bool :=
  match a, b with
  | JNull, JNull => true
  | JBool x, JBool y => Bool.eqb x y
  | JBool x, JInt y => Z.b2z x =? y
  | JInt x, JBool y => x =? Z.b2z y
  | JInt x, JInt y => x =? y
  | JStr x, JStr y => String.eqb x y
  | JList xs, JList ys =>
      (fix go (xs ys : list json) {struct xs} : bool :=
         match xs, ys with
         | [], [] => true
         | x :: xs', y :: ys' => eq x y && go xs' ys'
         | _, _ => false
         end) xs ys
  | JDict xs, JDict ys =>
      Nat.eqb (List.length xs) (List.length ys) &&
      (fix go (xs : list (string * json)) {struct xs} : bool :=
         match xs with
         | [] => true
         | p :: xs' =>
             match dict_get (fst p) ys with
             | Some v' => eq (snd p) v'
             | None => false
             end && go xs'
         end) xs
  | _, _ => false
  end.

(** *** Strings *)

Definition code (c : ascii) : N := N_of_ascii c.

(** [str.isspace] on ASCII: TAB..CR, FS..US and the space. *)
Definition is_space (c : ascii) : bool :=
  let n := code c in
  (((9 <=? n) && (n <=? 13)) || ((28 <=? n) && (n <=? 32)))%N.

Definition is_digit (c : ascii) : bool :=
  let n := code c in ((48 <=? n) && (n <=? 57))%N.

Definition upper_char (c : ascii) : ascii :=
  let n := code c in
  if ((97 <=? n) && (n <=? 122))%N then ascii_of_N (n - 32) else c.

Definition lower_char (c : ascii) : ascii :=
  let n := code c in
  if ((65 <=? n) && (n <=? 90))%N then ascii_of_N (n + 32) else c.

Fixpoint map_str (f : ascii -> ascii) (s : string) : string :=
  match s with
  | EmptyString => EmptyString
  | String c r => String (f c) (map_str f r)
  end.

Definition upper : string -> string := map_str upper_char.
Definition lower : string -> string := map_str lower_char.

Fixpoint lstrip (s : string) : string :=
  match s with
  | EmptyString => EmptyString
  | String c r => if is_space c then lstrip r else s
  end.

Fixpoint rstrip (s : string) : string :=
  match s with
  | EmptyString => EmptyString
  | String c r =>
      match rstrip r with
      | EmptyString => if is_space c then EmptyString else String c EmptyString
      | r' => String c r'
      end
  end.

Definition strip (s : string) : string := rstrip (lstrip s).

(** [re.sub(class, "", s)]: drop every character of the class. *)
Fixpoint remove (drop : ascii -> bool) (s : string) : string :=
  match s with
  | EmptyString => EmptyString
  | String c r => if drop c then remove drop r else String c (remove drop r)
  end.

(** The character classes [[- ]] and [[-\s]]. *)
Definition dash_or_space (c : ascii) : bool :=
(Ascii.eqb c "-" || Ascii.eqb c " ")%char.

Definition dash_or_ws (c : ascii) : bool :=
Ascii.eqb c "-"%char || is_space c.

(** No whitespace at the front. *)
Definition no_lead (s : string) : bool :=
match s with
| EmptyString => true
| String c _ => negb (is_space c)
end.

(** [q in s] for strings. *)
Fixpoint contains (q s : string) : bool :=
  String.prefix q s ||
  match s with
  | EmptyString => false
  | String _ r => contains q r
  end.

Fixpoint all_chars (p : ascii -> bool) (s : string) : bool :=
  match s with
  | EmptyString => true
  | String c r => p c && all_chars p r
  end.

End Py.

(** [int(x)] on a decoded JSON value; the two ways it fails. *)
Inductive int_failure := IntTypeError | IntValueError.

Module PyInt.
Import Py.

(** Digits with single underscores between them, as [int(str)] reads. *)
Fixpoint digits (acc : Z) (after_digit : bool) (s : string) : option Z :=
  match s with
  | EmptyString => if after_digit then Some acc else None
  | String c r =>
      if is_digit c then digits (acc * 10 + (Z.of_N (code c) - 48)) true r
      else if Ascii.eqb c "_"%char && after_digit then digits acc false r
      else None
  end.

Definition of_str (s : string) : option Z :=
  match strip s with
  | String "+"%char r => digits 0 false r
  | String "-"%char r => option_map Z.opp (digits 0 false r)
  | t => digits 0 false t
  end.

Definition int (v : json) : Z + int_failure :=
  match v with
  | JInt n => inl n
  | JBool b => inl (Z.b2z b)
  | JStr s => match of_str s with Some n => inl n | None => inr IntValueError end
  | _ => inr IntTypeError
  end.
End PyInt.

(** The pattern [^[0-9]{9}[0-9X]$|^[0-9]{13}$] under [re.match]: [$] holds
    at the end of the string and also just before a newline that ends it. *)
Module ISBN_RE.
Import Py.

Definition newline : string := String (ascii_of_N 10) EmptyString.

(** [$] *)
Definition at_end (rest : string) : bool :=
  String.eqb rest "" || String.eqb rest newline.

(** [[0-9]{n}] followed by [k] *)
Fixpoint digits_then (n : nat) (k : string -> bool) (s : string) : bool :=
  match n with
  | O => k s
  | S n' =>
      match s with
      | String c r => is_digit c && digits_then n' k r
      | EmptyString => false
      end
  end.

Definition digit_or_X (c : ascii) : bool := is_digit c || Ascii.eqb c "X"%char.

Definition isbn10 : string -> bool :=
  digits_then 9 (fun r => match r with
                          | String c r' => digit_or_X c && at_end r'
                          | EmptyString => false
                          end).

Definition isbn13 : string -> bool := digits_then 13 at_end.

Definition match_ (s : string) : bool := isbn10 s || isbn13 s.
End ISBN_RE.

(* ================================================================== *)
(** ** Decimal, default context *)

Module Decimal.

(** A finite decimal: [coef * 10 ^ exp]. *)
Record t := mk { coef : Z; exp : Z }.

Definition prec : Z := 28.

Fixpoint ndigits_fuel (fuel : nat) (c : Z) : Z :=
  match fuel with
  | O => 1
  | S f => if c <? 10 then 1 else 1 + ndigits_fuel f (c / 10)
  end.

(** Number of decimal digits of [|c|] (1 for 0). *)
Definition ndigits (c : Z) : Z :=
  ndigits_fuel (S (Z.to_nat (Z.log2 (Z.abs c)))) (Z.abs c).

(** [c / 10^k] rounded half to even, on the magnitude. *)
Definition round_half_even (c k : Z) : Z :=
  let a := Z.abs c in
  let p := 10 ^ k in
  let q := a / p in
  let r := a mod p in
  let m := if 2 * r <? p then q
           else if p <? 2 * r then q + 1
           else if Z.even q then q else q + 1 in
  Z.sgn c * m.

(** Rounding of a result to the context precision. *)
Definition fix_ (d : t) : t :=
  let n := ndigits (coef d) in
  if n <=? prec then d
  else
    let k := n - prec in
    let c := round_half_even (coef d) k in
    if ndigits c <=? prec then mk c (exp d + k)
    else mk (c / 10) (exp d + k + 1).

(** [Decimal(n)] for an int. *)
Definition of_int (n : Z) : t := mk n 0.

(** [d / Decimal(100)]: the quotient is [coef * 10^(exp-2)] exactly, then
    rounded to the context (Python also strips trailing zeros of an exact
    quotient; the value is the same). *)
Definition div100 (d : t) : t := fix_ (mk (coef d) (exp d - 2)).

(** [d * 100]. *)
Definition mul100 (d : t) : t := fix_ (mk (coef d * 100) (exp d)).

(** [d < 0]. *)
Definition is_negative (d : t) : bool := coef d <? 0.

(** [int(d.quantize(Decimal("1")))]; [None] is [InvalidOperation], raised
    when the integer needs more digits than the precision. *)
Definition quantize_int (d : t) : option Z :=
  let c := if 0 <=? exp d then coef d * 10 ^ exp d
           else round_half_even (coef d) (- exp d) in
  if ndigits c <=? prec then Some c else None.

End Decimal.

(** What [Decimal(str(amount))] makes of a price argument: a finite decimal,
    or no number at all (NaN and the infinities are left out). *)
Inductive amount :=
| Amount (d : Decimal.t)
| NotNumeric.

(* ================================================================== *)
(** ** Exceptions (errors.py) and the interpreter's own *)

Inductive storage_failure :=
| CorruptedJSON      (* "Corrupted JSON at ..." *)
| RootNotObject      (* "Root JSON must be an object" *)
| MissingKeys        (* "JSON must contain: 'books' and 'sales'" *)
| NotArrays.         (* "'books' and 'sales' must be arrays" *)

Inductive exn :=
| ValidationError (field : string)
| BookNotFoundError (book_id : option json) (isbn : option string)
| DuplicateISBNError (isbn : string)
| OutOfStockError (isbn : string) (requested_qty available_qty : Z)
| StorageError (why : storage_failure)
(* not DomainErrors: raised by the interpreter and the standard library *)
| KeyError (key : string)
| TypeError
| ValueError
| NameError (name : string)
| InvalidOperation.

Definition is_ValidationError (e : exn) : bool :=
  match e with ValidationError _ => true | _ => false end.

Definition is_BookNotFoundError (e : exn) : bool :=
  match e with BookNotFoundError _ _ => true | _ => false end.

Inductive result (A : Type) :=
| Ok (a : A)
| Raise (e : exn).
Arguments Ok {A} a.
Arguments Raise {A} e.

(** Sequencing of code that only raises or returns. *)
Definition rbind {A B} (r : result A) (k : A -> result B) : result B :=
  match r with
  | Ok a => k a
  | Raise e => Raise e
  end.

Declare Scope py_scope.
Delimit Scope py_scope with py.
Notation "x <~ r ;; k" := (rbind r (fun x => k))
  (at level 61, r at next level, right associativity) : py_scope.

(* ================================================================== *)
(** ** The world: the backing file and the sources of ids and time *)

Inductive file :=
| Missing                 (* no file at the path *)
| Corrupted               (* content that json.load rejects *)
| Parsed (j : json).      (* content that parses to [j] *)

Record world := mkWorld { fs : file; seed : nat }.

(** The standard-library services the program calls: datetime with its ISO
    format, [uuid.uuid4] and [datetime.now].  A datetime is naive or
    offset-aware ([aware]: its [tzinfo] is set); [fromisoformat] returns
    either kind, [datetime.now()] a naive one.  [dt_ltb] is the order
    within one kind; between the kinds [<] raises, see [dt_lt].  The laws
    are the documented ones: [fromisoformat] inverts [isoformat], [<] is
    asymmetric, a uuid string is not empty, and [now()] is naive. *)
Class Platform := {
  datetime : Type;
  isoformat : datetime -> string;
  fromisoformat : string -> option datetime;
  aware : datetime -> bool;
  dt_ltb : datetime -> datetime -> bool;
  uuid4_at : nat -> string;
  now_at : nat -> datetime;
  fromisoformat_isoformat : forall d, fromisoformat (isoformat d) = Some d;
  dt_ltb_asym : forall a b, dt_ltb a b = true -> dt_ltb b a = false;
  uuid4_not_empty : forall n, uuid4_at n <> EmptyString;
  now_naive : forall n, aware (now_at n) = false
}.

Definition M (A : Type) : Type := world -> result A * world.

Definition ret {A} (a : A) : M A := fun w => (Ok a, w).
Definition raise {A} (e : exn) : M A := fun w => (Raise e, w).
Definition bind {A B} (m : M A) (k : A -> M B) : M B :=
  fun w => match m w with
           | (Ok a, w') => k a w'
           | (Raise e, w') => (Raise e, w')
           end.

(** [try: m except <handles>: handler] *)
Definition try_except {A} (m : M A) (handles : exn -> bool) (handler : M A) : M A :=
  fun w => match m w with
           | (Ok a, w') => (Ok a, w')
           | (Raise e, w') => if handles e then handler w' else (Raise e, w')
           end.

(** [try: x = m except <handles>: handler], then [k x] after the block. *)
Definition try_except_then {A B} (m : M A) (handles : exn -> bool)
    (handler : M B) (k : A -> M B) : M B :=
  fun w => match m w with
           | (Ok a, w') => k a w'
           | (Raise e, w') => if handles e then handler w' else (Raise e, w')
           end.

Definition lift {A} (r : result A) : M A := fun w => (r, w).

(** A list comprehension over code that may raise. *)
Fixpoint map_result {A B} (f : A -> result B) (l : list A) : result (list B) :=
  match l with
  | [] => Ok []
  | x :: r =>
      match f x with
      | Raise e => Raise e
      | Ok y => match map_result f r with
                | Raise e => Raise e
                | Ok ys => Ok (y :: ys)
                end
      end
  end.

Notation "x <- m ;; k" := (bind m (fun x => k))
  (at level 61, m at next level, right associativity) : py_scope.
Notation "m ;;; k" := (bind m (fun _ => k))
  (at level 61, right associativity) : py_scope.
Local Open Scope py_scope.

Section Sources.
Context {P : Platform}.

(** [str(uuid.uuid4())] *)
Definition uuid4 : M string :=
  fun w => (Ok (uuid4_at (seed w)), mkWorld (fs w) (S (seed w))).

(** [datetime.now()] *)
Definition now : M datetime :=
  fun w => (Ok (now_at (seed w)), mkWorld (fs w) (S (seed w))).

(** [a < b] on datetimes: "can't compare offset-naive and offset-aware
    datetimes" is a TypeError. *)
Definition dt_lt (a b : datetime) : result bool :=
  if Bool.eqb (aware a) (aware b) then Ok (dt_ltb a b) else Raise TypeError.
End Sources.

(** [books[idx] = x] and [del books[idx]] for an index known to be in range. *)
Fixpoint list_set {A} (l : list A) (idx : nat) (x : A) : list A :=
  match l, idx with
  | [], _ => []
  | _ :: r, O => x :: r
  | y :: r, S i => y :: list_set r i x
  end.

Fixpoint list_del {A} (l : list A) (idx : nat) : list A :=
  match l, idx with
  | [], _ => []
  | _ :: r, O => r
  | y :: r, S i => y :: list_del r i
  end.

(** [x = l[idx]; f(x); l[idx] = x] for an index in range. *)
Fixpoint list_update {A} (l : list A) (idx : nat) (f : A -> A) : list A :=
  match l, idx with
  | [], _ => []
  | y :: r, O => f y :: r
  | y :: r, S i => y :: list_update r i f
  end.

(** [for index, x in enumerate(l): if p(x): return index] *)
Fixpoint find_index {A} (p : A -> bool) (l : list A) : option nat :=
  match l with
  | [] => None
  | x :: r => if p x then Some O else option_map S (find_index p r)
  end.

(** [list.sort(key=...)]: a stable sort that only asks [<] of the keys,
    written as insertion from the right. *)
Section Sort.
Context {A K : Type} (key : A -> K) (ltb : K -> K -> bool).

Fixpoint insert (x : A) (l : list A) : list A :=
  match l with
  | [] => [x]
  | y :: r => if ltb (key y) (key x) then y :: insert x r else x :: y :: r
  end.

Definition sort_by (l : list A) : list A := fold_right insert [] l.

(** The same sort over keys whose [<] may raise: the first comparison that
    raises ends the sort with its exception.  (Any sort has to compare
    across two keys that do not compare, so which sort it is makes no
    difference to whether it raises.) *)
Context (lt : K -> K -> result bool).

Fixpoint insert_r (x : A) (l : list A) : result (list A) :=
  match l with
  | [] => Ok [x]
  | y :: r =>
      below <~ lt (key y) (key x) ;;
      if below then (r' <~ insert_r x r ;; Ok (y :: r'))
      else Ok (x :: y :: r)
  end.

Fixpoint sort_by_r (l : list A) : result (list A) :=
  match l with
  | [] => Ok []
  | x :: r => sorted <~ sort_by_r r ;; insert_r x sorted
  end.
End Sort.

(** [data.get(key)]: [None] (here [JNull]) when absent; [data.get(key, d)];
    [data[key]]. *)
Definition dict_get_none (kv : list (string * json)) (key : string) : json :=
  match Py.dict_get key kv with Some v => v | None => JNull end.

Definition dict_get_default (kv : list (string * json)) (key : string) (d : json) : json :=
  match Py.dict_get key kv with Some v => v | None => d end.

Definition dict_index (kv : list (string * json)) (key : string) : result json :=
  match Py.dict_get key kv with Some v => Ok v | None => Raise (KeyError key) end.

Definition py_int (v : json) : result Z :=
  match PyInt.int v with
  | inl n => Ok n
  | inr IntTypeError => Raise TypeError
  | inr IntValueError => Raise ValueError
  end.

(* ================================================================== *)
(** ** storage/json_store.py *)

(** The dict [{"books": [...], "sales": [...]}] that [load] hands out. *)
Record document := mkDoc { books : list json; sales : list json }.

Module JSONStore.

Definition dump (d : document) : json :=
  JDict [("books", JList (books d)); ("sales", JList (sales d))].

Definition _default_data : json :=
  JDict [("books", JList []); ("sales", JList [])].

Definition _validate_and_normalize (data : json) (allow_missing : bool)
  : result document :=
  match data with
  | JDict kv =>
      let books := dict_get_none kv "books" in
      let sales := dict_get_none kv "sales" in
      let is_none v := match v with JNull => true | _ => false end in
      let defaulted :=
        if is_none books || is_none sales then
          if allow_missing then
            Ok (if is_none books then JList [] else books,
                if is_none sales then JList [] else sales)
          else Raise (StorageError MissingKeys)
        else Ok (books, sales) in
      match defaulted with
      | Raise e => Raise e
      | Ok (JList bs, JList ss) => Ok (mkDoc bs ss)
      | Ok _ => Raise (StorageError NotArrays)
      end
  | _ => Raise (StorageError RootNotObject)
  end.

(** Temporary file in the same directory, then [os.replace]: the file
    holds the new content afterwards. *)
Definition _atomic_write (data : json) : M unit :=
  fun w => (Ok tt, mkWorld (Parsed data) (seed w)).

Definition __init__ : M unit :=
  fun w => match fs w with
           | Missing => _atomic_write _default_data w
           | _ => (Ok tt, w)
           end.

Definition load : M document :=
  fun w =>
    match fs w with
    | Missing =>
        (_atomic_write _default_data ;;;
         lift (_validate_and_normalize _default_data true)) w
    | Corrupted => (Raise (StorageError CorruptedJSON), w)
    | Parsed data => (_validate_and_normalize data true, w)
    end.

Definition save (data : json) : M unit :=
  d <- lift (_validate_and_normalize data false) ;;
  _atomic_write (dump d).

End JSONStore.

(* ================================================================== *)
(** ** models/book.py *)

Module Book.
Section WithPlatform.
Context {P : Platform}.

Record t := mk {
  id : json;
  created_at : datetime;
  title : string;
  author : string;
  isbn : string;
  currency : string;
  _price_cents : Z;
  quantity : Z;
  archived : bool
}.

Definition price_cents (b : t) : Z := _price_cents b.

(** [price] property: [Decimal(cents) / Decimal(100)]. *)
Definition price (b : t) : Decimal.t :=
  Decimal.div100 (Decimal.of_int (_price_cents b)).

Definition _validate_non_empty (field : string) (value : json) : result string :=
  match value with
  | JStr s => if String.eqb (Py.strip s) "" then Raise (ValidationError field)
              else Ok (Py.strip s)
  | _ => Raise (ValidationError field)
  end.

Definition _validate_non_negative_int (field : string) (value : Z) : result Z :=
  if value <? 0 then Raise (ValidationError field) else Ok value.

Definition _validate_positive_int (field : string) (value : Z) : result Z :=
  if value <=? 0 then Raise (ValidationError field) else Ok value.

Definition _validate_currency (value : json) : result string :=
  match value with
  | JStr s => if String.eqb (Py.strip s) "" then Raise (ValidationError "currency")
              else Ok (Py.upper (Py.strip s))
  | _ => Raise (ValidationError "currency")
  end.

Definition _normalize_isbn (raw : json) : result string :=
  match raw with
  | JStr s =>
      Ok (Py.upper (Py.remove Py.dash_or_space s))
  | _ => Raise (ValidationError "isbn")
  end.

Definition _to_cents (a : amount) : result Z :=
  match a with
  | NotNumeric => Raise (ValidationError "price")
  | Amount dec =>
      if Decimal.is_negative dec then Raise (ValidationError "price")
      else match Decimal.quantize_int (Decimal.mul100 dec) with
           | Some cents => Ok cents
           | None => Raise InvalidOperation
           end
  end.

Definition __init__ (title author isbn : json) (price : amount)
    (currency : json) (quantity : Z) (book_id : json) (archived : bool)
    (created_at : option datetime) : M t :=
  id <- (if Py.truthy book_id then ret book_id
         else (u <- uuid4 ;; ret (JStr u))) ;;
  created_at <- (match created_at with Some d => ret d | None => now end) ;;
  title <- lift (_validate_non_empty "title" title) ;;
  author <- lift (_validate_non_empty "author" author) ;;
  isbn <- lift (_normalize_isbn isbn) ;;
  (if ISBN_RE.match_ isbn then ret tt else raise (ValidationError "isbn")) ;;;
  currency <- lift (_validate_currency currency) ;;
  cents <- lift (_to_cents price) ;;
  quantity <- lift (_validate_non_negative_int "quantity" quantity) ;;
  ret (mk id created_at title author isbn currency cents quantity archived).

(** The [price] setter. *)
Definition set_price (value : amount) (b : t) : result t :=
  cents <~ _to_cents value ;;
  Ok (mk (id b) (created_at b) (title b) (author b) (isbn b)
         (currency b) cents (quantity b) (archived b)).

Definition set_quantity (q : Z) (b : t) : t :=
  mk (id b) (created_at b) (title b) (author b) (isbn b) (currency b)
     (_price_cents b) q (archived b).

Definition increase_stock (n : Z) (b : t) : result t :=
  inc <~ _validate_positive_int "n" n ;;
  Ok (set_quantity (quantity b + inc) b).

Definition decrease_stock (n : Z) (b : t) : result t :=
  dec <~ _validate_positive_int "n" n ;;
  if quantity b <? dec then Raise (ValidationError "quantity")
  else Ok (set_quantity (quantity b - dec) b).

Definition mark_archived (b : t) : t :=
  mk (id b) (created_at b) (title b) (author b) (isbn b) (currency b)
     (_price_cents b) (quantity b) true.

Definition is_available (b : t) : bool :=
  negb (archived b) && (0 <? quantity b).

Definition to_dict (b : t) : json :=
  JDict [("id", id b);
         ("title", JStr (title b));
         ("author", JStr (author b));
         ("isbn", JStr (isbn b));
         ("price_cents", JInt (_price_cents b));
         ("currency", JStr (currency b));
         ("quantity", JInt (quantity b));
         ("archived", JBool (archived b));
         ("created_at", JStr (isoformat (created_at b)))].

Definition from_dict (data : json) : M t :=
  match data with
  | JDict kv =>
      created_at <-
        (match Py.dict_get "created_at" kv with
         | None => ret None
         | Some (JStr s) =>
             match fromisoformat s with
             | Some d => ret (Some d)
             | None => raise ValueError
             end
         | Some _ => raise TypeError
         end) ;;
      cents_raw <- lift (dict_index kv "price_cents") ;;
      cents <- lift (py_int cents_raw) ;;
      let price := Decimal.div100 (Decimal.of_int cents) in
      title <- lift (dict_index kv "title") ;;
      author <- lift (dict_index kv "author") ;;
      isbn <- lift (dict_index kv "isbn") ;;
      quantity <- lift (py_int (dict_get_default kv "quantity" (JInt 0))) ;;
      __init__ title author isbn (Amount price)
               (dict_get_default kv "currency" (JStr "USD"))
               quantity
               (dict_get_none kv "id")
               (Py.truthy (dict_get_default kv "archived" (JBool false)))
               created_at
  | _ => raise TypeError
  end.

End WithPlatform.
End Book.

(* ================================================================== *)
(** ** models/sale.py *)

Module Sale.
Section WithPlatform.
Context {P : Platform}.

(** A frozen dataclass: the constructor checks nothing, so the fields hold
    whatever [from_dict] read. *)
Record t := mk {
  sale_id : json;
  book_id : json;
  isbn : json;
  qty : Z;
  unit_price_cents : Z;
  currency : json;
  timestamp : datetime
}.

Definition total_cents (s : t) : Z := unit_price_cents s * qty s.

Definition unit_price (s : t) : Decimal.t :=
  Decimal.div100 (Decimal.of_int (unit_price_cents s)).

Definition total (s : t) : Decimal.t :=
  Decimal.div100 (Decimal.of_int (total_cents s)).

(** [re.sub(r"[-\s]", "", raw).upper()] *)
Definition clean (raw : string) : string :=
  Py.upper (Py.remove Py.dash_or_ws raw).

Definition _normalize_isbn (raw : json) : result string :=
  match raw with
  | JStr s =>
      let cleaned := clean s in
      if ISBN_RE.match_ cleaned then Ok cleaned else Raise (ValidationError "isbn")
  | _ => Raise (ValidationError "isbn")
  end.

Definition _normalize_currency (value : json) : result string :=
  match value with
  | JStr s => if String.eqb (Py.strip s) "" then Raise (ValidationError "currency")
              else Ok (Py.upper (Py.strip s))
  | _ => Raise (ValidationError "currency")
  end.

Definition _validate_non_empty (field : string) (value : json) : result unit :=
  match value with
  | JStr s => if String.eqb (Py.strip s) "" then Raise (ValidationError field)
              else Ok tt
  | _ => Raise (ValidationError field)
  end.

Definition _validate_positive_int (field : string) (value : Z) : result Z :=
  if value <=? 0 then Raise (ValidationError field) else Ok value.

Definition _validate_non_negative_int (field : string) (value : Z) : result Z :=
  if value <? 0 then Raise (ValidationError field) else Ok value.

(** [book_id.strip()], reached only once [book_id] is known to be a str. *)
Definition strip_str (v : json) : json :=
  match v with JStr s => JStr (Py.strip s) | _ => v end.

Definition create (book_id isbn : json) (qty unit_price_cents : Z)
    (currency : json) (timestamp : option datetime) : M t :=
  lift (_validate_non_empty "book_id" book_id) ;;;
  lift (_validate_positive_int "qty" qty) ;;;
  lift (_validate_non_negative_int "unit_price_cents" unit_price_cents) ;;;
  norm_isbn <- lift (_normalize_isbn isbn) ;;
  norm_currency <- lift (_normalize_currency currency) ;;
  u <- uuid4 ;;
  ts <- (match timestamp with Some d => ret d | None => now end) ;;
  ret (mk (JStr u) (strip_str book_id) (JStr norm_isbn) qty unit_price_cents
          (JStr norm_currency) ts).

Definition to_dict (s : t) : json :=
  JDict [("sale_id", sale_id s);
         ("book_id", book_id s);
         ("isbn", isbn s);
         ("qty", JInt (qty s));
         ("unit_price_cents", JInt (unit_price_cents s));
         ("currency", currency s);
         ("timestamp", JStr (isoformat (timestamp s)))].

Definition from_dict (data : json) : result t :=
  match data with
  | JDict kv =>
      raw_ts <~ dict_index kv "timestamp" ;;
      ts <~ (match raw_ts with
             | JStr s => match fromisoformat s with
                         | Some d => Ok d
                         | None => Raise ValueError
                         end
             | _ => Raise TypeError
             end) ;;
      sale_id <~ dict_index kv "sale_id" ;;
      book_id <~ dict_index kv "book_id" ;;
      isbn <~ dict_index kv "isbn" ;;
      raw_qty <~ dict_index kv "qty" ;;
      qty <~ py_int raw_qty ;;
      raw_cents <~ dict_index kv "unit_price_cents" ;;
      cents <~ py_int raw_cents ;;
      Ok (mk sale_id book_id isbn qty cents
             (dict_get_default kv "currency" (JStr "USD")) ts)
  | _ => Raise TypeError
  end.

End WithPlatform.
End Sale.

(* ================================================================== *)
(** ** repository/book_repository.py *)

Module BookRepository.
Section WithPlatform.
Context {P : Platform}.

Definition _normalize_isbn (raw : string) : string :=
  Py.upper (Py.remove Py.dash_or_space raw).

Definition _find_index_by_id (books : list Book.t) (book_id : json) : option nat :=
  find_index (fun book => Py.eq (Book.id book) book_id) books.

Definition _find_index_by_isbn (books : list Book.t) (isbn : string) : option nat :=
  find_index (fun book => String.eqb (Book.isbn book) isbn) books.

(** The decoding loop: a record whose construction raises ValidationError
    is passed over, any other exception leaves the loop. *)
Fixpoint decode_books (raw_books : list json) : M (list Book.t) :=
  match raw_books with
  | [] => ret []
  | item :: rest =>
      decoded <- try_except (b <- Book.from_dict item ;; ret (Some b))
                            is_ValidationError (ret None) ;;
      books <- decode_books rest ;;
      ret (match decoded with Some b => b :: books | None => books end)
  end.

Definition _load_books : M (list Book.t) :=
  data <- JSONStore.load ;;
  decode_books (books data).

Definition _save_books (bs : list Book.t) : M unit :=
  data <- JSONStore.load ;;
  JSONStore.save (JSONStore.dump (mkDoc (map Book.to_dict bs) (sales data))).

Definition list_all (include_archived : bool) : M (list Book.t) :=
  books <- _load_books ;;
  if include_archived then ret books
  else ret (filter (fun b => negb (Book.archived b)) books).

Definition matches (q : string) (b : Book.t) : bool :=
  Py.contains q (Py.lower (Book.title b))
  || Py.contains q (Py.lower (Book.author b))
  || Py.contains q (Py.lower (Book.isbn b)).

(** [for b in books: if match: results.append(b); if len(results) >= limit: break] *)
Fixpoint search_loop (q : string) (limit : Z) (books results : list Book.t)
  : list Book.t :=
  match books with
  | [] => results
  | b :: rest =>
      if matches q b then
        let results := (results ++ [b])%list in
        if limit <=? Z.of_nat (List.length results) then results
        else search_loop q limit rest results
      else search_loop q limit rest results
  end.

Definition sort_key (b : Book.t) : string * string :=
  (Py.lower (Book.title b), Py.lower (Book.author b)).

(** [<] on a pair of strings, as tuples compare. *)
Definition key_ltb (a b : string * string) : bool :=
  if String.eqb (fst a) (fst b) then String.ltb (snd a) (snd b)
  else String.ltb (fst a) (fst b).

Definition search (query : string) (include_archived : bool) (limit : Z)
  : M (list Book.t) :=
  let q := Py.lower (Py.strip query) in
  if String.eqb q "" then ret []
  else
    books <- list_all include_archived ;;
    ret (sort_by sort_key key_ltb (search_loop q limit books [])).

Definition get_by_id (book_id : string) : M Book.t :=
  books <- _load_books ;;
  match find (fun b => Py.eq (Book.id b) (JStr book_id)) books with
  | Some b => ret b
  | None => raise (BookNotFoundError (Some (JStr book_id)) None)
  end.

Definition get_by_isbn (isbn : string) : M Book.t :=
  let norm := _normalize_isbn isbn in
  books <- _load_books ;;
  match find (fun b => String.eqb (Book.isbn b) norm) books with
  | Some b => ret b
  | None => raise (BookNotFoundError None (Some norm))
  end.

Definition add (book : Book.t) : M unit :=
  books <- _load_books ;;
  if existsb (fun b => String.eqb (Book.isbn b) (Book.isbn book)) books
  then raise (DuplicateISBNError (Book.isbn book))
  else _save_books (books ++ [book])%list.

Definition enumerate {A} (l : list A) : list (nat * A) :=
  combine (seq 0 (List.length l)) l.

(** The collision branch names [DuplicateISBNErrror], which is bound
    nowhere: reaching it raises NameError. *)
Definition update (book : Book.t) : M unit :=
  books <- _load_books ;;
  match _find_index_by_id books (Book.id book) with
  | None => raise (BookNotFoundError (Some (Book.id book)) None)
  | Some idx =>
      if existsb (fun ib => negb (Nat.eqb (fst ib) idx)
                            && String.eqb (Book.isbn (snd ib)) (Book.isbn book))
                 (enumerate books)
      then raise (NameError "DuplicateISBNErrror")
      else _save_books (list_set books idx book)
  end.

Definition remove (book_id : string) : M unit :=
  books <- _load_books ;;
  match _find_index_by_id books (JStr book_id) with
  | None => raise (BookNotFoundError (Some (JStr book_id)) None)
  | Some idx => _save_books (list_del books idx)
  end.

Definition archive_by_isbn (isbn : string) : M unit :=
  books <- _load_books ;;
  let norm := _normalize_isbn isbn in
  match _find_index_by_isbn books norm with
  | None => raise (BookNotFoundError None (Some norm))
  | Some idx => _save_books (list_update books idx Book.mark_archived)
  end.

End WithPlatform.
End BookRepository.

(* ================================================================== *)
(** ** services/inventory_service.py *)

Module InventoryService.
Section WithPlatform.
Context {P : Platform}.

Definition add_book (title author isbn : string) (price : amount)
    (currency : string) (quantity : Z) (update_price_if_changed : bool)
  : M Book.t :=
  if quantity <=? 0 then raise (ValidationError "quantity")
  else
    try_except_then (BookRepository.get_by_isbn isbn) is_BookNotFoundError
      (book <- Book.__init__ (JStr title) (JStr author) (JStr isbn) price
                             (JStr currency) quantity JNull false None ;;
       BookRepository.add book ;;;
       ret book)
      (fun existing =>
         existing <- lift (Book.increase_stock quantity existing) ;;
         existing <- (if update_price_if_changed
                      then lift (Book.set_price price existing)
                      else ret existing) ;;
         BookRepository.update existing ;;;
         ret existing).

Definition set_price (isbn : string) (new_price : amount) : M Book.t :=
  book <- BookRepository.get_by_isbn isbn ;;
  book <- lift (Book.set_price new_price book) ;;
  BookRepository.update book ;;;
  ret book.

Definition set_quantity (isbn : string) (new_qty : Z) : M Book.t :=
  if new_qty <? 0 then raise (ValidationError "quantity")
  else
    book <- BookRepository.get_by_isbn isbn ;;
    let book := Book.set_quantity new_qty book in
    BookRepository.update book ;;;
    ret book.

Definition increase_stock (isbn : string) (by_ : Z) : M Book.t :=
  book <- BookRepository.get_by_isbn isbn ;;
  book <- lift (Book.increase_stock by_ book) ;;
  BookRepository.update book ;;;
  ret book.

Definition decrease_stock (isbn : string) (by_ : Z) : M Book.t :=
  book <- BookRepository.get_by_isbn isbn ;;
  book <- lift (Book.decrease_stock by_ book) ;;
  BookRepository.update book ;;;
  ret book.

(** The repository archives the copy it loads itself; the copy held here
    is returned as it was read. *)
Definition archive_if_empty (isbn : string) : M Book.t :=
  book <- BookRepository.get_by_isbn isbn ;;
  if negb (Book.quantity book =? 0) then raise (ValidationError "quantity")
  else
    BookRepository.archive_by_isbn isbn ;;;
    ret book.

Definition list_all (include_archived : bool) : M (list Book.t) :=
  BookRepository.list_all include_archived.

Definition search_books (query : string) (include_archived : bool) (limit : Z)
  : M (list Book.t) :=
  BookRepository.search query include_archived limit.

End WithPlatform.
End InventoryService.

(* ================================================================== *)
(** ** services/sales_service.py *)

Module SalesService.
Section WithPlatform.
Context {P : Platform}.

Definition sell (isbn : string) (qty : Z) : M Sale.t :=
  if qty <=? 0 then raise (ValidationError "qty")
  else
    book <- BookRepository.get_by_isbn isbn ;;
    if Book.archived book then raise (ValidationError "book")
    else if Book.quantity book <? qty
    then raise (OutOfStockError (Book.isbn book) qty (Book.quantity book))
    else
      sale <- Sale.create (Book.id book) (JStr (Book.isbn book)) qty
                          (Book.price_cents book) (JStr (Book.currency book))
                          None ;;
      book <- lift (Book.decrease_stock qty book) ;;
      BookRepository.update book ;;;
      data <- JSONStore.load ;;
      JSONStore.save
        (JSONStore.dump (mkDoc (books data) (sales data ++ [Sale.to_dict sale])%list)) ;;;
      ret sale.

(** [sales[-limit:]] *)
Definition last_n {A} (n : Z) (l : list A) : list A :=
  skipn (List.length l - Z.to_nat n) l.

Definition list_sales (isbn : option string) (limit : option Z)
  : M (list Sale.t) :=
  data <- JSONStore.load ;;
  sales <- lift (map_result Sale.from_dict (sales data)) ;;
  sales <- (match isbn with
            | Some i =>
                if negb (String.eqb i "") && negb (String.eqb (Py.strip i) "")
                then
                  norm_isbn <- lift (Sale._normalize_isbn (JStr i)) ;;
                  ret (filter (fun s => Py.eq (Sale.isbn s) (JStr norm_isbn)) sales)
                else ret sales
            | None => ret sales
            end) ;;
  sales <- lift (sort_by_r Sale.timestamp dt_lt sales) ;;
  match limit with
  | Some n => if 0 <? n then ret (last_n n sales) else ret sales
  | None => ret sales
  end.

Definition sales_total (isbn : option string) : M Decimal.t :=
  sales <- list_sales isbn None ;;
  let total_cents := fold_left (fun acc s => acc + Sale.total_cents s) sales 0 in
  ret (Decimal.div100 (Decimal.of_int total_cents)).

End WithPlatform.
End SalesService.

(* ================================================================== *)
(** ** bookstore.py: the facade *)

Module Bookstore.
Section WithPlatform.
Context {P : Platform}.

Record BookstoreStats := mkStats {
  total_titles : Z;
  active_titles : Z;
  archived_titles : Z;
  total_quantity : Z;
  sales_count : Z;
  revenue : Decimal.t
}.

(** [Bookstore(db_path)]: the store is made, and with it the file. *)
Definition __init__ : M unit := JSONStore.__init__.

Definition add_book := InventoryService.add_book.
Definition set_price := InventoryService.set_price.
Definition set_quantity := InventoryService.set_quantity.
Definition increase_stock := InventoryService.increase_stock.
Definition decrease_stock := InventoryService.decrease_stock.
Definition archive_if_empty := InventoryService.archive_if_empty.
Definition get_book_by_isbn := BookRepository.get_by_isbn.
Definition get_book_by_id := BookRepository.get_by_id.
Definition list_all := InventoryService.list_all.
Definition search := InventoryService.search_books.
Definition sell := SalesService.sell.
Definition list_sales := SalesService.list_sales.
Definition sales_total := SalesService.sales_total.

Definition stats : M BookstoreStats :=
  books <- BookRepository.list_all true ;;
  let total_titles := Z.of_nat (List.length books) in
  let active_titles :=
    fold_left (fun acc b => if negb (Book.archived b) then acc + 1 else acc) books 0 in
  let archived_titles := total_titles - active_titles in
  let total_quantity := fold_left (fun acc b => acc + Book.quantity b) books 0 in
  sales <- SalesService.list_sales None None ;;
  let sales_count := Z.of_nat (List.length sales) in
  revenue <- SalesService.sales_total None ;;
  ret (mkStats total_titles active_titles archived_titles total_quantity
               sales_count revenue).

End WithPlatform.
End Bookstore.

(* ================================================================== *)
(** ** A concrete platform

    Datetimes in the canonical form [datetime.isoformat] prints,
    [YYYY-MM-DDTHH:MM:SS] with an optional [.ffffff], naive or followed by
    the offset [+00:00]; a datetime is such a string, and within one kind
    they compare as the strings do.  The uuid and clock sources
    count up from the seed. *)

Module Concrete.
Import Py.

Definition num (s : string) : option nat :=
  if all_chars is_digit s && negb (String.eqb s "")
  then Some (fold_left (fun acc c => (acc * 10 + (N.to_nat (code c) - 48))%nat)
                       (list_ascii_of_string s) O)
  else None.

Definition days_in_month (y m : nat) : nat :=
  match m with
  | 2 => if (Nat.eqb (y mod 4) 0 && negb (Nat.eqb (y mod 100) 0))
            || Nat.eqb (y mod 400) 0 then 29 else 28
  | 4 | 6 | 9 | 11 => 30
  | _ => 31
  end%nat.

Definition sep_at (i : nat) (c : string) (s : string) : bool :=
  String.eqb (String.substring i 1 s) c.

Definition iso_valid (s : string) : bool :=
  let field i n := num (String.substring i n s) in
  (Nat.eqb (String.length s) 19
   || (Nat.eqb (String.length s) 26 && sep_at 19 "." s
       && match field 20%nat 6%nat with Some _ => true | None => false end))
  && sep_at 4 "-" s && sep_at 7 "-" s && sep_at 10 "T" s
  && sep_at 13 ":" s && sep_at 16 ":" s
  && match field 0%nat 4%nat, field 5%nat 2%nat, field 8%nat 2%nat,
           field 11%nat 2%nat, field 14%nat 2%nat, field 17%nat 2%nat with
     | Some y, Some m, Some d, Some hh, Some mm, Some ss =>
         ((1 <=? y) && (1 <=? m) && (m <=? 12) && (1 <=? d)
          && (d <=? days_in_month y m) && (hh <? 24) && (mm <? 60) && (ss <? 60))%nat
     | _, _, _, _, _, _ => false
     end.

(** The date and time of day, as printed. *)
Definition stamp : Type := { s : string | iso_valid s = true }.

Definition parse (s : string) : option stamp :=
  match iso_valid s as b return iso_valid s = b -> option stamp with
  | true => fun H => Some (exist _ s H)
  | false => fun _ => None
  end eq_refl.

(** A datetime: naive, or aware at the offset [+00:00]. *)
Record datetime := at_zone { utc : bool; local : stamp }.

Definition isoformat (d : datetime) : string :=
  if utc d then proj1_sig (local d) ++ "+00:00" else proj1_sig (local d).

Definition ends_utc (s : string) : bool :=
  (Nat.eqb (String.length s) 25 || Nat.eqb (String.length s) 32)
  && String.eqb (String.substring (String.length s - 6) 6 s) "+00:00".

Definition fromisoformat (s : string) : option datetime :=
  if ends_utc s
  then option_map (at_zone true) (parse (String.substring 0 (String.length s - 6) s))
  else option_map (at_zone false) (parse s).

Definition aware (d : datetime) : bool := utc d.

(** Within one kind the datetimes are in the order of their stamps. *)
Definition dt_ltb (a b : datetime) : bool :=
  String.ltb (proj1_sig (local a)) (proj1_sig (local b)).

Definition epoch_stamp : stamp :=
  exist _ "2025-01-01T00:00:00.000000" eq_refl.

Definition epoch : datetime := at_zone false epoch_stamp.

Fixpoint digits_of (width n : nat) : string :=
  match width with
  | O => EmptyString
  | S w => digits_of w (n / 10) ++ String (ascii_of_nat (48 + n mod 10)) EmptyString
  end.

(** The clock advances one microsecond per reading and is naive. *)
Definition now_at (n : nat) : datetime :=
  at_zone false
    match parse ("2025-01-01T00:00:00." ++ digits_of 6 n) with
    | Some d => d
    | None => epoch_stamp
    end.

Definition uuid4_at (n : nat) : string :=
  "00000000-0000-4000-8000-" ++ digits_of 12 n.

End Concrete.

(** ** The concrete platform obeys the laws *)

Lemma concrete_fromisoformat_some (s : string) (H : Concrete.iso_valid s = true) :
  Concrete.parse s = Some (exist _ s H).
Proof.
  unfold Concrete.parse.
  generalize (eq_refl (Concrete.iso_valid s)).
  generalize (Concrete.iso_valid s) at 2 3.
  intros b e. destruct b.
  - f_equal. f_equal. apply Eqdep_dec.UIP_dec. apply Bool.bool_dec.
  - congruence.
Qed.

Lemma stamp_length (s : string) :
  Concrete.iso_valid s = true ->
  String.length s = 19%nat \/ String.length s = 26%nat.
Proof.
  unfold Concrete.iso_valid. intros H.
  repeat (apply andb_prop in H as [H _]).
  apply orb_prop in H as [H|H].
  - left. now apply Nat.eqb_eq.
  - right. repeat (apply andb_prop in H as [H _]). now apply Nat.eqb_eq.
Qed.

Lemma substring_app_l (s t : string) :
  String.substring 0 (String.length s) (s ++ t) = s.
Proof.
  induction s as [|c r IH]; cbn; [now destruct t|]. now rewrite IH.
Qed.

Lemma substring_app_r (s t : string) (n : nat) :
  String.substring (String.length s) n (s ++ t) = String.substring 0 n t.
Proof. induction s as [|c r IH]; cbn; [reflexivity | exact IH]. Qed.

Lemma length_app_str (s t : string) :
  String.length (s ++ t) = (String.length s + String.length t)%nat.
Proof. induction s as [|c r IH]; cbn; [reflexivity | now rewrite IH]. Qed.

Lemma concrete_fromisoformat_isoformat (d : Concrete.datetime) :
  Concrete.fromisoformat (Concrete.isoformat d) = Some d.
Proof.
  destruct d as [u [s H]]. unfold Concrete.isoformat, Concrete.fromisoformat.
  cbn [Concrete.utc Concrete.local proj1_sig].
  pose proof (stamp_length s H) as Hlen. destruct u.
  - assert (E : Concrete.ends_utc (s ++ "+00:00") = true).
    { unfold Concrete.ends_utc. rewrite length_app_str. cbn [String.length].
      replace (String.length s + 6 - 6)%nat with (String.length s) by lia.
      rewrite substring_app_r. cbn [String.substring].
      rewrite String.eqb_refl, andb_true_r.
      destruct Hlen as [-> | ->]; reflexivity. }
    rewrite E, length_app_str. cbn [String.length].
    replace (String.length s + 6 - 6)%nat with (String.length s) by lia.
    rewrite substring_app_l. now rewrite (concrete_fromisoformat_some s H).
  - assert (E : Concrete.ends_utc s = false).
    { unfold Concrete.ends_utc. destruct Hlen as [-> | ->]; reflexivity. }
    rewrite E. now rewrite (concrete_fromisoformat_some s H).
Qed.

Lemma string_ltb_asym (a b : string) : String.ltb a b = true -> String.ltb b a = false.
Proof.
  unfold String.ltb. rewrite (String.compare_antisym b a).
  destruct (String.compare a b); simpl; congruence.
Qed.

Lemma concrete_uuid4_not_empty (n : nat) : Concrete.uuid4_at n <> EmptyString.
Proof. unfold Concrete.uuid4_at. cbn [append]. discriminate. Qed.

#[global] Instance concrete_platform : Platform := {|
  datetime := Concrete.datetime;
  isoformat := Concrete.isoformat;
  fromisoformat := Concrete.fromisoformat;
  aware := Concrete.aware;
  dt_ltb := Concrete.dt_ltb;
  uuid4_at := Concrete.uuid4_at;
  now_at := Concrete.now_at;
  fromisoformat_isoformat := concrete_fromisoformat_isoformat;
  dt_ltb_asym := fun a b => string_ltb_asym _ _;
  uuid4_not_empty := concrete_uuid4_not_empty;
  now_naive := fun n => eq_refl
|}.

(* ================================================================== *)
(** ** Invariants and observations the statements speak of *)

Module Inv.

(** The sales collection as it stands in the file (empty when the file
    holds none). *)
Definition stored_sales (f : file) : list json :=
  match f with
  | Parsed (JDict kv) =>
      match dict_get_none kv "sales" with
      | JList ss => ss
      | _ => []
      end
  | _ => []
  end.

(** How [load] and [save] read one top-level field: [load] takes a missing
    one for the empty list, [save] insists on a list. *)
Definition lenient (field : json) : option (list json) :=
  match field with
  | JNull => Some []
  | JList l => Some l
  | _ => None
  end.

Definition is_None (field : json) : bool :=
  match field with JNull => true | _ => false end.

(** The shape rules of the store, as the specification words them (with a
    null field read as a missing one). *)
Definition load_rule (data : json) : result document :=
  match data with
  | JDict kv =>
      match lenient (dict_get_none kv "books"), lenient (dict_get_none kv "sales") with
      | Some bs, Some ss => Ok (mkDoc bs ss)
      | _, _ => Raise (StorageError NotArrays)
      end
  | _ => Raise (StorageError RootNotObject)
  end.

Definition save_rule (data : json) : result document :=
  match data with
  | JDict kv =>
      let b := dict_get_none kv "books" in
      let s := dict_get_none kv "sales" in
      if is_None b || is_None s then Raise (StorageError MissingKeys)
      else match b, s with
           | JList bs, JList ss => Ok (mkDoc bs ss)
           | _, _ => Raise (StorageError NotArrays)
           end
  | _ => Raise (StorageError RootNotObject)
  end.

(** An operation that leaves the stored sales as they are, and one that
    may add at most [n] records at the end. *)
Definition keeps {A} (m : M A) : Prop :=
  forall w, stored_sales (fs (snd (m w))) = stored_sales (fs w).

(** A step that does not write the file. *)
Definition untouched {A} (m : M A) : Prop :=
  forall w, fs (snd (m w)) = fs w.

Definition grows {A} (n : nat) (m : M A) : Prop :=
  forall w, exists extra,
    stored_sales (fs (snd (m w))) = (stored_sales (fs w) ++ extra)%list
    /\ (List.length extra <= n)%nat.

Section WithPlatform.
Context {P : Platform}.

(** What the constructor guarantees of a Book (the class docstring):
    a usable id, trimmed non-empty title and author, a normalised ISBN of
    the right shape, a trimmed upper-case currency, cents and quantity that
    are not negative. *)
Record valid_book (b : Book.t) : Prop := {
  id_truthy : Py.truthy (Book.id b) = true;
  title_trimmed : Py.strip (Book.title b) = Book.title b;
  title_not_empty : Book.title b <> "";
  author_trimmed : Py.strip (Book.author b) = Book.author b;
  author_not_empty : Book.author b <> "";
  isbn_normal : Py.upper (Py.remove Py.dash_or_space (Book.isbn b)) = Book.isbn b;
  isbn_shape : ISBN_RE.match_ (Book.isbn b) = true;
  currency_trimmed : Py.strip (Book.currency b) = Book.currency b;
  currency_upper : Py.upper (Book.currency b) = Book.currency b;
  currency_not_empty : Book.currency b <> "";
  cents_range : 0 <= Book.price_cents b < 10 ^ 28;
  quantity_range : 0 <= Book.quantity b
}.

(** An id that a sale can refer to: a string with something in it. *)
Definition usable_id (b : Book.t) : Prop :=
  exists s, Book.id b = JStr s /\ Py.strip s <> "".

(** The file holds the document of section 3: the encoded books [bs], one
    per id and one per ISBN, and the sales [ss]. *)
Record ledger (w : world) (bs : list Book.t) (ss : list json) : Prop := {
  on_disk : fs w = Parsed (JSONStore.dump (mkDoc (map Book.to_dict bs) ss));
  books_valid : Forall valid_book bs;
  ids_usable : Forall usable_id bs;
  ids_unique : NoDup (map Book.id bs);
  isbns_unique : NoDup (map Book.isbn bs)
}.

(** The sale [Sale.create] makes of a valid book, with the id and the time
    the sources give next. *)
Definition sale_of (w : world) (b : Book.t) (qty : Z) : Sale.t :=
  Sale.mk (JStr (uuid4_at (seed w))) (Sale.strip_str (Book.id b))
          (JStr (Sale.clean (Book.isbn b))) qty (Book.price_cents b)
          (JStr (Book.currency b)) (now_at (S (seed w))).

(** [decoded raw bs]: [bs] are the records of [raw] that decode, in order;
    every other record raised ValidationError. *)
Inductive decoded : list json -> list Book.t -> Prop :=
| decoded_nil : decoded [] []
| decoded_keep item b w w' raw bs :
    Book.from_dict item w = (Ok b, w') ->
    decoded raw bs -> decoded (item :: raw) (b :: bs)
| decoded_skip item field w w' raw bs :
    Book.from_dict item w = (Raise (ValidationError field), w') ->
    decoded raw bs -> decoded (item :: raw) bs.

(** A record that decodes or fails validation, whatever the sources give. *)
Definition recoverable (item : json) : Prop :=
  forall w, match fst (Book.from_dict item w) with
            | Ok _ => True
            | Raise e => is_ValidationError e = true
            end.

(** The normalised form of an ISBN filter: hyphens and white space taken
    out, letters in upper case. *)
Definition filter_key (i : string) : string :=
  Py.upper (Py.remove Py.dash_or_ws i).

(** Which sales the optional ISBN filter of [list_sales] lets through: all
    of them when there is no filter or a blank one, else, for a filter
    whose normalised form has the shape of an ISBN, those whose ISBN is
    that normalised form. *)
Inductive selects : option string -> list Sale.t -> list Sale.t -> Prop :=
| selects_all all : selects None all all
| selects_blank i all : Py.strip i = "" -> selects (Some i) all all
| selects_isbn i all :
    Py.strip i <> "" -> ISBN_RE.match_ (filter_key i) = true ->
    selects (Some i) all
            (filter (fun s => Py.eq (Sale.isbn s) (JStr (filter_key i))) all).

(** Sales whose timestamps compare: all naive, or all offset-aware. *)
Definition comparable (l : list Sale.t) : Prop :=
  forall a b, In a l -> In b l ->
    aware (Sale.timestamp a) = aware (Sale.timestamp b).

(** [b'] is [b] but for the quantity, the price, the archived flag. *)
Definition same_but_quantity (b b' : Book.t) : Prop :=
  Book.id b' = Book.id b /\ Book.created_at b' = Book.created_at b /\
  Book.title b' = Book.title b /\ Book.author b' = Book.author b /\
  Book.isbn b' = Book.isbn b /\ Book.currency b' = Book.currency b /\
  Book.price_cents b' = Book.price_cents b /\ Book.archived b' = Book.archived b.

Definition same_but_price (b b' : Book.t) : Prop :=
  Book.id b' = Book.id b /\ Book.created_at b' = Book.created_at b /\
  Book.title b' = Book.title b /\ Book.author b' = Book.author b /\
  Book.isbn b' = Book.isbn b /\ Book.currency b' = Book.currency b /\
  Book.quantity b' = Book.quantity b /\ Book.archived b' = Book.archived b.

Definition same_but_archived (b b' : Book.t) : Prop :=
  Book.id b' = Book.id b /\ Book.created_at b' = Book.created_at b /\
  Book.title b' = Book.title b /\ Book.author b' = Book.author b /\
  Book.isbn b' = Book.isbn b /\ Book.currency b' = Book.currency b /\
  Book.price_cents b' = Book.price_cents b /\ Book.quantity b' = Book.quantity b.

(** A search hit, in the words of the specification: the query, trimmed
    and in lower case, occurs as a substring in the lower-cased title,
    author or ISBN. *)
Definition occurs_in (q s : string) : Prop :=
  exists pre post, s = (pre ++ q ++ post)%string.

Definition hit (query : string) (b : Book.t) : Prop :=
  let q := Py.lower (Py.strip query) in
  occurs_in q (Py.lower (Book.title b)) \/
  occurs_in q (Py.lower (Book.author b)) \/
  occurs_in q (Py.lower (Book.isbn b)).

(** The order of the results: by (title, author) in lower case, the pairs
    compared as tuples are, first by the titles and by the authors when
    the titles are equal. *)
Definition title_author (b : Book.t) : string * string :=
  (Py.lower (Book.title b), Py.lower (Book.author b)).

Definition pair_lt (x y : string * string) : Prop :=
  String.ltb (fst x) (fst y) = true \/
  (fst x = fst y /\ String.ltb (snd x) (snd y) = true).

Definition in_title_author_order (a b : Book.t) : Prop :=
  ~ pair_lt (title_author b) (title_author a).

(** Neighbours in ascending order of their keys: the later one is not
    below the earlier one. *)
Definition ascending {A K} (key : A -> K) (ltb : K -> K -> bool) (a b : A) : Prop :=
  ltb (key b) (key a) = false.

(** The mutating operations of the ledger and the services. *)
Inductive command :=
| Add (book : Book.t)
| Update (book : Book.t)
| Remove (book_id : string)
| ArchiveByIsbn (isbn : string)
| AddBook (title author isbn : string) (price : amount) (currency : string)
          (quantity : Z) (update_price_if_changed : bool)
| SetPrice (isbn : string) (new_price : amount)
| SetQuantity (isbn : string) (new_qty : Z)
| IncreaseStock (isbn : string) (by_ : Z)
| DecreaseStock (isbn : string) (by_ : Z)
| ArchiveIfEmpty (isbn : string)
| Sell (isbn : string) (qty : Z).

Definition is_sell (c : command) : bool :=
  match c with Sell _ _ => true | _ => false end.

Definition forget {A} (m : M A) : M unit := bind m (fun _ => ret tt).

Definition run (c : command) : M unit :=
  match c with
  | Add book => BookRepository.add book
  | Update book => BookRepository.update book
  | Remove book_id => BookRepository.remove book_id
  | ArchiveByIsbn isbn => BookRepository.archive_by_isbn isbn
  | AddBook title author isbn price currency quantity upd =>
      forget (InventoryService.add_book title author isbn price currency quantity upd)
  | SetPrice isbn new_price => forget (InventoryService.set_price isbn new_price)
  | SetQuantity isbn new_qty => forget (InventoryService.set_quantity isbn new_qty)
  | IncreaseStock isbn by_ => forget (InventoryService.increase_stock isbn by_)
  | DecreaseStock isbn by_ => forget (InventoryService.decrease_stock isbn by_)
  | ArchiveIfEmpty isbn => forget (InventoryService.archive_if_empty isbn)
  | Sell isbn qty => forget (SalesService.sell isbn qty)
  end.

End WithPlatform.
End Inv.

(* ================================================================== *)
(** ** Sample ledgers on the concrete platform *)

Module Examples.

Definition clean_code : Book.t :=
  Book.mk (JStr "b-1") Concrete.epoch "Clean Code" "Robert C. Martin"
          "9780132350884" "USD" 1000 2 false.

Definition ddd : Book.t :=
  Book.mk (JStr "b-2") Concrete.epoch "DDD" "Evans"
          "9780321125217" "USD" 1500 0 false.

Definition ddd_archived : Book.t := Book.mark_archived ddd.

Definition store_of (bs : list Book.t) (ss : list json) : world :=
  mkWorld (Parsed (JSONStore.dump (mkDoc (map Book.to_dict bs) ss))) 0.

Definition raw_store (raw_books : list json) : world :=
  mkWorld (Parsed (JSONStore.dump (mkDoc raw_books []))) 0.

(** The Book the constructor makes of " Clean Code " at price 12.34 when
    the sources are at their start. *)
Definition new_clean_code : Book.t :=
  Book.mk (JStr (Concrete.uuid4_at 0)) (Concrete.now_at 1) "Clean Code"
          "Robert C. Martin" "9780132350884" "USD" 1234 5 false.

(** [clean_code] with its ISBN changed to the one [ddd] has. *)
Definition clean_code_as_ddd : Book.t :=
  Book.mk (JStr "b-1") Concrete.epoch "Clean Code" "Robert C. Martin"
          "9780321125217" "USD" 1000 2 false.

(** A record without a title, and one whose timestamp is no date. *)
Definition no_title : json :=
  JDict [("id", JStr "b-3"); ("author", JStr "Fowler");
         ("isbn", JStr "9780201485677"); ("price_cents", JInt 1100)].

Definition bad_timestamp : json :=
  JDict [("id", JStr "b-4"); ("title", JStr "Refactoring");
         ("author", JStr "Fowler"); ("isbn", JStr "9780201485677");
         ("price_cents", JInt 1100); ("created_at", JStr "yesterday")].

(** A record that fails validation: the title is blank. *)
Definition blank_title : json :=
  JDict [("id", JStr "b-5"); ("title", JStr "  "); ("author", JStr "Fowler");
         ("isbn", JStr "9780201485677"); ("price_cents", JInt 1100);
         ("created_at", JStr "2025-01-01T00:00:00")].

(** A book of another author named Martin. *)
Definition refactoring : Book.t :=
  Book.mk (JStr "b-3") Concrete.epoch "Refactoring" "Martin Fowler"
          "9780201485677" "USD" 1100 4 false.

(** Three sales, stored out of chronological order. *)
Definition at_ (iso : string) (ok : Concrete.iso_valid iso = true) : Concrete.datetime :=
  Concrete.at_zone false (exist _ iso ok).

(** The same, with the offset [+00:00]. *)
Definition at_utc (iso : string) (ok : Concrete.iso_valid iso = true)
  : Concrete.datetime :=
  Concrete.at_zone true (exist _ iso ok).

Definition sale_march : Sale.t :=
  Sale.mk (JStr "s-1") (JStr "b-1") (JStr "9780132350884") 1 1000 (JStr "USD")
          (at_ "2025-03-01T10:00:00" eq_refl).

Definition sale_january : Sale.t :=
  Sale.mk (JStr "s-2") (JStr "b-1") (JStr "9780132350884") 2 900 (JStr "USD")
          (at_ "2025-01-15T09:30:00" eq_refl).

Definition sale_february : Sale.t :=
  Sale.mk (JStr "s-3") (JStr "b-2") (JStr "9780321125217") 1 1500 (JStr "USD")
          (at_ "2025-02-10T18:45:00.250000" eq_refl).

Definition three_sales : list Sale.t := [sale_march; sale_january; sale_february].

(** A sale whose stored timestamp carries an offset. *)
Definition sale_april_utc : Sale.t :=
  Sale.mk (JStr "s-4") (JStr "b-1") (JStr "9780132350884") 1 1000 (JStr "USD")
          (at_utc "2025-04-02T08:15:00" eq_refl).

(** A file whose 'books' field is null. *)
Definition null_books : json := JDict [("books", JNull); ("sales", JList [])].

(** [clean_code] after three more copies came in at 12.50, and with the
    ISBN of a new edition. *)
Definition restocked : Book.t :=
  Book.mk (JStr "b-1") Concrete.epoch "Clean Code" "Robert C. Martin"
          "9780132350884" "USD" 1250 5 false.

Definition reissued : Book.t :=
  Book.mk (JStr "b-1") Concrete.epoch "Clean Code" "Robert C. Martin"
          "9780201485677" "USD" 1000 2 false.

(** The sale of one copy of [clean_code] from the two-book ledger, and the
    ledger after it. *)
Definition first_sale : Sale.t :=
  Sale.mk (JStr (Concrete.uuid4_at 0)) (JStr "b-1") (JStr "9780132350884") 1 1000
          (JStr "USD") (Concrete.now_at 1).

Definition after_first_sale : world :=
  mkWorld (Parsed (JSONStore.dump
                     (mkDoc (map Book.to_dict [Book.set_quantity 1 clean_code; ddd])
                            [Sale.to_dict first_sale]))) 2.

End Examples.

(* ================================================================== *)
(** ** Further observations: the catalogue, revenue, what a step may do *)

Module Obs.

(** The books collection as it stands in the file. *)
Definition stored_books (f : file) : list json :=
  match f with
  | Parsed (JDict kv) =>
      match dict_get_none kv "books" with
      | JList bs => bs
      | _ => []
      end
  | _ => []
  end.

(** The file is as it was, or it was missing and is now the empty
    document. *)
Definition boot (f f' : file) : Prop :=
  f' = f \/ (f = Missing /\ f' = Parsed JSONStore._default_data).

(** A step that writes nothing but the empty document for a missing file. *)
Definition reads_only {A} (m : M A) : Prop :=
  forall w, boot (fs w) (fs (snd (m w))).

(** A step that has written nothing (the same exception apart) when it
    raises. *)
Definition all_or_nothing {A} (m : M A) : Prop :=
  forall w e w', m w = (Raise e, w') -> boot (fs w) (fs w').

Section WithPlatform.
Context {P : Platform}.

(** [sum(s.total_cents for s in sales)] *)
Definition sum_cents (sales : list Sale.t) : Z :=
  fold_left (fun acc s => acc + Sale.total_cents s) sales 0.

(** The file holds encoded valid books, one per ISBN: the ledger of
    [Inv.ledger] without what it asks of the ids. *)
Record catalog (w : world) (bs : list Book.t) (ss : list json) : Prop := {
  cat_on_disk : fs w = Parsed (JSONStore.dump (mkDoc (map Book.to_dict bs) ss));
  cat_valid : Forall Inv.valid_book bs;
  cat_isbns : NoDup (map Book.isbn bs)
}.

(** A step that, when it returns, leaves a catalogue with the sales it
    found. *)
Definition settles {A} (m : M A) : Prop :=
  forall w w' a bs ss, catalog w bs ss -> m w = (Ok a, w') ->
    exists bs', catalog w' bs' ss.

(** What [list_all] returns of the decoded books. *)
Definition all_or_active (include_archived : bool) (bs : list Book.t) : list Book.t :=
  if include_archived then bs else filter (fun b => negb (Book.archived b)) bs.

(** The arguments of a command that are Books meet the class invariants. *)
Definition well_formed (c : Inv.command) : Prop :=
  match c with
  | Inv.Add book | Inv.Update book => Inv.valid_book book
  | _ => True
  end.

End WithPlatform.
End Obs.

(* ================================================================== *)
(** * Properties *)

(* ================================================================== *)
(** ** Decimal: cents survive the trip through [Decimal(cents) / 100] *)

Module DecimalFacts.
Import Decimal.

Lemma ndigits_fuel_spec (f : nat) :
  forall x, 0 <= x < 2 ^ Z.of_nat f ->
    1 <= ndigits_fuel f x /\ x < 10 ^ ndigits_fuel f x /\
    (0 < x -> 10 ^ (ndigits_fuel f x - 1) <= x).
Proof.
  induction f as [|f IH]; intros x Hx.
  - simpl in *. assert (x = 0) by lia. subst. repeat split; lia.
  - cbn [ndigits_fuel]. destruct (Z.ltb_spec x 10) as [Hlt|Hge].
    + repeat split; simpl; lia.
    + assert (Hq : 0 <= x / 10 < 2 ^ Z.of_nat f).
      { rewrite Nat2Z.inj_succ, Z.pow_succ_r in Hx by lia.
        split; [apply Z.div_pos; lia|].
        apply Z.div_lt_upper_bound; lia. }
      destruct (IH _ Hq) as (H1 & H2 & H3).
      set (m := ndigits_fuel f (x / 10)) in *.
      assert (0 < x / 10) by (apply Z.div_str_pos; lia).
      specialize (H3 H).
      pose proof (Z.div_mod x 10 ltac:(lia)) as Hdm.
      pose proof (Z.mod_pos_bound x 10 ltac:(lia)) as Hmb.
      replace (1 + m - 1) with (Z.succ (m - 1)) by lia.
      replace (1 + m) with (Z.succ m) by lia.
      rewrite !Z.pow_succ_r by lia.
      repeat split; try lia.
  Qed.

Lemma ndigits_spec (c : Z) :
  1 <= ndigits c /\ Z.abs c < 10 ^ ndigits c /\
  (0 < Z.abs c -> 10 ^ (ndigits c - 1) <= Z.abs c).
Proof.
  unfold ndigits. apply ndigits_fuel_spec.
  split; [lia|].
  rewrite Nat2Z.inj_succ, Z2Nat.id by apply Z.log2_nonneg.
  destruct (Z.eq_dec (Z.abs c) 0) as [E|E].
  - rewrite E. simpl. lia.
  - apply Z.log2_spec. lia.
Qed.

Lemma ndigits_le (c k : Z) : 1 <= k -> Z.abs c < 10 ^ k -> ndigits c <= k.
Proof.
  intros Hk Hc. destruct (ndigits_spec c) as (H1 & H2 & H3).
  destruct (Z.eq_dec (Z.abs c) 0) as [E|E].
  - unfold ndigits. rewrite E. simpl. lia.
  - specialize (H3 ltac:(lia)).
    assert (10 ^ (ndigits c - 1) < 10 ^ k) by lia.
    apply Z.pow_lt_mono_r_iff in H; lia.
Qed.

Lemma ndigits_bound (c k : Z) : ndigits c <= k -> Z.abs c < 10 ^ k.
Proof.
  intros Hk. destruct (ndigits_spec c) as (H1 & H2 & _).
  eapply Z.lt_le_trans; [exact H2|]. apply Z.pow_le_mono_r; lia.
Qed.

Lemma round_half_even_exact (q k : Z) :
  0 <= q -> 0 <= k -> round_half_even (q * 10 ^ k) k = q.
Proof.
  intros Hq Hk. unfold round_half_even.
  assert (Hp : 0 < 10 ^ k) by (apply Z.pow_pos_nonneg; lia).
  rewrite Z.abs_eq by nia.
  rewrite Z.div_mul, Z.mod_mul by lia.
  destruct (Z.ltb_spec (2 * 0) (10 ^ k)); [|lia].
  destruct (Z.eq_dec q 0) as [->|Hne]; [simpl; lia|].
  rewrite Z.sgn_pos by nia. lia.
Qed.

Lemma fix_small (d : t) : ndigits (coef d) <= 28 -> fix_ d = d.
Proof.
  intros H. unfold fix_, prec.
  destruct (Z.leb_spec (ndigits (coef d)) 28); [reflexivity | lia].
Qed.

(** Rounding away [k] trailing zeros loses nothing. *)
Lemma fix_exact (q k e : Z) :
  0 <= q -> 0 < k -> ndigits (q * 10 ^ k) = 28 + k -> ndigits q <= 28 ->
  fix_ (mk (q * 10 ^ k) e) = mk q (e + k).
Proof.
  intros Hq Hk Hn Hd. unfold fix_, prec; cbn [coef exp]. rewrite Hn.
  destruct (Z.leb_spec (28 + k) 28); [lia|].
  replace (28 + k - 28) with k by lia.
  rewrite round_half_even_exact by lia.
  destruct (Z.leb_spec (ndigits q) 28); [reflexivity | lia].
Qed.

Lemma quantize_exact (q e : Z) :
  0 <= q -> e <= 0 -> ndigits q <= 28 ->
  quantize_int (mk (q * 10 ^ (- e)) e) = Some q.
Proof.
  intros Hq He Hd. unfold quantize_int, prec; cbn [coef exp].
  destruct (Z.leb_spec 0 e).
  - assert (e = 0) by lia. subst e. simpl (- 0). rewrite !Z.pow_0_r, !Z.mul_1_r.
    destruct (Z.leb_spec (ndigits q) 28); [reflexivity | lia].
  - rewrite round_half_even_exact by lia.
    destruct (Z.leb_spec (ndigits q) 28); [reflexivity | lia].
Qed.

(** The cents of a stored price come back exactly. *)
Lemma quantize_mul100_div100 (c : Z) :
  0 <= c < 10 ^ 28 ->
  quantize_int (mul100 (div100 (of_int c))) = Some c.
Proof.
  intros Hc.
  assert (Hd : ndigits c <= 28) by (apply ndigits_le; [lia | rewrite Z.abs_eq; lia]).
  unfold div100, of_int; cbn [coef exp]. rewrite fix_small by exact Hd.
  unfold mul100; cbn [coef exp]. change (0 - 2) with (-2).
  assert (Hup : ndigits (c * 100) <= 30).
  { apply ndigits_le; [lia | rewrite Z.abs_eq; lia]. }
  destruct (Z.le_gt_cases (ndigits (c * 100)) 28) as [Hs|Hl].
  - rewrite fix_small by exact Hs.
    apply (quantize_exact c (-2)); lia.
  - assert (Hk : ndigits (c * 100) = 28 + 1 \/ ndigits (c * 100) = 28 + 2) by lia.
    destruct Hk as [E|E].
    + assert (H10 : ndigits (c * 10) <= 28).
      { apply ndigits_le; [lia|]. rewrite Z.abs_eq by lia.
        pose proof (ndigits_bound (c * 100) 29 ltac:(lia)) as Hb.
        rewrite Z.abs_eq in Hb by lia.
        change (10 ^ 29) with (10 * 10 ^ 28) in Hb. lia. }
      replace (c * 100) with ((c * 10) * 10 ^ 1) in * by lia.
      rewrite fix_exact by (try exact E; lia).
      apply (quantize_exact c (-1)); lia.
    + change 100 with (10 ^ 2) in *.
      rewrite fix_exact by (try exact E; lia).
      rewrite <- (Z.mul_1_r c) at 1.
      apply (quantize_exact c 0); lia.
Qed.

(** What [quantize_int] returns fits the precision. *)
Lemma quantize_int_bound (d : t) (c : Z) :
  quantize_int d = Some c -> Z.abs c < 10 ^ 28.
Proof.
  unfold quantize_int. set (v := if 0 <=? exp d then _ else _).
  destruct (Z.leb_spec (ndigits v) prec) as [H|H]; [|discriminate].
  intros [= <-]. apply ndigits_bound. exact H.
Qed.

End DecimalFacts.

(* ================================================================== *)
(** ** Strings: normalisation reaches a fixed point *)

Module PyFacts.
Import Py.

Ltac by_char c := destruct c as [[] [] [] [] [] [] [] []]; reflexivity.

Lemma upper_char_idem c : upper_char (upper_char c) = upper_char c.
Proof. by_char c. Qed.

Lemma is_space_upper_char c : is_space (upper_char c) = is_space c.
Proof. by_char c. Qed.

Lemma upper_idem s : upper (upper s) = upper s.
Proof.
  induction s as [|c r IH]; [reflexivity|].
  unfold upper in *. cbn [map_str]. now rewrite upper_char_idem, IH.
Qed.

Lemma lstrip_upper s : lstrip (upper s) = upper (lstrip s).
Proof.
  induction s as [|c r IH]; [reflexivity|].
  unfold upper in *. cbn [map_str lstrip]. rewrite is_space_upper_char.
  destruct (is_space c); [exact IH | reflexivity].
Qed.

Lemma rstrip_upper s : rstrip (upper s) = upper (rstrip s).
Proof.
  induction s as [|c r IH]; [reflexivity|].
  unfold upper in *. cbn [map_str rstrip]. rewrite IH, is_space_upper_char.
  destruct (rstrip r); cbn [map_str]; [destruct (is_space c)|]; reflexivity.
Qed.

Lemma strip_upper s : strip (upper s) = upper (strip s).
Proof. unfold strip. now rewrite lstrip_upper, rstrip_upper. Qed.

Definition no_lead (s : string) : bool :=
  match s with
  | EmptyString => true
  | String c _ => negb (is_space c)
  end.

Lemma lstrip_no_lead s : no_lead (lstrip s) = true.
Proof.
  induction s as [|c r IH]; [reflexivity|]. cbn [lstrip].
  destruct (is_space c) eqn:E; [exact IH | cbn; now rewrite E].
Qed.

Lemma lstrip_fixed s : no_lead s = true -> lstrip s = s.
Proof.
  destruct s as [|c r]; [reflexivity|]. cbn. now destruct (is_space c).
Qed.

Lemma rstrip_no_lead s : no_lead s = true -> no_lead (rstrip s) = true.
Proof.
  destruct s as [|c r]; [reflexivity|]. cbn [no_lead rstrip]. intros H.
  destruct (rstrip r); [|exact H].
  destruct (is_space c) eqn:E; [discriminate | cbn; now rewrite E].
Qed.

Lemma rstrip_idem s : rstrip (rstrip s) = rstrip s.
Proof.
  induction s as [|c r IH]; [reflexivity|]. cbn [rstrip].
  destruct (rstrip r) as [|c' r'] eqn:E.
  - destruct (is_space c) eqn:Ec; [reflexivity|]. cbn. now rewrite Ec.
  - cbn [rstrip]. cbn [rstrip] in IH. now rewrite IH.
Qed.

Lemma strip_idem s : strip (strip s) = strip s.
Proof.
  unfold strip.
  rewrite (lstrip_fixed (rstrip (lstrip s))).
  - apply rstrip_idem.
  - apply rstrip_no_lead, lstrip_no_lead.
Qed.

Lemma remove_idem p s : remove p (remove p s) = remove p s.
Proof.
  induction s as [|c r IH]; [reflexivity|]. cbn [remove].
  destruct (p c) eqn:E; [exact IH|]. cbn [remove]. now rewrite E, IH.
Qed.

Lemma remove_upper p s :
  (forall c, p (upper_char c) = p c) ->
  remove p (upper s) = upper (remove p s).
Proof.
  intros Hp. induction s as [|c r IH]; [reflexivity|].
  unfold upper in *. cbn [map_str remove]. rewrite Hp.
  destruct (p c); cbn [map_str]; now rewrite IH.
Qed.

Definition dash_or_space (c : ascii) : bool :=
  (Ascii.eqb c "-" || Ascii.eqb c " ")%char.

Lemma dash_or_space_upper c : dash_or_space (upper_char c) = dash_or_space c.
Proof. by_char c. Qed.

(** The ledger's ISBN normalisation is idempotent. *)
Lemma normalize_isbn_idem s :
  upper (remove dash_or_space (upper (remove dash_or_space s)))
  = upper (remove dash_or_space s).
Proof.
  rewrite remove_upper by apply dash_or_space_upper.
  now rewrite remove_idem, upper_idem.
Qed.

End PyFacts.

(* ================================================================== *)
(** ** Reading a run of the monad backwards *)

Lemma bind_ok {A B} (m : M A) (k : A -> M B) w b w' :
  bind m k w = (Ok b, w') ->
  exists a w1, m w = (Ok a, w1) /\ k a w1 = (Ok b, w').
Proof.
  unfold bind. destruct (m w) as [[a|e] w1]; [eauto | discriminate].
Qed.

Lemma bind_eq_ok {A B} (m : M A) (k : A -> M B) w a w1 :
  m w = (Ok a, w1) -> bind m k w = k a w1.
Proof. unfold bind. now intros ->. Qed.

Lemma lift_ok {A} (r : result A) w a w' :
  lift r w = (Ok a, w') -> r = Ok a /\ w' = w.
Proof. unfold lift. now intros [= -> ->]. Qed.

Lemma ret_ok {A} (x : A) w a w' : ret x w = (Ok a, w') -> a = x /\ w' = w.
Proof. unfold ret. now intros [= -> ->]. Qed.

(* ================================================================== *)
(** ** Book: the constructor's invariants and the encode/decode trip *)

Module BookFacts.
Section WithPlatform.
Context {P : Platform}.
Import Decimal DecimalFacts.

Lemma round_half_even_nonneg (c k : Z) :
  0 <= c -> 0 <= k -> 0 <= round_half_even c k.
Proof.
  intros Hc Hk. unfold round_half_even.
  assert (Hp : 0 < 10 ^ k) by (apply Z.pow_pos_nonneg; lia).
  assert (Hq : 0 <= Z.abs c / 10 ^ k) by (apply Z.div_pos; lia).
  assert (Hs : 0 <= Z.sgn c) by lia.
  destruct (2 * (Z.abs c mod 10 ^ k) <? 10 ^ k); [nia|].
  destruct (10 ^ k <? 2 * (Z.abs c mod 10 ^ k)); [nia|].
  destruct (Z.even _); nia.
Qed.

Lemma fix_nonneg (d : t) : 0 <= coef d -> 0 <= coef (fix_ d).
Proof.
  intros H. unfold fix_, prec.
  destruct (Z.leb_spec (ndigits (coef d)) 28); [exact H|].
  assert (0 <= round_half_even (coef d) (ndigits (coef d) - 28))
    by (apply round_half_even_nonneg; lia).
  destruct (_ <=? 28); cbn [coef]; [lia|].
  apply Z.div_pos; lia.
Qed.

Lemma quantize_int_nonneg (d : t) (c : Z) :
  0 <= coef d -> quantize_int d = Some c -> 0 <= c.
Proof.
  intros H. unfold quantize_int.
  destruct (Z.leb_spec 0 (exp d)) as [He|He].
  - destruct (_ <=? prec); [|discriminate]. intros [= <-].
    assert (0 <= 10 ^ exp d) by (apply Z.pow_nonneg; lia). nia.
  - destruct (_ <=? prec); [|discriminate]. intros [= <-].
    apply round_half_even_nonneg; lia.
Qed.

Lemma to_cents_range (a : amount) (c : Z) :
  Book._to_cents a = Ok c -> 0 <= c < 10 ^ 28.
Proof.
  unfold Book._to_cents. destruct a as [d|]; [|discriminate].
  unfold is_negative. destruct (Z.ltb_spec (coef d) 0) as [|Hd]; [discriminate|].
  destruct (quantize_int (mul100 d)) as [c'|] eqn:E; [|discriminate].
  intros [= <-].
  pose proof (quantize_int_bound _ _ E).
  assert (0 <= c'); [|lia].
  eapply quantize_int_nonneg; [|exact E].
  unfold mul100. apply fix_nonneg. cbn [coef]. lia.
Qed.

Lemma to_cents_div100 (c : Z) :
  0 <= c < 10 ^ 28 ->
  Book._to_cents (Amount (div100 (of_int c))) = Ok c.
Proof.
  intros Hc. unfold Book._to_cents.
  rewrite quantize_mul100_div100 by exact Hc.
  unfold div100, of_int; cbn [coef exp].
  rewrite fix_small
    by (cbn [coef]; apply ndigits_le; [lia | rewrite Z.abs_eq; lia]).
  unfold is_negative; cbn [coef].
  destruct (Z.ltb_spec c 0); [lia | reflexivity].
Qed.

End WithPlatform.
End BookFacts.

Module BookTrip.
Section WithPlatform.
Context {P : Platform}.
Import Inv.

Lemma upper_not_empty (s : string) : s <> "" -> Py.upper s <> "".
Proof. destruct s; [congruence | discriminate]. Qed.

Lemma validate_non_empty_ok (field : string) (v : json) (s : string) :
  Book._validate_non_empty field v = Ok s -> Py.strip s = s /\ s <> "".
Proof.
  unfold Book._validate_non_empty. destruct v; try discriminate.
  destruct (String.eqb_spec (Py.strip s0) ""); [discriminate|].
  intros [= <-]. split; [apply PyFacts.strip_idem | assumption].
Qed.

Lemma validate_currency_ok (v : json) (s : string) :
  Book._validate_currency v = Ok s ->
  Py.strip s = s /\ Py.upper s = s /\ s <> "".
Proof.
  unfold Book._validate_currency. destruct v; try discriminate.
  destruct (String.eqb_spec (Py.strip s0) ""); [discriminate|].
  intros [= <-]. repeat split.
  - now rewrite PyFacts.strip_upper, PyFacts.strip_idem.
  - apply PyFacts.upper_idem.
  - now apply upper_not_empty.
Qed.

(** The constructor only returns Books that meet the invariants. *)
Lemma init_valid title author isbn price currency quantity book_id archived
    created_at (w w' : world) (b : Book.t) :
  Book.__init__ title author isbn price currency quantity book_id archived
                created_at w = (Ok b, w') ->
  valid_book b.
Proof.
  unfold Book.__init__. intros H.
  apply bind_ok in H as (id_ & w1 & Eid & H).
  apply bind_ok in H as (ca & w2 & Eca & H).
  apply bind_ok in H as (t & w3 & Et & H). apply lift_ok in Et as [Et _].
  apply bind_ok in H as (a & w4 & Ea & H). apply lift_ok in Ea as [Ea _].
  apply bind_ok in H as (i & w5 & Ei & H). apply lift_ok in Ei as [Ei _].
  apply bind_ok in H as (u & w6 & Em & H).
  apply bind_ok in H as (c & w7 & Ec & H). apply lift_ok in Ec as [Ec _].
  apply bind_ok in H as (p & w8 & Ep & H). apply lift_ok in Ep as [Ep _].
  apply bind_ok in H as (q & w9 & Eq & H). apply lift_ok in Eq as [Eq _].
  apply ret_ok in H as [-> _].
  apply validate_non_empty_ok in Et as [? ?].
  apply validate_non_empty_ok in Ea as [? ?].
  apply validate_currency_ok in Ec as (? & ? & ?).
  apply BookFacts.to_cents_range in Ep.
  constructor; cbn -[Z.pow]; try assumption.
  - destruct (Py.truthy book_id) eqn:T.
    + apply ret_ok in Eid as [-> _]. exact T.
    + apply bind_ok in Eid as (s & w0 & Eu & Eid).
      apply ret_ok in Eid as [-> _]. cbn [Py.truthy].
      unfold uuid4 in Eu. injection Eu as <- _.
      destruct (String.eqb_spec (uuid4_at (seed w)) "") as [e|]; [|reflexivity].
      now apply uuid4_not_empty in e.
  - unfold Book._normalize_isbn in Ei. destruct isbn; try discriminate.
    injection Ei as <-. apply PyFacts.normalize_isbn_idem.
  - destruct (ISBN_RE.match_ i); [reflexivity|]. discriminate.
  - unfold Book._validate_non_negative_int in Eq.
    destruct (Z.ltb_spec quantity 0); [discriminate|]. injection Eq as <-. lia.
Qed.

Lemma from_dict_to_dict (b : Book.t) (w : world) :
  valid_book b -> Book.from_dict (Book.to_dict b) w = (Ok b, w).
Proof.
  intros V. destruct V.
  unfold Book.from_dict, Book.to_dict, dict_index, dict_get_default, dict_get_none.
  cbn [Py.dict_get String.eqb Ascii.eqb Bool.eqb].
  rewrite fromisoformat_isoformat.
  unfold Book.__init__, bind, ret, lift, raise, py_int; cbn [PyInt.int Py.truthy].
  rewrite id_truthy0.
  unfold Book._validate_non_empty. rewrite title_trimmed0, author_trimmed0.
  destruct (String.eqb_spec (Book.title b) ""); [contradiction|].
  destruct (String.eqb_spec (Book.author b) ""); [contradiction|].
  unfold Book._normalize_isbn. rewrite isbn_normal0, isbn_shape0.
  unfold Book._validate_currency. rewrite currency_trimmed0, currency_upper0.
  destruct (String.eqb_spec (Book.currency b) ""); [contradiction|].
  rewrite BookFacts.to_cents_div100 by exact cents_range0.
  unfold Book._validate_non_negative_int.
  destruct (Z.ltb_spec (Book.quantity b) 0); [lia|].
  destruct b; reflexivity.
Qed.


End WithPlatform.
End BookTrip.

(* ================================================================== *)
(** ** The store *)

Module StoreFacts.
Import Inv JSONStore.

Lemma validate_dump (d : document) (allow_missing : bool) :
  _validate_and_normalize (dump d) allow_missing = Ok d.
Proof. destruct d, allow_missing; reflexivity. Qed.

Lemma validate_load_rule (data : json) :
  _validate_and_normalize data true = load_rule data.
Proof.
  destruct data; try reflexivity. unfold _validate_and_normalize, load_rule.
  destruct (dict_get_none kv "books"), (dict_get_none kv "sales"); reflexivity.
Qed.

Lemma validate_save_rule (data : json) :
  _validate_and_normalize data false = save_rule data.
Proof.
  destruct data; try reflexivity. unfold _validate_and_normalize, save_rule.
  destruct (dict_get_none kv "books"), (dict_get_none kv "sales"); reflexivity.
Qed.

Lemma stored_sales_dump (d : document) :
  stored_sales (Parsed (dump d)) = sales d.
Proof. reflexivity. Qed.

Lemma load_parsed (w : world) (data : json) :
  fs w = Parsed data -> load w = (_validate_and_normalize data true, w).
Proof. unfold load. now intros ->. Qed.

Lemma load_dump (w : world) (d : document) :
  fs w = Parsed (dump d) -> load w = (Ok d, w).
Proof. intros H. rewrite (load_parsed _ _ H). now rewrite validate_dump. Qed.

Lemma save_dump (w : world) (d : document) :
  save (dump d) w = (Ok tt, mkWorld (Parsed (dump d)) (seed w)).
Proof. unfold save, bind, lift. now rewrite validate_dump. Qed.

(** [load] changes the file only to create it, with no sales in it. *)
Lemma keeps_load : keeps load.
Proof.
  intros w. unfold load. destruct (fs w) eqn:E; cbn; rewrite ?E; reflexivity.
Qed.

Lemma load_sales (w w1 : world) (d : document) :
  load w = (Ok d, w1) -> sales d = stored_sales (fs w1).
Proof.
  unfold load. destruct (fs w) eqn:E.
  - cbn. now intros [= <- <-].
  - discriminate.
  - rewrite validate_load_rule. intros [= H <-]. rewrite E.
    destruct j; try discriminate. cbn in *.
    destruct (dict_get_none kv "books"), (dict_get_none kv "sales");
      cbn in H; try discriminate; now injection H as <-.
Qed.

End StoreFacts.

(* ================================================================== *)
(** ** The sales collection under the operations *)

Create HintDb keeps_db.
Create HintDb untouched_db.

Module Frame.
Section WithPlatform.
Context {P : Platform}.
Import Inv StoreFacts.

Lemma keeps_ret {A} (a : A) : keeps (ret a).
Proof. now intros w. Qed.

Lemma keeps_raise {A} (e : exn) : keeps (@raise A e).
Proof. now intros w. Qed.

Lemma keeps_lift {A} (r : result A) : keeps (lift r).
Proof. now intros w. Qed.

Lemma keeps_bind {A B} (m : M A) (k : A -> M B) :
  keeps m -> (forall a, keeps (k a)) -> keeps (bind m k).
Proof.
  intros Hm Hk w. unfold bind. specialize (Hm w).
  destruct (m w) as [[a|e] w1]; cbn in *; [|exact Hm].
  now rewrite Hk.
Qed.

Lemma keeps_try_except {A} (m : M A) handles (handler : M A) :
  keeps m -> keeps handler -> keeps (try_except m handles handler).
Proof.
  intros Hm Hh w. unfold try_except. specialize (Hm w).
  destruct (m w) as [[a|e] w1]; cbn in *; [exact Hm|].
  destruct (handles e); cbn; [now rewrite Hh | exact Hm].
Qed.

Lemma keeps_try_except_then {A B} (m : M A) handles (handler : M B) (k : A -> M B) :
  keeps m -> keeps handler -> (forall a, keeps (k a)) ->
  keeps (try_except_then m handles handler k).
Proof.
  intros Hm Hh Hk w. unfold try_except_then. specialize (Hm w).
  destruct (m w) as [[a|e] w1]; cbn in *; [now rewrite Hk|].
  destruct (handles e); cbn; [now rewrite Hh | exact Hm].
Qed.

Lemma keeps_uuid4 : keeps uuid4.
Proof. now intros w. Qed.

Lemma keeps_now : keeps now.
Proof. now intros w. Qed.

(** Rewriting the books writes back the sales that were just read. *)
Lemma keeps_save_books (bs : list Book.t) : keeps (BookRepository._save_books bs).
Proof.
  intros w. unfold BookRepository._save_books, bind.
  pose proof (keeps_load w) as Hk.
  destruct (JSONStore.load w) as [[d|e] w1] eqn:E; cbn [snd] in *; [|exact Hk].
  rewrite save_dump. cbn [snd fs]. rewrite stored_sales_dump. cbn [sales].
  rewrite <- Hk. exact (load_sales _ _ _ E).
Qed.

#[local] Hint Resolve keeps_ret keeps_raise keeps_lift keeps_uuid4 keeps_now
  keeps_load keeps_save_books : keeps_db.

(** Walk down a sequence of steps, splitting on every test on the way. *)
Ltac keeps_steps :=
  repeat first
    [ solve [auto with keeps_db]
    | apply keeps_bind; [|intros]
    | apply keeps_try_except
    | apply keeps_try_except_then; [| |intros]
    | match goal with
      | |- keeps (if ?c then _ else _) => destruct c
      | |- keeps (match ?x with _ => _ end) => destruct x
      end ].

Lemma keeps_init title author isbn price currency quantity book_id archived created_at :
  keeps (Book.__init__ title author isbn price currency quantity book_id archived
                       created_at).
Proof. unfold Book.__init__. keeps_steps. Qed.

Lemma keeps_from_dict (data : json) : keeps (Book.from_dict data).
Proof.
  unfold Book.from_dict. destruct data; auto with keeps_db.
  keeps_steps; apply keeps_init.
Qed.

Lemma keeps_decode_books (raw : list json) : keeps (BookRepository.decode_books raw).
Proof.
  induction raw as [|item rest IH]; cbn [BookRepository.decode_books].
  - auto with keeps_db.
  - keeps_steps; try apply keeps_from_dict; exact IH.
Qed.

Lemma keeps_load_books : keeps BookRepository._load_books.
Proof.
  unfold BookRepository._load_books. keeps_steps. apply keeps_decode_books.
Qed.

#[local] Hint Resolve keeps_init keeps_from_dict keeps_load_books : keeps_db.

Lemma keeps_get_by_isbn isbn : keeps (BookRepository.get_by_isbn isbn).
Proof. unfold BookRepository.get_by_isbn. keeps_steps. Qed.

Lemma keeps_get_by_id book_id : keeps (BookRepository.get_by_id book_id).
Proof. unfold BookRepository.get_by_id. keeps_steps. Qed.

Lemma keeps_add book : keeps (BookRepository.add book).
Proof. unfold BookRepository.add. keeps_steps. Qed.

Lemma keeps_update book : keeps (BookRepository.update book).
Proof. unfold BookRepository.update. keeps_steps. Qed.

Lemma keeps_remove book_id : keeps (BookRepository.remove book_id).
Proof. unfold BookRepository.remove. keeps_steps. Qed.

Lemma keeps_archive_by_isbn isbn : keeps (BookRepository.archive_by_isbn isbn).
Proof. unfold BookRepository.archive_by_isbn. keeps_steps. Qed.

#[local] Hint Resolve keeps_get_by_isbn keeps_get_by_id keeps_add keeps_update
  keeps_remove keeps_archive_by_isbn : keeps_db.

Lemma keeps_add_book title author isbn price currency quantity upd :
  keeps (InventoryService.add_book title author isbn price currency quantity upd).
Proof. unfold InventoryService.add_book. keeps_steps. Qed.

Lemma keeps_set_price isbn new_price :
  keeps (InventoryService.set_price isbn new_price).
Proof. unfold InventoryService.set_price. keeps_steps. Qed.

Lemma keeps_set_quantity isbn new_qty :
  keeps (InventoryService.set_quantity isbn new_qty).
Proof. unfold InventoryService.set_quantity. keeps_steps. Qed.

Lemma keeps_increase_stock isbn by_ :
  keeps (InventoryService.increase_stock isbn by_).
Proof. unfold InventoryService.increase_stock. keeps_steps. Qed.

Lemma keeps_decrease_stock isbn by_ :
  keeps (InventoryService.decrease_stock isbn by_).
Proof. unfold InventoryService.decrease_stock. keeps_steps. Qed.

Lemma keeps_archive_if_empty isbn :
  keeps (InventoryService.archive_if_empty isbn).
Proof. unfold InventoryService.archive_if_empty. keeps_steps. Qed.

Lemma keeps_create book_id isbn qty cents currency timestamp :
  keeps (Sale.create book_id isbn qty cents currency timestamp).
Proof. unfold Sale.create. keeps_steps. Qed.

Lemma keeps_forget {A} (m : M A) : keeps m -> keeps (forget m).
Proof. intros H. unfold forget. apply keeps_bind; auto with keeps_db. Qed.

Lemma keeps_grows {A} (n : nat) (m : M A) : keeps m -> grows n m.
Proof.
  intros H w. exists []. rewrite app_nil_r. split; [apply H | cbn; lia].
Qed.

Lemma grows_bind {A B} (n : nat) (m : M A) (k : A -> M B) :
  keeps m -> (forall a, grows n (k a)) -> grows n (bind m k).
Proof.
  intros Hm Hk w. unfold bind. specialize (Hm w).
  destruct (m w) as [[a|e] w1]; cbn in *.
  - destruct (Hk a w1) as (extra & E & L). exists extra. now rewrite E, Hm.
  - exists []. rewrite app_nil_r. split; [exact Hm | cbn; lia].
Qed.

(** The second write of [sell]: the sales just read, and one more. *)
Lemma grows_append_sale {A} (record : json) (a : A) :
  grows 1 (data <- JSONStore.load ;;
           JSONStore.save
             (JSONStore.dump (mkDoc (books data) (sales data ++ [record])%list)) ;;;
           ret a).
Proof.
  intros w. unfold bind at 1.
  pose proof (keeps_load w) as Hk.
  destruct (JSONStore.load w) as [[d|e] w1] eqn:E; cbn [snd] in *.
  - exists [record]. unfold bind. rewrite save_dump. cbn.
    rewrite (load_sales _ _ _ E), Hk. split; [reflexivity | lia].
  - exists []. rewrite app_nil_r. split; [exact Hk | cbn; lia].
Qed.

Lemma grows_sell isbn qty : grows 1 (SalesService.sell isbn qty).
Proof.
  unfold SalesService.sell.
  destruct (qty <=? 0); [apply keeps_grows; auto with keeps_db|].
  apply grows_bind; [auto with keeps_db|]. intros book.
  destruct (Book.archived book); [apply keeps_grows; auto with keeps_db|].
  destruct (Book.quantity book <? qty); [apply keeps_grows; auto with keeps_db|].
  apply grows_bind; [apply keeps_create|]. intros sale.
  apply grows_bind; [auto with keeps_db|]. intros book'.
  apply grows_bind; [auto with keeps_db|]. intros _.
  apply grows_append_sale.
Qed.

Lemma keeps_run (c : command) : is_sell c = false -> keeps (run c).
Proof.
  destruct c; cbn [is_sell run]; intros H; try discriminate;
    try apply keeps_forget; auto with keeps_db.
  - apply keeps_add_book.
  - apply keeps_set_price.
  - apply keeps_set_quantity.
  - apply keeps_increase_stock.
  - apply keeps_decrease_stock.
  - apply keeps_archive_if_empty.
Qed.

End WithPlatform.
End Frame.

(* ================================================================== *)
(** ** Lists: positions of records with a unique key *)

Module ListFacts.

Lemma in_enumerate_from {A} (l : list A) (start i : nat) (x : A) :
  In (i, x) (combine (seq start (List.length l)) l) ->
  (start <= i)%nat /\ nth_error l (i - start) = Some x.
Proof.
  revert start. induction l as [|y r IH]; intros start; cbn; [tauto|].
  intros [[= <- <-]|H].
  - rewrite Nat.sub_diag. split; [lia | reflexivity].
  - apply IH in H as [Hle Hn]. split; [lia|].
    replace (i - start)%nat with (S (i - S start)) by lia. exact Hn.
Qed.

Lemma in_enumerate {A} (l : list A) (i : nat) (x : A) :
  In (i, x) (BookRepository.enumerate l) -> nth_error l i = Some x.
Proof.
  intros H. apply in_enumerate_from in H as [_ H]. now rewrite Nat.sub_0_r in H.
Qed.

Lemma enumerate_from_in {A} (l : list A) (start j : nat) (x : A) :
  nth_error l j = Some x ->
  In ((start + j)%nat, x) (combine (seq start (List.length l)) l).
Proof.
  revert start j. induction l as [|y r IH]; intros start [|j]; cbn;
    try discriminate.
  - intros [= ->]. left. f_equal. lia.
  - intros H. right. replace (start + S j)%nat with (S start + j)%nat by lia.
    now apply IH.
Qed.

Lemma enumerate_in {A} (l : list A) (j : nat) (x : A) :
  nth_error l j = Some x -> In (j, x) (BookRepository.enumerate l).
Proof. intros H. exact (enumerate_from_in l 0 j x H). Qed.

Lemma nodup_key_index {A B} (f : A -> B) (l : list A) (i j : nat) (x y : A) :
  NoDup (map f l) -> nth_error l i = Some x -> nth_error l j = Some y ->
  f x = f y -> i = j.
Proof.
  intros Hnd Hi Hj Hf.
  apply (proj1 (NoDup_nth_error (map f l)) Hnd).
  - rewrite length_map. apply nth_error_Some. congruence.
  - rewrite !nth_error_map, Hi, Hj. cbn. now rewrite Hf.
Qed.

(** The first hit of a test that singles out one key is at the position
    of the record with that key. *)
Lemma find_index_key {A B} (f : A -> B) (p : A -> bool) (l : list A) (b : A) :
  In b l -> (forall x, In x l -> p x = true <-> f x = f b) ->
  NoDup (map f l) ->
  exists idx, find_index p l = Some idx /\ nth_error l idx = Some b.
Proof.
  induction l as [|y r IH]; intros Hin Hp Hnd; [destruct Hin|].
  cbn [find_index]. destruct (p y) eqn:E.
  - exists O. split; [reflexivity|]. cbn.
    apply Hp in E; [|now left]. destruct Hin as [->|Hin]; [reflexivity|].
    inversion Hnd; subst. exfalso. apply H1. rewrite E. now apply in_map.
  - destruct Hin as [->|Hin].
    + assert (p b = true) by (apply Hp; [now left | reflexivity]). congruence.
    + inversion Hnd; subst.
      destruct (IH Hin) as (idx & Hf & Hn); [|assumption|].
      * intros x Hx. apply Hp. now right.
      * exists (S idx). rewrite Hf. now split.
Qed.

Lemma find_key {A B} (f : A -> B) (p : A -> bool) (l : list A) (b : A) :
  In b l -> (forall x, In x l -> p x = true <-> f x = f b) ->
  NoDup (map f l) -> find p l = Some b.
Proof.
  induction l as [|y r IH]; intros Hin Hp Hnd; [destruct Hin|].
  cbn [find]. destruct (p y) eqn:E.
  - apply Hp in E; [|now left]. destruct Hin as [->|Hin]; [reflexivity|].
    inversion Hnd; subst. exfalso. apply H1. rewrite E. now apply in_map.
  - destruct Hin as [->|Hin].
    + assert (p b = true) by (apply Hp; [now left | reflexivity]). congruence.
    + inversion Hnd; subst. apply IH; try assumption.
      intros x Hx. apply Hp. now right.
Qed.

Lemma map_list_set_same {A B} (f : A -> B) (l : list A) (idx : nat) (x y : A) :
  nth_error l idx = Some x -> f y = f x -> map f (list_set l idx y) = map f l.
Proof.
  revert idx. induction l as [|z r IH]; intros [|i]; cbn; try discriminate.
  - intros [= ->] ->. reflexivity.
  - intros H E. now rewrite (IH i H E).
Qed.

Lemma list_update_set {A} (l : list A) (idx : nat) (f : A -> A) (x : A) :
  nth_error l idx = Some x -> list_update l idx f = list_set l idx (f x).
Proof.
  revert idx. induction l as [|z r IH]; intros [|i]; cbn; try discriminate.
  - now intros [= ->].
  - intros H. now rewrite (IH i H).
Qed.

Lemma in_list_set {A} (l : list A) (idx : nat) (x y : A) :
  nth_error l idx = Some x -> In y (list_set l idx y).
Proof.
  revert idx. induction l as [|z r IH]; intros [|i]; cbn; try discriminate.
  - now left.
  - intros H. right. exact (IH i H).
Qed.

Lemma Forall_list_set {A} (Q : A -> Prop) (l : list A) (idx : nat) (y : A) :
  Forall Q l -> Q y -> Forall Q (list_set l idx y).
Proof.
  intros Hl Hy. revert idx. induction Hl as [|z r Hz Hr IH]; intros [|i]; cbn;
    constructor; auto.
Qed.

End ListFacts.

(* ================================================================== *)
(** ** The repository over a well-formed ledger *)

Module LedgerFacts.
Section WithPlatform.
Context {P : Platform}.
Import Inv StoreFacts ListFacts.

Lemma valid_set_quantity (b : Book.t) (q : Z) :
  valid_book b -> 0 <= q -> valid_book (Book.set_quantity q b).
Proof. intros [] Hq. constructor; cbn -[Z.pow]; assumption. Qed.

Lemma valid_mark_archived (b : Book.t) :
  valid_book b -> valid_book (Book.mark_archived b).
Proof. intros []. constructor; cbn -[Z.pow]; assumption. Qed.

Lemma decode_books_valid (bs : list Book.t) (w : world) :
  Forall valid_book bs ->
  BookRepository.decode_books (map Book.to_dict bs) w = (Ok bs, w).
Proof.
  induction 1 as [|b r Hb Hr IH]; [reflexivity|].
  cbn [map BookRepository.decode_books].
  unfold bind at 1, try_except, bind at 1.
  rewrite (BookTrip.from_dict_to_dict b w Hb). cbn.
  unfold bind. now rewrite IH.
Qed.

Lemma load_books_ledger (w : world) bs ss :
  ledger w bs ss -> BookRepository._load_books w = (Ok bs, w).
Proof.
  intros L. unfold BookRepository._load_books.
  rewrite (bind_eq_ok _ _ _ _ _ (load_dump _ _ (on_disk _ _ _ L))). cbn [books].
  apply decode_books_valid, (books_valid _ _ _ L).
Qed.

Lemma save_books_at (w : world) (d : document) (bs : list Book.t) :
  fs w = Parsed (JSONStore.dump d) ->
  BookRepository._save_books bs w
  = (Ok tt, mkWorld (Parsed (JSONStore.dump (mkDoc (map Book.to_dict bs) (sales d))))
                    (seed w)).
Proof.
  intros H. unfold BookRepository._save_books.
  rewrite (bind_eq_ok _ _ _ _ _ (load_dump _ _ H)). apply save_dump.
Qed.

Lemma get_by_isbn_ledger (w : world) bs ss (b : Book.t) (isbn : string) :
  ledger w bs ss -> In b bs ->
  Book.isbn b = BookRepository._normalize_isbn isbn ->
  BookRepository.get_by_isbn isbn w = (Ok b, w).
Proof.
  intros L Hin Hisbn. unfold BookRepository.get_by_isbn.
  rewrite (bind_eq_ok _ _ _ _ _ (load_books_ledger _ _ _ L)).
  rewrite (find_key Book.isbn _ bs b Hin); [reflexivity| |exact (isbns_unique _ _ _ L)].
  intros x _. rewrite <- Hisbn. apply String.eqb_eq.
Qed.

Lemma eq_usable_ids (x b : Book.t) :
  usable_id x -> usable_id b ->
  Py.eq (Book.id x) (Book.id b) = true <-> Book.id x = Book.id b.
Proof.
  intros (s & -> & _) (t & -> & _). cbn. rewrite String.eqb_eq.
  split; [now intros -> | now intros [= ->]].
Qed.

(** Replacing the record of [b] by one with the same id and ISBN. *)
Lemma update_ledger (w : world) bs ss (b b' : Book.t) :
  ledger w bs ss -> In b bs ->
  Book.id b' = Book.id b -> Book.isbn b' = Book.isbn b ->
  exists idx,
    nth_error bs idx = Some b /\
    BookRepository.update b' w
    = (Ok tt, mkWorld (Parsed (JSONStore.dump
                                 (mkDoc (map Book.to_dict (list_set bs idx b')) ss)))
                      (seed w)).
Proof.
  intros L Hin Hid Hisbn.
  destruct (find_index_key Book.id (fun x => Py.eq (Book.id x) (Book.id b')) bs b Hin)
    as (idx & Hfi & Hnth).
  { intros x Hx. rewrite Hid. apply eq_usable_ids.
    - exact (proj1 (Forall_forall _ _) (ids_usable _ _ _ L) x Hx).
    - exact (proj1 (Forall_forall _ _) (ids_usable _ _ _ L) b Hin). }
  { exact (ids_unique _ _ _ L). }
  exists idx. split; [exact Hnth|].
  unfold BookRepository.update.
  rewrite (bind_eq_ok _ _ _ _ _ (load_books_ledger _ _ _ L)).
  unfold BookRepository._find_index_by_id. rewrite Hfi.
  assert (Hno : existsb (fun ib : nat * Book.t =>
                           negb (Nat.eqb (fst ib) idx)
                           && String.eqb (Book.isbn (snd ib)) (Book.isbn b'))
                        (BookRepository.enumerate bs) = false).
  { apply Bool.not_true_is_false. intros Hex.
    apply existsb_exists in Hex as ([i x] & Hix & Ht). cbn [fst snd] in Ht.
    apply andb_prop in Ht as [Hne Heq].
    apply in_enumerate in Hix. apply String.eqb_eq in Heq.
    rewrite Hisbn in Heq.
    pose proof (nodup_key_index Book.isbn bs i idx x b (isbns_unique _ _ _ L)
                  Hix Hnth Heq) as ->.
    rewrite Nat.eqb_refl in Hne. discriminate. }
  rewrite Hno.
  apply (save_books_at w _ _ (on_disk _ _ _ L)).
Qed.

End WithPlatform.
End LedgerFacts.

(* ================================================================== *)
(** ** Selling *)

Module SellFacts.
Section WithPlatform.
Context {P : Platform}.
Import Inv StoreFacts ListFacts LedgerFacts.







Lemma ledger_after_update (w w' : world) bs ss ss' (b b' : Book.t) (idx : nat) :
  ledger w bs ss -> nth_error bs idx = Some b -> valid_book b' ->
  Book.id b' = Book.id b -> Book.isbn b' = Book.isbn b ->
  fs w' = Parsed (JSONStore.dump (mkDoc (map Book.to_dict (list_set bs idx b')) ss')) ->
  ledger w' (list_set bs idx b') ss'.
Proof.
  intros L Hn V Hid Hisbn Hfs. constructor.
  - exact Hfs.
  - apply Forall_list_set; [exact (books_valid _ _ _ L) | exact V].
  - apply Forall_list_set; [exact (ids_usable _ _ _ L)|].
    unfold usable_id. rewrite Hid.
    exact (proj1 (Forall_forall _ _) (ids_usable _ _ _ L) b (nth_error_In _ _ Hn)).
  - rewrite (map_list_set_same Book.id _ _ _ _ Hn Hid). exact (ids_unique _ _ _ L).
  - rewrite (map_list_set_same Book.isbn _ _ _ _ Hn Hisbn).
    exact (isbns_unique _ _ _ L).
Qed.

End WithPlatform.
End SellFacts.

Module SellTheorems.
Section WithPlatform.
Context {P : Platform}.
Import Inv StoreFacts ListFacts LedgerFacts SellFacts.


Lemma decrease_stock_ok (b : Book.t) (qty : Z) :
  0 < qty -> qty <= Book.quantity b ->
  Book.decrease_stock qty b = Ok (Book.set_quantity (Book.quantity b - qty) b).
Proof.
  intros Hq Hle. unfold Book.decrease_stock, Book._validate_positive_int.
  destruct (Z.leb_spec qty 0); [lia|]. cbn.
  destruct (Z.ltb_spec (Book.quantity b) qty); [lia | reflexivity].
Qed.




End WithPlatform.
End SellTheorems.

(* ================================================================== *)
(** ** Reads leave the file alone *)

Module ReadFacts.
Section WithPlatform.
Context {P : Platform}.
Import Inv StoreFacts.

Lemma untouched_ret {A} (a : A) : untouched (ret a).
Proof. now intros w. Qed.

Lemma untouched_raise {A} (e : exn) : untouched (@raise A e).
Proof. now intros w. Qed.

Lemma untouched_lift {A} (r : result A) : untouched (lift r).
Proof. now intros w. Qed.

Lemma untouched_uuid4 : untouched uuid4.
Proof. now intros w. Qed.

Lemma untouched_now : untouched now.
Proof. now intros w. Qed.

Lemma untouched_bind {A B} (m : M A) (k : A -> M B) :
  untouched m -> (forall a, untouched (k a)) -> untouched (bind m k).
Proof.
  intros Hm Hk w. unfold bind. specialize (Hm w).
  destruct (m w) as [[a|e] w1]; cbn in *; [|exact Hm]. now rewrite Hk.
Qed.

Lemma untouched_try_except {A} (m : M A) handles (handler : M A) :
  untouched m -> untouched handler -> untouched (try_except m handles handler).
Proof.
  intros Hm Hh w. unfold try_except. specialize (Hm w).
  destruct (m w) as [[a|e] w1]; cbn in *; [exact Hm|].
  destruct (handles e); cbn; [now rewrite Hh | exact Hm].
Qed.

#[local] Hint Resolve untouched_ret untouched_raise untouched_lift untouched_uuid4
  untouched_now : untouched_db.

Ltac untouched_steps :=
  repeat first
    [ solve [auto with untouched_db]
    | apply untouched_bind; [|intros]
    | apply untouched_try_except
    | match goal with
      | |- untouched (if ?c then _ else _) => destruct c
      | |- untouched (match ?x with _ => _ end) => destruct x
      end ].

Lemma untouched_init title author isbn price currency quantity book_id archived
    created_at :
  untouched (Book.__init__ title author isbn price currency quantity book_id
                           archived created_at).
Proof. unfold Book.__init__. untouched_steps. Qed.

Lemma untouched_from_dict (data : json) : untouched (Book.from_dict data).
Proof.
  unfold Book.from_dict. destruct data; auto with untouched_db.
  untouched_steps; apply untouched_init.
Qed.

Lemma untouched_decode_books (raw : list json) :
  untouched (BookRepository.decode_books raw).
Proof.
  induction raw as [|item rest IH]; cbn [BookRepository.decode_books].
  - auto with untouched_db.
  - untouched_steps; try apply untouched_from_dict; exact IH.
Qed.

(** A load that returned books found the file there and left it as it was. *)
Lemma load_books_found (w w1 : world) (bs : list Book.t) :
  BookRepository._load_books w = (Ok bs, w1) -> bs <> [] -> fs w1 = fs w.
Proof.
  unfold BookRepository._load_books. intros H Hne.
  apply bind_ok in H as (d & w0 & Hl & Hd).
  pose proof (untouched_decode_books (books d) w0) as Hu.
  rewrite Hd in Hu. cbn in Hu. rewrite Hu.
  unfold JSONStore.load in Hl. destruct (fs w) eqn:E.
  - cbn in Hl. injection Hl as <- <-. cbn in Hd. injection Hd as <- _.
    now contradiction Hne.
  - discriminate.
  - now injection Hl as _ <-.
Qed.

Lemma get_by_isbn_found (w w1 : world) (b : Book.t) (isbn : string) :
  BookRepository.get_by_isbn isbn w = (Ok b, w1) ->
  fs w1 = fs w /\ Book.isbn b = BookRepository._normalize_isbn isbn.
Proof.
  unfold BookRepository.get_by_isbn. intros H.
  apply bind_ok in H as (bs & w0 & Hl & Hf).
  destruct (find _ bs) as [x|] eqn:F; [|discriminate].
  apply ret_ok in Hf as [-> ->].
  apply find_some in F as [Hin Heq]. split.
  - apply (load_books_found _ _ _ Hl). now destruct bs.
  - now apply String.eqb_eq.
Qed.

End WithPlatform.
End ReadFacts.

(* ================================================================== *)
(** ** Refusals of [sell] and [update]; archiving *)

Module Refusals.
Section WithPlatform.
Context {P : Platform}.
Import Inv StoreFacts ListFacts LedgerFacts ReadFacts.

(** C2, as amended.  When the book the ledger returns for the ISBN is not
    archived and holds fewer than [qty > 0] copies, [sell] raises
    OutOfStockError with the normalised ISBN, the requested and the
    available quantity, and the file (books and sales) is as before. *)
Theorem sell_out_of_stock
    (w w1 : world) (b : Book.t) (isbn : string) (qty : Z) :
  BookRepository.get_by_isbn isbn w = (Ok b, w1) ->
  Book.archived b = false -> 0 < qty -> Book.quantity b < qty ->
  SalesService.sell isbn qty w
    = (Raise (OutOfStockError (BookRepository._normalize_isbn isbn) qty
                              (Book.quantity b)), w1)
  /\ fs w1 = fs w.
Proof.
  intros Hget Harch Hq Hlt.
  destruct (get_by_isbn_found _ _ _ _ Hget) as [Hfs Hisbn].
  split; [|exact Hfs].
  unfold SalesService.sell. destruct (Z.leb_spec qty 0); [lia|].
  rewrite (bind_eq_ok _ _ _ _ _ Hget), Harch.
  destruct (Z.ltb_spec (Book.quantity b) qty); [|lia].
  now rewrite Hisbn.
Qed.

(** An archived book is refused before the stock is looked at. *)
Lemma sell_archived (w w1 : world) (b : Book.t) (isbn : string) (qty : Z) :
  BookRepository.get_by_isbn isbn w = (Ok b, w1) ->
  Book.archived b = true -> 0 < qty ->
  SalesService.sell isbn qty w = (Raise (ValidationError "book"), w1).
Proof.
  intros Hget Harch Hq.
  unfold SalesService.sell. destruct (Z.leb_spec qty 0); [lia|].
  now rewrite (bind_eq_ok _ _ _ _ _ Hget), Harch.
Qed.

(** An update that finds its record by id and meets the ISBN on another
    record stops on the unbound name, before anything is saved. *)
Lemma update_collision (w w1 : world) (bs : list Book.t) (book other : Book.t)
    (idx j : nat) :
  BookRepository._load_books w = (Ok bs, w1) ->
  BookRepository._find_index_by_id bs (Book.id book) = Some idx ->
  nth_error bs j = Some other -> j <> idx -> Book.isbn other = Book.isbn book ->
  BookRepository.update book w = (Raise (NameError "DuplicateISBNErrror"), w1)
  /\ fs w1 = fs w.
Proof.
  intros Hl Hi Hj Hne Hisbn. split.
  - unfold BookRepository.update. rewrite (bind_eq_ok _ _ _ _ _ Hl), Hi.
    assert (Hex : existsb (fun ib : nat * Book.t =>
                             negb (Nat.eqb (fst ib) idx)
                             && String.eqb (Book.isbn (snd ib)) (Book.isbn book))
                          (BookRepository.enumerate bs) = true).
    { apply existsb_exists. exists (j, other). split.
      - now apply enumerate_in.
      - cbn [fst snd]. rewrite Hisbn, String.eqb_refl, andb_true_r.
        apply negb_true_iff, Nat.eqb_neq. exact Hne. }
    now rewrite Hex.
  - apply (load_books_found _ _ _ Hl). destruct bs; [now destruct j | discriminate].
Qed.

(** C10.  For a stored book with no stock that is not archived yet,
    [archive_if_empty] persists the record as archived, and returns the
    copy it read before: that copy still says [archived = false]. *)
Theorem archive_if_empty_returns_the_copy_read_before
    (w : world) (bs : list Book.t) (ss : list json) (b : Book.t) (isbn : string) :
  ledger w bs ss -> In b bs ->
  Book.isbn b = BookRepository._normalize_isbn isbn ->
  Book.quantity b = 0 -> Book.archived b = false ->
  exists (returned persisted : Book.t) (w' : world),
    InventoryService.archive_if_empty isbn w = (Ok returned, w') /\
    returned = b /\ Book.archived returned = false /\
    BookRepository.get_by_isbn isbn w' = (Ok persisted, w') /\
    Book.archived persisted = true /\ Book.id persisted = Book.id b.
Proof.
  intros L Hin Hisbn Hq Harch.
  pose proof (proj1 (Forall_forall _ _) (books_valid _ _ _ L) b Hin) as V.
  destruct (find_index_key Book.isbn
              (fun x => String.eqb (Book.isbn x) (BookRepository._normalize_isbn isbn))
              bs b Hin) as (idx & Hfi & Hn).
  { intros x _. rewrite <- Hisbn. apply String.eqb_eq. }
  { exact (isbns_unique _ _ _ L). }
  set (p := Book.mark_archived b).
  set (w' := mkWorld (Parsed (JSONStore.dump
                        (mkDoc (map Book.to_dict (list_set bs idx p)) ss)))
                     (seed w)).
  assert (Harc : BookRepository.archive_by_isbn isbn w = (Ok tt, w')).
  { unfold BookRepository.archive_by_isbn.
    rewrite (bind_eq_ok _ _ _ _ _ (load_books_ledger _ _ _ L)).
    unfold BookRepository._find_index_by_isbn. rewrite Hfi.
    rewrite (list_update_set _ _ _ _ Hn).
    apply (save_books_at w _ _ (on_disk _ _ _ L)). }
  assert (L' : ledger w' (list_set bs idx p) ss).
  { apply (SellFacts.ledger_after_update w w' bs ss ss b p idx L Hn);
      try reflexivity. now apply valid_mark_archived. }
  exists b, p, w'. split; [|split; [reflexivity|split; [exact Harch|]]].
  - unfold InventoryService.archive_if_empty.
    rewrite (bind_eq_ok _ _ _ _ _ (get_by_isbn_ledger _ _ _ _ _ L Hin Hisbn)).
    rewrite Hq. cbn [Z.eqb negb].
    now rewrite (bind_eq_ok _ _ _ _ _ Harc).
  - split; [|split; reflexivity].
    apply (get_by_isbn_ledger w' _ _ p isbn L'); [|exact Hisbn].
    exact (in_list_set bs idx b p Hn).
Qed.

End WithPlatform.
End Refusals.

(* ================================================================== *)
(** ** Round trip, shape rules, append-only sales, lenient decoding *)

Module Claims.
Section WithPlatform.
Context {P : Platform}.
Import Inv StoreFacts.

(** C9.  A Book that the constructor returned is read back from its
    encoded form unchanged: [from_dict (to_dict book)] is a Book with the
    same id, title, author, isbn, price_cents (the very integer, nothing
    rounded), currency, quantity, archived flag and created_at. *)
Theorem book_round_trip
    (title author isbn : json) (price : amount) (currency : json)
    (quantity : Z) (book_id : json) (archived : bool)
    (created_at : option datetime) (w w' w2 : world) (book : Book.t) :
  Book.__init__ title author isbn price currency quantity book_id archived
                created_at w = (Ok book, w') ->
  exists back : Book.t,
    Book.from_dict (Book.to_dict book) w2 = (Ok back, w2) /\
    Book.id back = Book.id book /\
    Book.title back = Book.title book /\
    Book.author back = Book.author book /\
    Book.isbn back = Book.isbn book /\
    Book.price_cents back = Book.price_cents book /\
    Book.currency back = Book.currency book /\
    Book.quantity back = Book.quantity book /\
    Book.archived back = Book.archived book /\
    Book.created_at back = Book.created_at book.
Proof.
  intros H. apply BookTrip.init_valid in H.
  exists book. rewrite (BookTrip.from_dict_to_dict book w2 H).
  repeat split; reflexivity.
Qed.

(** C5, as amended.  [load] reads the parsed content by [load_rule]: a
    'books' or 'sales' key that is absent, or present with the value null,
    becomes the empty sequence, any other value that is not a sequence is a
    StorageError, and so is a root that is not an object.  [save] checks by
    [save_rule]: both keys must be there (and not null) and hold sequences,
    or it fails with StorageError and writes nothing. *)
Theorem store_shape_rules (data : json) (w : world) :
  JSONStore.load (mkWorld (Parsed data) (seed w))
    = (load_rule data, mkWorld (Parsed data) (seed w)) /\
  JSONStore.save data w
    = match save_rule data with
      | Ok d => (Ok tt, mkWorld (Parsed (JSONStore.dump d)) (seed w))
      | Raise e => (Raise e, w)
      end.
Proof.
  split.
  - unfold JSONStore.load. cbn [fs]. now rewrite validate_load_rule.
  - unfold JSONStore.save, bind, lift. rewrite validate_save_rule.
    now destruct (save_rule data).
Qed.

Lemma grows_forget {A} (n : nat) (m : M A) : grows n m -> grows n (forget m).
Proof.
  intros H w. destruct (H w) as (extra & E & L). exists extra.
  split; [|exact L]. unfold forget, bind. now destruct (m w) as [[a|e] w1].
Qed.

(** C6.  Whatever the file holds, each mutating operation of the
    repository and of the services leaves every stored sale record in
    place and unmodified: the sales collection afterwards is the one
    before, followed by at most one record, and by none unless the
    operation is [sell]. *)
Theorem sales_are_append_only (c : command) (w : world) :
  exists extra : list json,
    stored_sales (fs (snd (run c w))) = (stored_sales (fs w) ++ extra)%list /\
    (List.length extra <= 1)%nat /\
    (is_sell c = false -> extra = []).
Proof.
  destruct (is_sell c) eqn:S.
  - destruct c; try discriminate S. cbn [run].
    destruct (grows_forget 1 _ (Frame.grows_sell isbn qty) w) as (extra & E & L).
    exists extra. repeat split; [exact E | exact L | discriminate].
  - exists []. rewrite app_nil_r. repeat split; [|cbn; lia].
    apply (Frame.keeps_run c S w).
Qed.

Lemma decode_books_recoverable (raw : list json) :
  Forall recoverable raw ->
  forall w, exists bs w',
    BookRepository.decode_books raw w = (Ok bs, w') /\ decoded raw bs.
Proof.
  induction 1 as [|item rest Hi Hr IH]; intros w.
  - exists [], w. split; [reflexivity | constructor].
  - cbn [BookRepository.decode_books]. unfold bind at 1, try_except, bind at 1.
    specialize (Hi w).
    destruct (Book.from_dict item w) as [[b|e] w0] eqn:E; cbn in Hi |- *.
    + destruct (IH w0) as (bs & w' & Hd & Hdec).
      exists (b :: bs), w'. unfold bind. rewrite Hd.
      split; [reflexivity | econstructor; eassumption].
    + rewrite Hi. destruct e; try discriminate Hi. cbn.
      destruct (IH w0) as (bs & w' & Hd & Hdec).
      exists bs, w'. unfold bind. rewrite Hd.
      split; [reflexivity | econstructor; eassumption].
Qed.

(** C4, as amended.  When every stored record either decodes or fails
    field validation (raises ValidationError), the load does not abort:
    the ledger reads return exactly the records that decode, in document
    order, the others being passed over.  (A record that raises anything
    else, such as KeyError for a missing required key or ValueError for a
    malformed timestamp, is not covered.) *)
Theorem load_skips_records_failing_validation (w w1 : world) (d : document) :
  JSONStore.load w = (Ok d, w1) -> Forall recoverable (books d) ->
  exists (bs : list Book.t) (w2 : world),
    decoded (books d) bs /\
    fs w2 = fs w1 /\
    BookRepository._load_books w = (Ok bs, w2) /\
    BookRepository.list_all true w = (Ok bs, w2) /\
    BookRepository.list_all false w
      = (Ok (filter (fun b => negb (Book.archived b)) bs), w2) /\
    (forall book_id,
       BookRepository.get_by_id book_id w
       = (match find (fun b => Py.eq (Book.id b) (JStr book_id)) bs with
          | Some b => Ok b
          | None => Raise (BookNotFoundError (Some (JStr book_id)) None)
          end, w2)) /\
    (forall isbn,
       BookRepository.get_by_isbn isbn w
       = (match find (fun b => String.eqb (Book.isbn b)
                                 (BookRepository._normalize_isbn isbn)) bs with
          | Some b => Ok b
          | None => Raise (BookNotFoundError None
                             (Some (BookRepository._normalize_isbn isbn)))
          end, w2)) /\
    (forall query limit,
       Py.strip query <> "" ->
       BookRepository.search query true limit w
       = (Ok (sort_by BookRepository.sort_key BookRepository.key_ltb
                (BookRepository.search_loop (Py.lower (Py.strip query)) limit bs [])),
          w2)).
Proof.
  intros Hl Hrec.
  destruct (decode_books_recoverable _ Hrec w1) as (bs & w2 & Hd & Hdec).
  assert (Hlb : BookRepository._load_books w = (Ok bs, w2)).
  { unfold BookRepository._load_books. now rewrite (bind_eq_ok _ _ _ _ _ Hl). }
  assert (Hall : BookRepository.list_all true w = (Ok bs, w2)).
  { unfold BookRepository.list_all. now rewrite (bind_eq_ok _ _ _ _ _ Hlb). }
  exists bs, w2.
  split; [exact Hdec|]. split.
  { pose proof (ReadFacts.untouched_decode_books (books d) w1) as Hu.
    now rewrite Hd in Hu. }
  split; [exact Hlb|]. split; [exact Hall|]. split.
  { unfold BookRepository.list_all. now rewrite (bind_eq_ok _ _ _ _ _ Hlb). }
  split.
  { intros book_id. unfold BookRepository.get_by_id.
    rewrite (bind_eq_ok _ _ _ _ _ Hlb). now destruct (find _ bs). }
  split.
  { intros isbn. unfold BookRepository.get_by_isbn.
    rewrite (bind_eq_ok _ _ _ _ _ Hlb). now destruct (find _ bs). }
  intros query limit Hq. unfold BookRepository.search.
  destruct (String.eqb_spec (Py.lower (Py.strip query)) "") as [E|_].
  { exfalso. apply Hq. destruct (Py.strip query); [reflexivity | discriminate E]. }
  now rewrite (bind_eq_ok _ _ _ _ _ Hall).
Qed.

End WithPlatform.
End Claims.

(* ================================================================== *)
(** ** Sorting, and the two listings that sort *)

Module SortFacts.
Section Generic.
Context {A K : Type} (key : A -> K) (ltb : K -> K -> bool).
Hypothesis ltb_asym : forall a b, ltb a b = true -> ltb b a = false.
Import Inv.

Lemma insert_perm (x : A) (l : list A) :
  Permutation (insert key ltb x l) (x :: l).
Proof.
  induction l as [|y r IH]; cbn; [reflexivity|].
  destruct (ltb (key y) (key x)); [|reflexivity].
  rewrite IH. apply perm_swap.
Qed.

Lemma sort_by_perm (l : list A) : Permutation (sort_by key ltb l) l.
Proof.
  induction l as [|x r IH]; cbn; [reflexivity|].
  unfold sort_by in IH. now rewrite insert_perm, IH.
Qed.

Lemma insert_hdrel (a x : A) (l : list A) :
  ascending key ltb a x -> HdRel (ascending key ltb) a l ->
  HdRel (ascending key ltb) a (insert key ltb x l).
Proof.
  intros Hax Hal. destruct l as [|y r]; cbn; [now constructor|].
  destruct (ltb (key y) (key x)); constructor; [|exact Hax].
  now inversion Hal.
Qed.

Lemma insert_sorted (x : A) (l : list A) :
  Sorted (ascending key ltb) l -> Sorted (ascending key ltb) (insert key ltb x l).
Proof.
  induction 1 as [|y r Hr IH Hy]; cbn; [repeat constructor|].
  destruct (ltb (key y) (key x)) eqn:E.
  - constructor; [exact IH|]. apply insert_hdrel; [|exact Hy].
    unfold ascending. now apply ltb_asym.
  - constructor; [now constructor|]. constructor. exact E.
Qed.

Lemma sort_by_sorted (l : list A) : Sorted (ascending key ltb) (sort_by key ltb l).
Proof.
  induction l as [|x r IH]; cbn; [constructor|]. now apply insert_sorted.
Qed.

End Generic.

(** The sort over keys of two kinds, where [<] is [ltb] within a kind and
    raises between the kinds: it is the plain sort when the keys are of
    one kind, and raises when they are not. *)
Section Kinds.
Context {A K : Type} (key : A -> K) (ltb : K -> K -> bool)
        (lt : K -> K -> result bool) (kind : K -> bool).
Hypothesis lt_same : forall a b, kind a = kind b -> lt a b = Ok (ltb a b).
Hypothesis lt_mixed : forall a b, kind a <> kind b -> lt a b = Raise TypeError.

Lemma insert_r_same (k : bool) (x : A) (l : list A) :
  kind (key x) = k -> Forall (fun y => kind (key y) = k) l ->
  insert_r key lt x l = Ok (insert key ltb x l).
Proof.
  intros Hx Hl. induction Hl as [|y r Hy Hr IH]; [reflexivity|].
  cbn [insert_r insert]. rewrite lt_same by congruence. cbn [rbind].
  destruct (ltb (key y) (key x)); [|reflexivity]. now rewrite IH.
Qed.

Lemma sort_by_r_same (k : bool) (l : list A) :
  Forall (fun y => kind (key y) = k) l ->
  sort_by_r key lt l = Ok (sort_by key ltb l).
Proof.
  induction 1 as [|x r Hx Hr IH]; [reflexivity|].
  cbn [sort_by_r]. rewrite IH. cbn [rbind].
  apply (insert_r_same k); [exact Hx|].
  eapply Permutation_Forall; [|exact Hr].
  symmetry. apply sort_by_perm.
Qed.

Lemma sort_by_r_mixed (l : list A) (a b : A) :
  In a l -> In b l -> kind (key a) <> kind (key b) ->
  sort_by_r key lt l = Raise TypeError.
Proof.
  revert a b. induction l as [|x r IH]; intros a b Ha Hb Hab; [destruct Ha|].
  cbn [sort_by_r].
  destruct (Forall_Exists_dec (fun y => kind (key y) = negb (kind (key x)))
              (fun y => Bool.bool_dec (kind (key y)) (negb (kind (key x)))) r)
    as [Hall|Hex].
  - (* the rest is of the other kind *)
    rewrite (sort_by_r_same (negb (kind (key x))) r Hall). cbn [rbind].
    pose proof (sort_by_perm key ltb r) as Hp.
    destruct (sort_by key ltb r) as [|y r'] eqn:E.
    + apply Permutation_nil in Hp. subst r.
      destruct Ha as [<-|[]], Hb as [<-|[]]. now contradiction Hab.
    + cbn [insert_r]. rewrite lt_mixed; [reflexivity|].
      assert (Hy : In y r) by (apply (Permutation_in _ Hp); now left).
      rewrite (proj1 (Forall_forall _ _) Hall y Hy).
      now destruct (kind (key x)).
  - (* some of the rest is of the kind of [x] *)
    apply Exists_exists in Hex as (y & Hy & Hk).
    assert (Hxy : kind (key y) = kind (key x))
      by (destruct (kind (key y)), (kind (key x)); cbn in Hk; congruence).
    destruct (Forall_Exists_dec (fun z => kind (key z) = kind (key x))
                (fun z => Bool.bool_dec (kind (key z)) (kind (key x))) r)
      as [Hall|Hex].
    + exfalso. apply Hab.
      assert (Hk' : forall z, In z (x :: r) -> kind (key z) = kind (key x)).
      { intros z [<-|Hz]; [reflexivity|].
        exact (proj1 (Forall_forall _ _) Hall z Hz). }
      now rewrite (Hk' a Ha), (Hk' b Hb).
    + apply Exists_exists in Hex as (z & Hz & Hkz).
      rewrite (IH y z Hy Hz); [reflexivity|]. congruence.
Qed.

End Kinds.

Lemma key_ltb_asym (a b : string * string) :
  BookRepository.key_ltb a b = true -> BookRepository.key_ltb b a = false.
Proof.
  unfold BookRepository.key_ltb. rewrite (String.eqb_sym (fst b) (fst a)).
  destruct (String.eqb (fst a) (fst b)); apply string_ltb_asym.
Qed.

Lemma last_n_suffix {A} (n : Z) (l : list A) :
  0 < n ->
  exists older, l = (older ++ SalesService.last_n n l)%list /\
    List.length (SalesService.last_n n l) = Nat.min (Z.to_nat n) (List.length l).
Proof.
  intros Hn. unfold SalesService.last_n.
  exists (firstn (List.length l - Z.to_nat n) l). split.
  - symmetry. apply firstn_skipn.
  - rewrite length_skipn. lia.
Qed.

Section WithPlatform.
Context {P : Platform}.
Import Inv.

Lemma dt_lt_same (a b : datetime) : aware a = aware b -> dt_lt a b = Ok (dt_ltb a b).
Proof. unfold dt_lt. intros ->. now rewrite Bool.eqb_reflx. Qed.

Lemma dt_lt_mixed (a b : datetime) : aware a <> aware b -> dt_lt a b = Raise TypeError.
Proof.
  unfold dt_lt. intros H. destruct (Bool.eqb (aware a) (aware b)) eqn:E;
    [|reflexivity]. now apply Bool.eqb_prop in E.
Qed.

(** Sales whose timestamps compare are sorted; sales with a naive and an
    offset-aware timestamp among them are not, the sort raises. *)
Lemma sort_sales (l : list Sale.t) :
  comparable l ->
  sort_by_r Sale.timestamp dt_lt l = Ok (sort_by Sale.timestamp dt_ltb l).
Proof.
  intros H. destruct l as [|x r]; [reflexivity|].
  apply (sort_by_r_same Sale.timestamp dt_ltb dt_lt aware dt_lt_same
           (aware (Sale.timestamp x))).
  apply Forall_forall. intros y Hy. apply H; [exact Hy | now left].
Qed.

Lemma sort_sales_mixed (l : list Sale.t) (a b : Sale.t) :
  In a l -> In b l -> aware (Sale.timestamp a) <> aware (Sale.timestamp b) ->
  sort_by_r Sale.timestamp dt_lt l = Raise TypeError.
Proof.
  exact (sort_by_r_mixed Sale.timestamp dt_ltb dt_lt aware dt_lt_same dt_lt_mixed
           l a b).
Qed.

(** What [list_sales] does once the sales are loaded, decoded and
    filtered: the sort, then the limit. *)
Lemma list_sales_run (w w1 : world) (d : document) (all selected : list Sale.t)
    (isbn : option string) (limit : option Z) :
  JSONStore.load w = (Ok d, w1) ->
  map_result Sale.from_dict (sales d) = Ok all ->
  selects isbn all selected ->
  SalesService.list_sales isbn limit w
  = match sort_by_r Sale.timestamp dt_lt selected with
    | Raise e => (Raise e, w1)
    | Ok sorted =>
        match limit with
        | Some n => if 0 <? n then (Ok (SalesService.last_n n sorted), w1)
                    else (Ok sorted, w1)
        | None => (Ok sorted, w1)
        end
    end.
Proof.
  intros Hl Hdec Hsel. unfold SalesService.list_sales.
  rewrite (bind_eq_ok _ _ _ _ _ Hl), Hdec. unfold bind at 1, lift at 1.
  assert (Hrest : forall sales,
            (sales <- lift (sort_by_r Sale.timestamp dt_lt sales) ;;
             match limit with
             | Some n => if 0 <? n then ret (SalesService.last_n n sales)
                         else ret sales
             | None => ret sales
             end) w1
            = match sort_by_r Sale.timestamp dt_lt sales with
              | Raise e => (Raise e, w1)
              | Ok sorted =>
                  match limit with
                  | Some n => if 0 <? n then (Ok (SalesService.last_n n sorted), w1)
                              else (Ok sorted, w1)
                  | None => (Ok sorted, w1)
                  end
              end).
  { intros sales. unfold bind, lift.
    destruct (sort_by_r Sale.timestamp dt_lt sales) as [sorted|e]; [|reflexivity].
    destruct limit as [n|]; [destruct (0 <? n)|]; reflexivity. }
  inversion Hsel; subst.
  - unfold bind at 1, ret at 1. apply Hrest.
  - rewrite H, andb_false_r. unfold bind at 1, ret at 1. apply Hrest.
  - destruct (String.eqb_spec i "") as [->|_]; [now contradiction H|].
    destruct (String.eqb_spec (Py.strip i) ""); [contradiction|].
    cbn [negb andb Sale._normalize_isbn].
    change (Sale.clean i) with (filter_key i). rewrite H0.
    unfold bind at 2, lift at 1. unfold bind at 1, ret at 1. apply Hrest.
Qed.

(** A hit in the words of the specification is what the loop tests. *)
Lemma prefix_occurs (q s : string) :
  String.prefix q s = true <-> exists post, s = (q ++ post)%string.
Proof.
  revert s. induction q as [|a q IH]; intros s.
  - split; [intros _; now exists s | now destruct s].
  - destruct s as [|b s]; cbn [String.prefix].
    + split; [discriminate | intros (post & H); discriminate H].
    + destruct (Ascii.ascii_dec a b) as [->|Hne].
      * rewrite IH. split; intros (post & H); exists post; cbn in *; congruence.
      * split; [discriminate|]. intros (post & H). cbn in H. congruence.
Qed.

Lemma contains_occurs (q s : string) :
  Py.contains q s = true <-> occurs_in q s.
Proof.
  unfold occurs_in. induction s as [|c r IH].
  - cbn [Py.contains]. rewrite orb_false_r, prefix_occurs. split.
    + intros (post & H). now exists "", post.
    + intros (pre & post & H). destruct pre; [now exists post | discriminate H].
  - cbn [Py.contains]. rewrite Bool.orb_true_iff, prefix_occurs, IH. split.
    + intros [(post & H)|(pre & post & H)].
      * now exists "", post.
      * exists (String c pre), post. cbn. now rewrite H.
    + intros (pre & post & H). destruct pre as [|c' pre].
      * left. now exists post.
      * right. exists pre, post. cbn in H. congruence.
Qed.

Lemma matches_hit (query : string) (b : Book.t) :
  BookRepository.matches (Py.lower (Py.strip query)) b = true <-> hit query b.
Proof.
  unfold BookRepository.matches, hit.
  rewrite !Bool.orb_true_iff, !contains_occurs. tauto.
Qed.

Lemma string_ltb_irrefl (a : string) : String.ltb a a = false.
Proof.
  destruct (String.ltb a a) eqn:E; [|reflexivity].
  now rewrite (string_ltb_asym a a E) in E.
Qed.

Lemma key_ltb_pair_lt (x y : string * string) :
  BookRepository.key_ltb x y = true <-> pair_lt x y.
Proof.
  unfold BookRepository.key_ltb, pair_lt.
  destruct (String.eqb_spec (fst x) (fst y)) as [E|E].
  - rewrite E, string_ltb_irrefl. split; [now right|].
    intros [H|[_ H]]; [discriminate | exact H].
  - split; [now left|]. intros [H|[H _]]; [exact H | contradiction].
Qed.

(** What the sort of the results leaves: neighbours in (title, author)
    order. *)
Lemma sorted_by_title_author (l : list Book.t) :
  Sorted in_title_author_order
         (sort_by BookRepository.sort_key BookRepository.key_ltb l).
Proof.
  pose proof (sort_by_sorted BookRepository.sort_key BookRepository.key_ltb
                key_ltb_asym l) as H.
  induction H as [|x r Hr IH Hx]; constructor; [exact IH|].
  destruct Hx as [|y r' Hxy]; constructor.
  unfold in_title_author_order. unfold ascending in Hxy.
  change (title_author y) with (BookRepository.sort_key y).
  change (title_author x) with (BookRepository.sort_key x).
  rewrite <- key_ltb_pair_lt. now rewrite Hxy.
Qed.

(** The loop stops at the cap: it keeps the first [limit] matches. *)
Lemma search_loop_spec (q : string) (limit : Z) (books results : list Book.t) :
  Z.of_nat (List.length results) < limit ->
  BookRepository.search_loop q limit books results
  = (results ++ firstn (Z.to_nat limit - List.length results)
                       (filter (BookRepository.matches q) books))%list.
Proof.
  revert results. induction books as [|b rest IH]; intros results Hlt;
    cbn [BookRepository.search_loop filter].
  - now rewrite firstn_nil, app_nil_r.
  - destruct (BookRepository.matches q b); [|now apply IH].
    destruct (Z.leb_spec limit (Z.of_nat (List.length (results ++ [b])))) as [Hle|Hgt];
      rewrite length_app in *; cbn [List.length] in *.
    + replace (Z.to_nat limit - List.length results)%nat with 1%nat by lia.
      reflexivity.
    + rewrite IH by (rewrite length_app; cbn; lia).
      rewrite length_app. cbn [List.length].
      replace (Z.to_nat limit - List.length results)%nat
        with (S (Z.to_nat limit - (List.length results + 1))) by lia.
      cbn [firstn]. now rewrite <- app_assoc.
Qed.

End WithPlatform.
End SortFacts.

Module Listings.
Section WithPlatform.
Context {P : Platform}.
Import Inv SortFacts.

Lemma lower_empty (s : string) : Py.lower s = "" <-> s = "".
Proof. destruct s; cbn; split; intros H; try reflexivity; discriminate. Qed.

(** With a cap below 1 the loop keeps its first match: it looks at the
    cap only after it has appended. *)
Lemma search_loop_no_cap (q : string) (limit : Z) (books : list Book.t) :
  limit < 1 ->
  BookRepository.search_loop q limit books []
  = firstn 1 (filter (BookRepository.matches q) books).
Proof.
  intros Hl. induction books as [|b rest IH]; [reflexivity|].
  cbn [BookRepository.search_loop filter].
  destruct (BookRepository.matches q b); [|exact IH].
  cbn [app List.length].
  destruct (Z.leb_spec limit (Z.of_nat 1)); [reflexivity | lia].
Qed.

Lemma search_run (query : string) (include_archived : bool) (limit : Z)
    (w w1 : world) (bs : list Book.t) :
  BookRepository.list_all include_archived w = (Ok bs, w1) ->
  Py.strip query <> "" ->
  BookRepository.search query include_archived limit w
  = (Ok (sort_by BookRepository.sort_key BookRepository.key_ltb
           (firstn (Nat.max 1 (Z.to_nat limit))
              (filter (BookRepository.matches (Py.lower (Py.strip query))) bs))),
     w1).
Proof.
  intros Hall Hq. unfold BookRepository.search.
  destruct (String.eqb_spec (Py.lower (Py.strip query)) "") as [E|_].
  { exfalso. apply Hq. now apply lower_empty. }
  rewrite (bind_eq_ok _ _ _ _ _ Hall). unfold ret. do 3 f_equal.
  destruct (Z.lt_ge_cases limit 1) as [Hl|Hl].
  - rewrite (search_loop_no_cap _ limit bs Hl).
    now replace (Nat.max 1 (Z.to_nat limit)) with 1%nat by lia.
  - rewrite search_loop_spec by (cbn; lia). cbn [app List.length].
    rewrite Nat.sub_0_r.
    now replace (Nat.max 1 (Z.to_nat limit)) with (Z.to_nat limit) by lia.
Qed.

(** C7.  A query that is empty or all whitespace gives the empty list
    (nothing is even loaded).  For any other query the hits are the books
    of the listing in whose lower-cased title, author or ISBN the trimmed
    lower-cased query occurs, in document order.  With a limit of at
    least 1 the result is the first [limit] hits, at most [limit] books,
    put in ascending order of (lower-cased title, lower-cased author).
    With a limit below 1 the cap is not kept: the loop appends before it
    tests the length, so the result is the first hit alone, one book where
    at most [limit] were asked for. *)
Theorem search_caps_then_sorts
    (query : string) (include_archived : bool) (limit : Z)
    (w w1 : world) (bs : list Book.t) :
  BookRepository.list_all include_archived w = (Ok bs, w1) ->
  (Py.strip query = "" ->
   BookRepository.search query include_archived limit w = (Ok [], w)) /\
  (Py.strip query <> "" ->
   exists hits capped result : list Book.t,
     hits = filter (BookRepository.matches (Py.lower (Py.strip query))) bs /\
     (forall b, In b hits <-> In b bs /\ hit query b) /\
     BookRepository.search query include_archived limit w = (Ok result, w1) /\
     Permutation result capped /\
     Sorted in_title_author_order result /\
     (1 <= limit ->
      capped = firstn (Z.to_nat limit) hits /\
      Z.of_nat (List.length result) <= limit) /\
     (limit < 1 ->
      capped = firstn 1 hits /\ result = capped /\
      (hits <> [] -> limit < Z.of_nat (List.length result)))).
Proof.
  intros Hall. split; intros Hq.
  - unfold BookRepository.search. rewrite Hq. reflexivity.
  - set (q := Py.lower (Py.strip query)).
    set (hits := filter (BookRepository.matches q) bs).
    set (capped := firstn (Nat.max 1 (Z.to_nat limit)) hits).
    exists hits, capped,
      (sort_by BookRepository.sort_key BookRepository.key_ltb capped).
    pose proof (sort_by_perm BookRepository.sort_key BookRepository.key_ltb capped)
      as Hp.
    split; [reflexivity|]. split.
    { intros b. unfold hits. rewrite filter_In. unfold q. now rewrite matches_hit. }
    split; [exact (search_run query include_archived limit w w1 bs Hall Hq)|].
    split; [exact Hp|]. split; [apply sorted_by_title_author|]. split.
    + intros Hl.
      assert (Hc : capped = firstn (Z.to_nat limit) hits).
      { unfold capped.
        now replace (Nat.max 1 (Z.to_nat limit)) with (Z.to_nat limit) by lia. }
      split; [exact Hc|].
      rewrite (Permutation_length Hp), Hc, length_firstn. lia.
    + intros Hl.
      assert (Hc : capped = firstn 1 hits).
      { unfold capped.
        now replace (Nat.max 1 (Z.to_nat limit)) with 1%nat by lia. }
      split; [exact Hc|]. rewrite Hc. split.
      * destruct hits as [|h rest]; reflexivity.
      * intros Hne. destruct hits as [|h rest]; [now contradiction Hne|].
        cbn. lia.
Qed.

(** When two of the selected sales carry a naive and an offset-aware
    timestamp, the sort raises and nothing is listed. *)
Lemma list_sales_mixed
    (w w1 : world) (d : document) (all selected : list Sale.t)
    (isbn : option string) (limit : option Z) (a b : Sale.t) :
  JSONStore.load w = (Ok d, w1) ->
  map_result Sale.from_dict (sales d) = Ok all ->
  selects isbn all selected ->
  In a selected -> In b selected ->
  aware (Sale.timestamp a) <> aware (Sale.timestamp b) ->
  SalesService.list_sales isbn limit w = (Raise TypeError, w1).
Proof.
  intros Hl Hdec Hsel Ha Hb Hab.
  rewrite (list_sales_run _ _ _ _ _ _ limit Hl Hdec Hsel).
  now rewrite (sort_sales_mixed selected a b Ha Hb Hab).
Qed.

(** C8, as amended.  When the stored sales decode, the ISBN filter (if one
    is given and not blank) normalises to an ISBN, and the timestamps of
    the selected sales compare (all naive or all offset-aware),
    [list_sales] sorts the selected sales, those whose ISBN is the
    normalised filter, ascending by timestamp; with a positive limit [n]
    it returns the last [n] of them (all of them when there are fewer), a
    suffix of the sorted sequence; with no positive limit it returns the
    whole sorted sequence. *)
Theorem list_sales_returns_latest
    (w w1 : world) (d : document) (all selected : list Sale.t)
    (isbn : option string) (limit : option Z) :
  JSONStore.load w = (Ok d, w1) ->
  map_result Sale.from_dict (sales d) = Ok all ->
  selects isbn all selected ->
  comparable selected ->
  exists sorted result : list Sale.t,
    Permutation sorted selected /\
    Sorted (ascending Sale.timestamp dt_ltb) sorted /\
    (forall s, In s sorted <->
       In s all /\
       match isbn with
       | Some i => Py.strip i = "" \/ Sale.isbn s = JStr (filter_key i)
       | None => True
       end) /\
    SalesService.list_sales isbn limit w = (Ok result, w1) /\
    match limit with
    | Some n =>
        if 0 <? n
        then exists older, sorted = (older ++ result)%list /\
               List.length result = Nat.min (Z.to_nat n) (List.length sorted)
        else result = sorted
    | None => result = sorted
    end.
Proof.
  intros Hl Hdec Hsel Hcmp.
  set (sorted := sort_by Sale.timestamp dt_ltb selected).
  pose proof (sort_by_perm Sale.timestamp dt_ltb selected) as Hp. fold sorted in Hp.
  assert (Hrun : SalesService.list_sales isbn limit w
                 = match limit with
                   | Some n => if 0 <? n then (Ok (SalesService.last_n n sorted), w1)
                               else (Ok sorted, w1)
                   | None => (Ok sorted, w1)
                   end).
  { rewrite (list_sales_run _ _ _ _ _ _ limit Hl Hdec Hsel).
    now rewrite (sort_sales selected Hcmp). }
  assert (Hin : forall s, In s sorted <->
                  In s all /\
                  match isbn with
                  | Some i => Py.strip i = "" \/ Sale.isbn s = JStr (filter_key i)
                  | None => True
                  end).
  { intros s. split.
    - intros H. apply (Permutation_in _ Hp) in H. inversion Hsel; subst.
      + now split.
      + split; [exact H | now left].
      + apply filter_In in H as [H E]. split; [exact H|]. right.
        destruct (Sale.isbn s); try discriminate E. cbn in E.
        apply String.eqb_eq in E. now subst.
    - intros [H Hf]. apply (Permutation_in _ (Permutation_sym Hp)).
      inversion Hsel; subst; try exact H.
      apply filter_In. split; [exact H|].
      destruct Hf as [Hf|Hf]; [contradiction|]. rewrite Hf. cbn.
      apply String.eqb_refl. }
  exists sorted.
  destruct limit as [n|]; [destruct (Z.ltb_spec 0 n) as [Hn|Hn]|].
  - exists (SalesService.last_n n sorted).
    split; [exact Hp|]. split; [apply sort_by_sorted, dt_ltb_asym|].
    split; [exact Hin|]. split; [exact Hrun|]. apply last_n_suffix. exact Hn.
  - exists sorted.
    split; [exact Hp|]. split; [apply sort_by_sorted, dt_ltb_asym|].
    split; [exact Hin|]. split; [exact Hrun | reflexivity].
  - exists sorted.
    split; [exact Hp|]. split; [apply sort_by_sorted, dt_ltb_asym|].
    split; [exact Hin|]. split; [exact Hrun | reflexivity].
Qed.

End WithPlatform.
End Listings.

(* ================================================================== *)
(** ** The theorems at work on the sample ledgers *)

Module Cases.
Import Inv Examples.

Ltac valid_sample :=
  constructor; cbn -[Z.pow];
  first [ lia | discriminate | vm_compute; reflexivity ].

Ltac usable_sample :=
  eexists; split; [reflexivity | vm_compute; discriminate].

Ltac nodup_sample :=
  cbn; repeat (constructor; [cbn; intuition discriminate|]); constructor.

Ltac ledger_sample :=
  constructor;
  [ reflexivity
  | repeat (constructor; [valid_sample|]); constructor
  | repeat (constructor; [usable_sample|]); constructor
  | nodup_sample
  | nodup_sample ].


(** C2 fails as stated: an archived book with too little stock is refused
    with ValidationError, not OutOfStockError. *)
Lemma sell_archived_is_not_out_of_stock :
  BookRepository.get_by_isbn "978-0321125217" (store_of [ddd_archived] [])
    = (Ok ddd_archived, store_of [ddd_archived] []) /\
  0 < 1 /\ Book.quantity ddd_archived < 1 /\
  SalesService.sell "978-0321125217" 1 (store_of [ddd_archived] [])
    = (Raise (ValidationError "book"), store_of [ddd_archived] []).
Proof. repeat split; reflexivity. Qed.

Lemma sell_out_of_stock_witness :
  BookRepository.get_by_isbn "978-0321125217" (store_of [ddd] [])
    = (Ok ddd, store_of [ddd] []) /\
  Book.archived ddd = false /\ 0 < 1 /\ Book.quantity ddd < 1 /\
  SalesService.sell "978-0321125217" 1 (store_of [ddd] [])
    = (Raise (OutOfStockError (BookRepository._normalize_isbn "978-0321125217") 1
                              (Book.quantity ddd)), store_of [ddd] []).
Proof.
  assert (G : BookRepository.get_by_isbn "978-0321125217" (store_of [ddd] [])
              = (Ok ddd, store_of [ddd] [])) by reflexivity.
  assert (Q : Book.quantity ddd < 1) by (cbn; lia).
  split; [exact G|]. split; [reflexivity|]. split; [lia|]. split; [exact Q|].
  exact (proj1 (Refusals.sell_out_of_stock (store_of [ddd] []) (store_of [ddd] [])
                  ddd "978-0321125217" 1 G eq_refl eq_refl Q)).
Defined.

(** C3 at a failing input: the ledger holds [clean_code] and [ddd]; updating
    [clean_code] to the ISBN of [ddd] should be refused with
    DuplicateISBNError; what is raised is NameError, the file untouched. *)
Theorem update_to_taken_isbn_raises_NameError :
  BookRepository.update clean_code_as_ddd (store_of [clean_code; ddd] [])
  = (Raise (NameError "DuplicateISBNErrror"), store_of [clean_code; ddd] []).
Proof.
  assert (Hl : BookRepository._load_books (store_of [clean_code; ddd] [])
               = (Ok [clean_code; ddd], store_of [clean_code; ddd] []))
    by reflexivity.
  apply (Refusals.update_collision _ _ _ clean_code_as_ddd ddd 0%nat 1%nat Hl).
  - reflexivity.
  - reflexivity.
  - discriminate.
  - reflexivity.
Qed.

Lemma archive_if_empty_returns_the_copy_read_before_witness :
  ledger (store_of [clean_code; ddd] []) [clean_code; ddd] [] /\
  exists (returned persisted : Book.t) (w' : world),
    InventoryService.archive_if_empty "978-0321125217" (store_of [clean_code; ddd] [])
      = (Ok returned, w') /\
    Book.archived returned = false /\
    BookRepository.get_by_isbn "978-0321125217" w' = (Ok persisted, w') /\
    Book.archived persisted = true.
Proof.
  assert (L : ledger (store_of [clean_code; ddd] []) [clean_code; ddd] [])
    by ledger_sample.
  split; [exact L|].
  destruct (Refusals.archive_if_empty_returns_the_copy_read_before
              (store_of [clean_code; ddd] []) [clean_code; ddd] [] ddd
              "978-0321125217" L)
    as (r & p & w' & Ha & _ & Hr & Hg & Hp & _).
  - right. now left.
  - vm_compute. reflexivity.
  - reflexivity.
  - reflexivity.
  - exists r, p, w'. repeat split; assumption.
Defined.

Lemma book_round_trip_witness :
  Book.__init__ (JStr " Clean Code ") (JStr "Robert C. Martin")
                (JStr "978-0132350884") (Amount (Decimal.mk 1234 (-2)))
                (JStr "usd") 5 JNull false None (mkWorld Missing 0)
    = (Ok new_clean_code, mkWorld Missing 2) /\
  exists back : Book.t,
    Book.from_dict (Book.to_dict new_clean_code) (mkWorld Missing 2)
      = (Ok back, mkWorld Missing 2) /\
    Book.price_cents back = Book.price_cents new_clean_code /\
    Book.created_at back = Book.created_at new_clean_code.
Proof.
  assert (I : Book.__init__ (JStr " Clean Code ") (JStr "Robert C. Martin")
                (JStr "978-0132350884") (Amount (Decimal.mk 1234 (-2)))
                (JStr "usd") 5 JNull false None (mkWorld Missing 0)
              = (Ok new_clean_code, mkWorld Missing 2)) by reflexivity.
  split; [exact I|].
  destruct (Claims.book_round_trip _ _ _ _ _ _ _ _ _ _ _ (mkWorld Missing 2) _ I)
    as (back & Hb & _ & _ & _ & _ & Hp & _ & _ & _ & Hc).
  exists back. repeat split; assumption.
Defined.

(** C4 fails as stated: one record without a title, or one with a
    timestamp that is no date, aborts the whole listing although the other
    record decodes. *)
Lemma load_aborts_on_missing_key_or_bad_timestamp :
  (forall w, Book.from_dict (Book.to_dict clean_code) w = (Ok clean_code, w)) /\
  BookRepository.list_all true (raw_store [Book.to_dict clean_code; no_title])
    = (Raise (KeyError "title"), raw_store [Book.to_dict clean_code; no_title]) /\
  BookRepository.list_all true (raw_store [Book.to_dict clean_code; bad_timestamp])
    = (Raise ValueError, raw_store [Book.to_dict clean_code; bad_timestamp]).
Proof. repeat split; intros; reflexivity. Qed.

Lemma load_skips_records_failing_validation_witness :
  Forall recoverable [Book.to_dict clean_code; blank_title] /\
  exists (bs : list Book.t) (w2 : world),
    decoded [Book.to_dict clean_code; blank_title] bs /\
    BookRepository.list_all true (raw_store [Book.to_dict clean_code; blank_title])
      = (Ok bs, w2).
Proof.
  assert (R : Forall recoverable [Book.to_dict clean_code; blank_title]).
  { apply Forall_cons; [intros w; exact I|].
    apply Forall_cons; [intros w; reflexivity | apply Forall_nil]. }
  split; [exact R|].
  destruct (Claims.load_skips_records_failing_validation
              (raw_store [Book.to_dict clean_code; blank_title])
              (raw_store [Book.to_dict clean_code; blank_title])
              (mkDoc [Book.to_dict clean_code; blank_title] []))
    as (bs & w2 & Hd & _ & _ & Hl & _).
  - reflexivity.
  - exact R.
  - exists bs, w2. split; [exact Hd | exact Hl].
Defined.

(** C5 fails as stated: a 'books' key that is present with the value null,
    which is not a sequence, does not make [load] fail. *)
Lemma load_accepts_a_null_field :
  Py.dict_get "books" [("books", JNull); ("sales", JList [])] = Some JNull /\
  JSONStore.load (mkWorld (Parsed null_books) 0)
    = (Ok (mkDoc [] []), mkWorld (Parsed null_books) 0).
Proof. split; reflexivity. Qed.

(** C7 at a failing input and at a passing one.  The listing holds
    Refactoring (by Martin Fowler), DDD and Clean Code (by Robert C.
    Martin); the query is " MARTIN ".  With limit 0 the search still
    returns a book, the first hit, where none was asked for.  With limit 5
    it returns the two hits, DDD left out, Clean Code before Refactoring;
    with limit 1 the first hit in document order, which is not the first
    in title order. *)
Lemma search_caps_then_sorts_witness :
  BookRepository.list_all true (store_of [refactoring; ddd; clean_code] [])
    = (Ok [refactoring; ddd; clean_code], store_of [refactoring; ddd; clean_code] []) /\
  Py.strip " MARTIN " <> "" /\
  BookRepository.search " MARTIN " true 0 (store_of [refactoring; ddd; clean_code] [])
    = (Ok [refactoring], store_of [refactoring; ddd; clean_code] []) /\
  0 < Z.of_nat (List.length [refactoring]) /\
  BookRepository.search " MARTIN " true 5 (store_of [refactoring; ddd; clean_code] [])
    = (Ok [clean_code; refactoring], store_of [refactoring; ddd; clean_code] []) /\
  BookRepository.search " MARTIN " true 1 (store_of [refactoring; ddd; clean_code] [])
    = (Ok [refactoring], store_of [refactoring; ddd; clean_code] []) /\
  BookRepository.search "0321" true 5 (store_of [refactoring; ddd; clean_code] [])
    = (Ok [ddd], store_of [refactoring; ddd; clean_code] []) /\
  BookRepository.search "code" true 5 (store_of [refactoring; ddd; clean_code] [])
    = (Ok [clean_code], store_of [refactoring; ddd; clean_code] []).
Proof.
  assert (G : BookRepository.list_all true (store_of [refactoring; ddd; clean_code] [])
              = (Ok [refactoring; ddd; clean_code],
                 store_of [refactoring; ddd; clean_code] [])) by reflexivity.
  assert (Q : Py.strip " MARTIN " <> "") by (vm_compute; discriminate).
  split; [exact G|]. split; [exact Q|].
  destruct (Listings.search_caps_then_sorts " MARTIN " true 0 _ _ _ G) as [_ H].
  destruct (H Q) as (hits & capped & result & Hh & _ & Hs & _ & _ & _ & Hb).
  destruct (Hb ltac:(lia)) as (Hc & Hr & Hlen).
  assert (E : result = [refactoring]) by (rewrite Hr, Hc, Hh; reflexivity).
  rewrite E in Hs, Hlen.
  split; [exact Hs|]. split; [apply Hlen; rewrite Hh; discriminate|].
  split; [reflexivity|]. split; [reflexivity|]. split; reflexivity.
Defined.

(** C8 fails as stated: two stored sales that each decode, one with a
    naive timestamp and one with an offset, cannot be put in order; the
    sort raises TypeError and nothing is listed. *)
Lemma list_sales_raises_on_mixed_timestamps :
  map_result Sale.from_dict (map Sale.to_dict [sale_march; sale_april_utc])
    = Ok [sale_march; sale_april_utc] /\
  SalesService.list_sales None (Some 1)
      (store_of [clean_code; ddd] (map Sale.to_dict [sale_march; sale_april_utc]))
    = (Raise TypeError,
       store_of [clean_code; ddd] (map Sale.to_dict [sale_march; sale_april_utc])).
Proof. split; reflexivity. Qed.

Lemma list_sales_returns_latest_witness :
  map_result Sale.from_dict (map Sale.to_dict three_sales) = Ok three_sales /\
  selects (Some "978-0132350884") three_sales [sale_march; sale_january] /\
  comparable [sale_march; sale_january] /\
  SalesService.list_sales (Some "978-0132350884") (Some 1)
      (store_of [clean_code; ddd] (map Sale.to_dict three_sales))
    = (Ok [sale_march], store_of [clean_code; ddd] (map Sale.to_dict three_sales)) /\
  SalesService.list_sales (Some "978-0132350884") None
      (store_of [clean_code; ddd] (map Sale.to_dict three_sales))
    = (Ok [sale_january; sale_march],
       store_of [clean_code; ddd] (map Sale.to_dict three_sales)) /\
  SalesService.list_sales None (Some 2)
      (store_of [clean_code; ddd] (map Sale.to_dict three_sales))
    = (Ok [sale_february; sale_march],
       store_of [clean_code; ddd] (map Sale.to_dict three_sales)).
Proof.
  assert (D : map_result Sale.from_dict (map Sale.to_dict three_sales)
              = Ok three_sales) by reflexivity.
  assert (S : selects (Some "978-0132350884") three_sales [sale_march; sale_january]).
  { apply (selects_isbn "978-0132350884" three_sales);
      [vm_compute; discriminate | reflexivity]. }
  assert (C : comparable [sale_march; sale_january]).
  { intros a b [<-|[<-|[]]] [<-|[<-|[]]]; reflexivity. }
  split; [exact D|]. split; [exact S|]. split; [exact C|].
  destruct (Listings.list_sales_returns_latest
              (store_of [clean_code; ddd] (map Sale.to_dict three_sales))
              (store_of [clean_code; ddd] (map Sale.to_dict three_sales))
              (mkDoc (map Book.to_dict [clean_code; ddd])
                     (map Sale.to_dict three_sales))
              three_sales [sale_march; sale_january] (Some "978-0132350884")
              (Some 1) eq_refl D S C)
    as (sorted & result & Hp & _ & _ & Hr & Hl).
  cbn in Hl. destruct Hl as (older & _ & Hlen).
  assert (E : result = [sale_march]).
  { assert (Hrun : SalesService.list_sales (Some "978-0132350884") (Some 1)
                     (store_of [clean_code; ddd] (map Sale.to_dict three_sales))
                   = (Ok [sale_march],
                      store_of [clean_code; ddd] (map Sale.to_dict three_sales)))
      by reflexivity.
    rewrite Hrun in Hr. now injection Hr as <-. }
  rewrite E in Hr.
  split; [exact Hr|]. split; reflexivity.
Defined.

End Cases.

(* ================================================================== *)
(** * Further properties of the models *)

(** ** Sale and Book *)

Module ModelProps.
Section WithPlatform.
Context {P : Platform}.
Import Inv.

Lemma sale_from_dict_to_dict (s : Sale.t) :
  Sale.from_dict (Sale.to_dict s) = Ok s.
Proof.
  unfold Sale.from_dict, Sale.to_dict, dict_index, dict_get_default.
  cbn [Py.dict_get String.eqb Ascii.eqb Bool.eqb rbind].
  rewrite fromisoformat_isoformat. cbn [rbind py_int PyInt.int].
  destruct s; reflexivity.
Qed.

(** X1.  Every Sale is read back from its encoded form unchanged, whatever
    its fields hold, and so is every list of them: decoding the encoded
    sales gives the sales, in the same order. *)
Theorem sale_round_trip (s : Sale.t) (l : list Sale.t) :
  Sale.from_dict (Sale.to_dict s) = Ok s /\
  map_result Sale.from_dict (map Sale.to_dict l) = Ok l.
Proof.
  split; [apply sale_from_dict_to_dict|].
  induction l as [|x r IH]; [reflexivity|]. cbn [map map_result].
  now rewrite sale_from_dict_to_dict, IH.
Qed.

Lemma sale_currency_ok (v : json) (s : string) :
  Sale._normalize_currency v = Ok s ->
  Py.strip s = s /\ Py.upper s = s /\ s <> "".
Proof.
  unfold Sale._normalize_currency. destruct v; try discriminate.
  destruct (String.eqb_spec (Py.strip s0) ""); [discriminate|].
  intros [= <-]. repeat split.
  - now rewrite PyFacts.strip_upper, PyFacts.strip_idem.
  - apply PyFacts.upper_idem.
  - now apply BookTrip.upper_not_empty.
Qed.

(** X2.  A Sale that [Sale.create] returns has the quantity and the unit
    price it was given, the quantity positive and the price not negative,
    so its total is not negative; its ISBN is a string of ISBN shape, its
    currency a trimmed upper-case non-empty string, its book id the trimmed
    non-empty id; and creating it wrote nothing. *)
Theorem create_returns_checked_sale
    (book_id isbn : json) (qty cents : Z) (currency : json)
    (timestamp : option datetime) (w w' : world) (s : Sale.t) :
  Sale.create book_id isbn qty cents currency timestamp w = (Ok s, w') ->
  Sale.qty s = qty /\ 0 < qty /\
  Sale.unit_price_cents s = cents /\ 0 <= cents /\
  0 <= Sale.total_cents s /\
  (exists i, Sale.isbn s = JStr i /\ ISBN_RE.match_ i = true) /\
  (exists c, Sale.currency s = JStr c /\ Py.strip c = c /\ Py.upper c = c /\ c <> "") /\
  (exists raw, book_id = JStr raw /\ Sale.book_id s = JStr (Py.strip raw)
               /\ Py.strip raw <> "") /\
  fs w' = fs w.
Proof.
  unfold Sale.create. intros H.
  apply bind_ok in H as (u1 & w1 & E1 & H). apply lift_ok in E1 as [E1 ->].
  apply bind_ok in H as (u2 & w2 & E2 & H). apply lift_ok in E2 as [E2 ->].
  apply bind_ok in H as (u3 & w3 & E3 & H). apply lift_ok in E3 as [E3 ->].
  apply bind_ok in H as (i & w4 & E4 & H). apply lift_ok in E4 as [E4 ->].
  apply bind_ok in H as (c & w5 & E5 & H). apply lift_ok in E5 as [E5 ->].
  apply bind_ok in H as (u & w6 & E6 & H).
  apply bind_ok in H as (ts & w7 & E7 & H).
  apply ret_ok in H as [-> ->].
  unfold Sale._validate_positive_int in E2.
  destruct (Z.leb_spec qty 0) as [|Hq]; [discriminate|].
  unfold Sale._validate_non_negative_int in E3.
  destruct (Z.ltb_spec cents 0) as [|Hc]; [discriminate|].
  cbn [Sale.qty Sale.unit_price_cents Sale.isbn Sale.currency Sale.book_id].
  split; [reflexivity|]. split; [exact Hq|]. split; [reflexivity|].
  split; [exact Hc|]. split; [unfold Sale.total_cents; cbn; nia|].
  split.
  { exists i. split; [reflexivity|].
    unfold Sale._normalize_isbn in E4. destruct isbn; try discriminate.
    destruct (ISBN_RE.match_ (Sale.clean s)) eqn:M; [|discriminate].
    now injection E4 as <-. }
  split.
  { exists c. split; [reflexivity|]. now apply sale_currency_ok in E5. }
  split.
  { unfold Sale._validate_non_empty in E1. destruct book_id; try discriminate.
    destruct (String.eqb_spec (Py.strip s) ""); [discriminate|].
    exists s. now repeat split. }
  unfold uuid4 in E6. injection E6 as _ <-.
  destruct timestamp.
  - now apply ret_ok in E7 as [_ ->].
  - unfold now in E7. now injection E7 as _ <-.
Qed.

Lemma increase_stock_ok (n : Z) (b b' : Book.t) :
  Book.increase_stock n b = Ok b' ->
  0 < n /\ b' = Book.set_quantity (Book.quantity b + n) b.
Proof.
  unfold Book.increase_stock, Book._validate_positive_int.
  destruct (Z.leb_spec n 0); [discriminate|]. cbn [rbind].
  intros [= <-]. now split.
Qed.

Lemma decrease_stock_inv (n : Z) (b b' : Book.t) :
  Book.decrease_stock n b = Ok b' ->
  0 < n <= Book.quantity b /\ b' = Book.set_quantity (Book.quantity b - n) b.
Proof.
  unfold Book.decrease_stock, Book._validate_positive_int.
  destruct (Z.leb_spec n 0); [discriminate|]. cbn [rbind].
  destruct (Z.ltb_spec (Book.quantity b) n); [discriminate|].
  intros [= <-]. split; [lia | reflexivity].
Qed.

Lemma set_price_inv (a : amount) (b b' : Book.t) :
  Book.set_price a b = Ok b' ->
  exists c, Book._to_cents a = Ok c /\
    b' = Book.mk (Book.id b) (Book.created_at b) (Book.title b) (Book.author b)
                 (Book.isbn b) (Book.currency b) c (Book.quantity b)
                 (Book.archived b).
Proof.
  unfold Book.set_price. destruct (Book._to_cents a) as [c|]; [|discriminate].
  cbn [rbind]. intros [= <-]. now exists c.
Qed.

Lemma valid_set_price (b : Book.t) (c : Z) :
  valid_book b -> 0 <= c < 10 ^ 28 ->
  valid_book (Book.mk (Book.id b) (Book.created_at b) (Book.title b)
                      (Book.author b) (Book.isbn b) (Book.currency b) c
                      (Book.quantity b) (Book.archived b)).
Proof. intros [] Hc. constructor; cbn -[Z.pow]; assumption. Qed.

(** X3.  The methods that change a Book keep the class invariants and
    change one field only.  A stock change that returns has moved the
    quantity by exactly [n > 0] and never below zero; a new price sets the
    cents that [_to_cents] gives and leaves the quantity alone; archiving
    sets the archived flag.  Each time the id, the creation time, the
    title, the author, the ISBN, the currency and the other two of
    quantity, price and archived flag are as before. *)
Theorem mutators_keep_invariants (b : Book.t) :
  valid_book b ->
  (forall n b', Book.increase_stock n b = Ok b' ->
     valid_book b' /\ 0 < n /\ Book.quantity b' = Book.quantity b + n
     /\ Book.id b' = Book.id b /\ Book.isbn b' = Book.isbn b
     /\ same_but_quantity b b') /\
  (forall n b', Book.decrease_stock n b = Ok b' ->
     valid_book b' /\ 0 < n <= Book.quantity b
     /\ Book.quantity b' = Book.quantity b - n
     /\ Book.id b' = Book.id b /\ Book.isbn b' = Book.isbn b
     /\ same_but_quantity b b') /\
  (forall a b', Book.set_price a b = Ok b' ->
     valid_book b' /\ Book.quantity b' = Book.quantity b
     /\ Book.id b' = Book.id b /\ Book.isbn b' = Book.isbn b
     /\ Book._to_cents a = Ok (Book.price_cents b')
     /\ same_but_price b b') /\
  (valid_book (Book.mark_archived b) /\ Book.archived (Book.mark_archived b) = true
   /\ Book.quantity (Book.mark_archived b) = Book.quantity b
   /\ Book.id (Book.mark_archived b) = Book.id b
   /\ Book.isbn (Book.mark_archived b) = Book.isbn b
   /\ same_but_archived b (Book.mark_archived b)).
Proof.
  intros V. pose proof (quantity_range b V) as Hq0.
  split; [|split; [|split]].
  - intros n b' H. apply increase_stock_ok in H as [Hn ->].
    split; [apply LedgerFacts.valid_set_quantity; [exact V | lia]|].
    split; [exact Hn|]. split; [reflexivity|]. split; [reflexivity|].
    split; [reflexivity|]. unfold same_but_quantity. now repeat split.
  - intros n b' H. apply decrease_stock_inv in H as [Hn ->].
    split; [apply LedgerFacts.valid_set_quantity; [exact V | lia]|].
    split; [exact Hn|]. split; [reflexivity|]. split; [reflexivity|].
    split; [reflexivity|]. unfold same_but_quantity. now repeat split.
  - intros a b' H. apply set_price_inv in H as (c & Hc & ->).
    split; [apply valid_set_price; [exact V | exact (BookFacts.to_cents_range _ _ Hc)]|].
    split; [reflexivity|]. split; [reflexivity|]. split; [reflexivity|].
    split; [exact Hc|]. unfold same_but_price. now repeat split.
  - split; [now apply LedgerFacts.valid_mark_archived|].
    split; [reflexivity|]. split; [reflexivity|]. split; [reflexivity|].
    split; [reflexivity|]. unfold same_but_archived. now repeat split.
Qed.

(** X4.  Stock put in can be taken out again: for a Book whose quantity is
    not negative and [n > 0], increasing by [n] succeeds and decreasing the
    result by [n] gives the Book back. *)
Theorem increase_then_decrease (b : Book.t) (n : Z) :
  0 <= Book.quantity b -> 0 < n ->
  exists b1, Book.increase_stock n b = Ok b1 /\ Book.decrease_stock n b1 = Ok b.
Proof.
  intros Hq Hn. exists (Book.set_quantity (Book.quantity b + n) b). split.
  - unfold Book.increase_stock, Book._validate_positive_int.
    destruct (Z.leb_spec n 0); [lia | reflexivity].
  - unfold Book.decrease_stock, Book._validate_positive_int.
    destruct (Z.leb_spec n 0); [lia|]. cbn [rbind Book.quantity Book.set_quantity].
    destruct (Z.ltb_spec (Book.quantity b + n) n); [lia|].
    unfold Book.set_quantity. cbn.
    replace (Book.quantity b + n - n) with (Book.quantity b) by lia.
    now destruct b.
Qed.

(** X5.  The price a Book shows, [Decimal(cents) / 100], is the price that
    gives these cents: assigning a Book its own price changes nothing. *)
Theorem price_getter_setter (b : Book.t) :
  valid_book b -> Book.set_price (Amount (Book.price b)) b = Ok b.
Proof.
  intros V. unfold Book.set_price, Book.price.
  rewrite BookFacts.to_cents_div100 by exact (cents_range b V).
  cbn [rbind]. now destruct b.
Qed.

End WithPlatform.
End ModelProps.

(* ================================================================== *)
(** ** The store and the repository *)

Module CatalogFacts.
Section WithPlatform.
Context {P : Platform}.
Import Inv Obs StoreFacts ListFacts.

Lemma ledger_catalog (w : world) bs ss : ledger w bs ss -> catalog w bs ss.
Proof. intros []. now constructor. Qed.

Lemma load_books_catalog (w : world) bs ss :
  catalog w bs ss -> BookRepository._load_books w = (Ok bs, w).
Proof.
  intros C. unfold BookRepository._load_books.
  rewrite (bind_eq_ok _ _ _ _ _ (load_dump _ _ (cat_on_disk _ _ _ C))). cbn [books].
  apply LedgerFacts.decode_books_valid, (cat_valid _ _ _ C).
Qed.

Lemma save_books_catalog (w : world) bs ss (bs' : list Book.t) :
  catalog w bs ss ->
  BookRepository._save_books bs' w
  = (Ok tt, mkWorld (Parsed (JSONStore.dump (mkDoc (map Book.to_dict bs') ss)))
                    (seed w)).
Proof. intros C. exact (LedgerFacts.save_books_at w _ bs' (cat_on_disk _ _ _ C)). Qed.

Lemma catalog_same_file (w w' : world) bs ss :
  fs w' = fs w -> catalog w bs ss -> catalog w' bs ss.
Proof. intros H []. constructor; try assumption. now rewrite H. Qed.

Lemma find_isbn_catalog (w : world) bs ss (b : Book.t) :
  catalog w bs ss -> In b bs ->
  find (fun x => String.eqb (Book.isbn x) (Book.isbn b)) bs = Some b.
Proof.
  intros C Hin. apply (find_key Book.isbn _ bs b Hin); [|exact (cat_isbns _ _ _ C)].
  intros x _. apply String.eqb_eq.
Qed.

Lemma get_by_isbn_catalog (w : world) bs ss (b : Book.t) (isbn : string) :
  catalog w bs ss -> In b bs ->
  Book.isbn b = BookRepository._normalize_isbn isbn ->
  BookRepository.get_by_isbn isbn w = (Ok b, w).
Proof.
  intros C Hin Hisbn. unfold BookRepository.get_by_isbn.
  rewrite (bind_eq_ok _ _ _ _ _ (load_books_catalog _ _ _ C)).
  rewrite <- Hisbn. now rewrite (find_isbn_catalog w bs ss b C Hin).
Qed.

Lemma find_none_forall {A} (p : A -> bool) (l : list A) :
  find p l = None <-> forall x, In x l -> p x = false.
Proof.
  split.
  - intros H x Hx. exact (find_none p l H x Hx).
  - induction l as [|y r IH]; intros H; [reflexivity|]. cbn.
    rewrite (H y (or_introl eq_refl)). apply IH. intros x Hx. apply H. now right.
Qed.

Lemma find_index_none {A} (p : A -> bool) (l : list A) :
  (forall x, In x l -> p x = false) -> find_index p l = None.
Proof.
  induction l as [|y r IH]; intros H; [reflexivity|]. cbn.
  rewrite (H y (or_introl eq_refl)). rewrite IH; [reflexivity|].
  intros x Hx. apply H. now right.
Qed.

Lemma find_index_nth {A} (p : A -> bool) (l : list A) (idx : nat) :
  find_index p l = Some idx ->
  exists x, nth_error l idx = Some x /\ p x = true.
Proof.
  revert idx. induction l as [|y r IH]; intros idx; cbn; [discriminate|].
  destruct (p y) eqn:E.
  - intros [= <-]. now exists y.
  - destruct (find_index p r) as [i|] eqn:F; [|discriminate]. cbn.
    intros [= <-]. exact (IH i eq_refl).
Qed.

Lemma list_del_split {A} (l : list A) (idx : nat) (x : A) :
  nth_error l idx = Some x ->
  exists pre post,
    l = (pre ++ x :: post)%list /\ list_del l idx = (pre ++ post)%list
    /\ List.length pre = idx.
Proof.
  revert idx. induction l as [|y r IH]; intros [|i]; cbn; try discriminate.
  - intros [= ->]. now exists [], r.
  - intros H. destruct (IH i H) as (pre & post & -> & E & L).
    exists (y :: pre), post. cbn. now rewrite E, L.
Qed.

Lemma list_set_split {A} (l : list A) (idx : nat) (x y : A) :
  nth_error l idx = Some x ->
  exists pre post,
    l = (pre ++ x :: post)%list /\ list_set l idx y = (pre ++ y :: post)%list.
Proof.
  revert idx. induction l as [|z r IH]; intros [|i]; cbn; try discriminate.
  - intros [= ->]. now exists [], r.
  - intros H. destruct (IH i H) as (pre & post & -> & E).
    exists (z :: pre), post. cbn. now rewrite E.
Qed.

End WithPlatform.
End CatalogFacts.

Module StoreProps.
Import Inv Obs StoreFacts.

(** A [load] writes nothing but the empty document for a missing file. *)
Lemma load_boot (w : world) : boot (fs w) (fs (snd (JSONStore.load w))).
Proof.
  unfold JSONStore.load, boot. destruct w as [f n]. cbn [fs].
  destruct f as [| |j]; cbn; [right; now split | now left | now left].
Qed.

(** X6.  Loading is idempotent: a second [load] gives what the first gave
    and leaves the world the first left.  The only thing a [load] ever
    writes is the empty document, for a file that was missing; after the
    store's [__init__] it writes nothing. *)
Theorem load_is_idempotent (w : world) :
  JSONStore.load (snd (JSONStore.load w)) = JSONStore.load w /\
  boot (fs w) (fs (snd (JSONStore.load w))) /\
  snd (JSONStore.load (snd (JSONStore.__init__ w))) = snd (JSONStore.__init__ w).
Proof.
  unfold JSONStore.load, JSONStore.__init__, boot.
  destruct w as [f n]. cbn [fs]. destruct f as [| |j]; cbn.
  - repeat split; try reflexivity. right. now split.
  - repeat split; try reflexivity. now left.
  - repeat split; try reflexivity. now left.
Qed.

(** X7.  What [save] accepts, [load] gives back: when [save data] returns,
    [data] is an object whose 'books' and 'sales' are sequences, the file
    holds exactly these two sequences (other keys are dropped), and [load]
    returns them without writing. *)
Theorem save_then_load (data : json) (w w' : world) :
  JSONStore.save data w = (Ok tt, w') ->
  exists kv bs ss,
    data = JDict kv /\
    Py.dict_get "books" kv = Some (JList bs) /\
    Py.dict_get "sales" kv = Some (JList ss) /\
    fs w' = Parsed (JDict [("books", JList bs); ("sales", JList ss)]) /\
    JSONStore.load w' = (Ok (mkDoc bs ss), w') /\
    stored_books (fs w') = bs /\ stored_sales (fs w') = ss.
Proof.
  unfold JSONStore.save, bind, lift. rewrite validate_save_rule.
  destruct data as [| | | | |kv]; cbn [save_rule]; try discriminate.
  unfold dict_get_none.
  destruct (Py.dict_get "books" kv) as [[| | | |bs|]|] eqn:Eb; cbn; try discriminate;
  destruct (Py.dict_get "sales" kv) as [[| | | |ss|]|] eqn:Es; cbn; try discriminate.
  intros [= <-]. exists kv, bs, ss.
  split; [reflexivity|]. split; [exact Eb|]. split; [exact Es|].
  repeat split; reflexivity.
Qed.

End StoreProps.

Module RepoProps.
Section WithPlatform.
Context {P : Platform}.
Import Inv Obs StoreFacts ListFacts CatalogFacts.

Lemma normalized_has_no_separator (s : string) :
  Py.all_chars (fun c => negb (Py.dash_or_space c))
               (Py.upper (Py.remove Py.dash_or_space s)) = true.
Proof.
  induction s as [|c r IH]; [reflexivity|]. cbn [Py.remove].
  destruct (Py.dash_or_space c) eqn:E; [exact IH|].
  unfold Py.upper in *. cbn [Py.map_str Py.all_chars].
  assert (Hu : Py.dash_or_space (Py.upper_char c) = Py.dash_or_space c)
    by exact (PyFacts.dash_or_space_upper c).
  rewrite Hu, E. exact IH.
Qed.

(** X8.  ISBN normalisation is idempotent and leaves no hyphen or space;
    the constructor of Book normalises as the repository does; and a
    lookup or an archiving by any spelling of an ISBN is the one by its
    normalised form. *)
Theorem isbn_normalisation (raw : string) (w : world) :
  BookRepository._normalize_isbn (BookRepository._normalize_isbn raw)
    = BookRepository._normalize_isbn raw /\
  Py.all_chars (fun c => negb (Py.dash_or_space c))
               (BookRepository._normalize_isbn raw) = true /\
  Book._normalize_isbn (JStr raw) = Ok (BookRepository._normalize_isbn raw) /\
  BookRepository.get_by_isbn (BookRepository._normalize_isbn raw) w
    = BookRepository.get_by_isbn raw w /\
  BookRepository.archive_by_isbn (BookRepository._normalize_isbn raw) w
    = BookRepository.archive_by_isbn raw w.
Proof.
  assert (Hi : BookRepository._normalize_isbn (BookRepository._normalize_isbn raw)
               = BookRepository._normalize_isbn raw)
    by exact (PyFacts.normalize_isbn_idem raw).
  split; [exact Hi|]. split; [apply normalized_has_no_separator|].
  split; [reflexivity|].
  unfold BookRepository.get_by_isbn, BookRepository.archive_by_isbn.
  now rewrite Hi.
Qed.

Lemma load_books_boot (w w1 : world) (r : result (list Book.t)) :
  BookRepository._load_books w = (r, w1) -> boot (fs w) (fs w1).
Proof.
  unfold BookRepository._load_books, bind. intros H.
  pose proof (StoreProps.load_boot w) as Hb.
  destruct (JSONStore.load w) as [[d|e] w0]; cbn [snd] in Hb.
  - pose proof (ReadFacts.untouched_decode_books (books d) w0) as Hu.
    rewrite H in Hu. cbn in Hu. unfold boot in *. now rewrite Hu.
  - now injection H as _ <-.
Qed.

(** X9.  Adding a Book whose ISBN a stored record already has is refused
    with DuplicateISBNError carrying that ISBN, and the file is as
    before. *)
Theorem add_refuses_taken_isbn
    (w w1 : world) (bs : list Book.t) (book b : Book.t) :
  BookRepository._load_books w = (Ok bs, w1) ->
  In b bs -> Book.isbn b = Book.isbn book ->
  BookRepository.add book w = (Raise (DuplicateISBNError (Book.isbn book)), w1)
  /\ fs w1 = fs w.
Proof.
  intros Hl Hin Hisbn. split.
  - unfold BookRepository.add. rewrite (bind_eq_ok _ _ _ _ _ Hl).
    assert (Hex : existsb (fun x => String.eqb (Book.isbn x) (Book.isbn book)) bs
                  = true).
    { apply existsb_exists. exists b. split; [exact Hin|]. now apply String.eqb_eq. }
    now rewrite Hex.
  - apply (ReadFacts.load_books_found _ _ _ Hl). intros ->. destruct Hin.
Qed.

Lemma existsb_isbn_false (bs : list Book.t) (isbn : string) :
  ~ In isbn (map Book.isbn bs) ->
  existsb (fun x => String.eqb (Book.isbn x) isbn) bs = false.
Proof.
  intros Hn. apply Bool.not_true_is_false. intros H.
  apply existsb_exists in H as (x & Hx & E). apply String.eqb_eq in E.
  apply Hn. rewrite <- E. now apply in_map.
Qed.

Lemma add_catalog (w : world) bs ss (book : Book.t) :
  catalog w bs ss -> valid_book book -> ~ In (Book.isbn book) (map Book.isbn bs) ->
  BookRepository.add book w
  = (Ok tt, mkWorld (Parsed (JSONStore.dump
                               (mkDoc (map Book.to_dict (bs ++ [book])) ss)))
                    (seed w))
  /\ catalog (mkWorld (Parsed (JSONStore.dump
                                 (mkDoc (map Book.to_dict (bs ++ [book])) ss)))
                      (seed w)) (bs ++ [book]) ss.
Proof.
  intros C V Hn. split.
  - unfold BookRepository.add.
    rewrite (bind_eq_ok _ _ _ _ _ (load_books_catalog _ _ _ C)).
    rewrite (existsb_isbn_false _ _ Hn). apply (save_books_catalog w bs ss _ C).
  - constructor.
    + reflexivity.
    + apply Forall_app. split; [exact (cat_valid _ _ _ C) | now constructor].
    + rewrite map_app. cbn. apply NoDup_app_remove_l with (l := []). cbn.
      apply Permutation_NoDup with (l := Book.isbn book :: map Book.isbn bs).
      * apply Permutation_cons_append.
      * constructor; [exact Hn | exact (cat_isbns _ _ _ C)].
Qed.

(** X10.  In a catalogue of valid books with distinct ISBNs, adding a
    valid Book with a new ISBN appends its record: the books are the old
    ones followed by the new one, the ISBNs are still distinct, the sales
    are untouched, and the Book is found by its ISBN. *)
Theorem add_then_lookup (w : world) bs ss (book : Book.t) :
  catalog w bs ss -> valid_book book -> ~ In (Book.isbn book) (map Book.isbn bs) ->
  exists w',
    BookRepository.add book w = (Ok tt, w') /\
    catalog w' (bs ++ [book]) ss /\
    BookRepository.list_all true w' = (Ok (bs ++ [book])%list, w') /\
    BookRepository.get_by_isbn (Book.isbn book) w' = (Ok book, w') /\
    stored_sales (fs w') = ss.
Proof.
  intros C V Hn. destruct (add_catalog w bs ss book C V Hn) as [Ha C'].
  eexists. split; [exact Ha|]. split; [exact C'|]. split.
  { unfold BookRepository.list_all.
    now rewrite (bind_eq_ok _ _ _ _ _ (load_books_catalog _ _ _ C')). }
  split; [|reflexivity].
  apply (get_by_isbn_catalog _ _ _ book _ C').
  - apply in_or_app. right. now left.
  - symmetry. exact (isbn_normal book V).
Qed.

End WithPlatform.
End RepoProps.

Module RepoMore.
Section WithPlatform.
Context {P : Platform}.
Import Inv Obs StoreFacts ListFacts CatalogFacts.

Lemma find_id_absent (bs : list Book.t) (s : string) :
  Forall usable_id bs -> ~ In (JStr s) (map Book.id bs) ->
  forall x, In x bs -> Py.eq (Book.id x) (JStr s) = false.
Proof.
  intros Hu Hn x Hx. apply Bool.not_true_is_false. intros E.
  destruct (proj1 (Forall_forall _ _) Hu x Hx) as (t & Ht & _).
  rewrite Ht in E. cbn in E. apply String.eqb_eq in E. subst t.
  apply Hn. rewrite <- Ht. now apply in_map.
Qed.

(** X11.  In a well-formed ledger, removing a stored Book by its id deletes
    that record and no other: the books left are the ones before and after
    it, still a well-formed ledger with the same sales, and neither the id
    nor the ISBN finds a book any more. *)
Theorem remove_deletes_the_record (w : world) bs ss (b : Book.t) (id_ : string) :
  ledger w bs ss -> In b bs -> Book.id b = JStr id_ ->
  exists w' pre post,
    bs = (pre ++ b :: post)%list /\
    BookRepository.remove id_ w = (Ok tt, w') /\
    ledger w' (pre ++ post) ss /\
    BookRepository.get_by_id id_ w'
      = (Raise (BookNotFoundError (Some (JStr id_)) None), w') /\
    BookRepository.get_by_isbn (Book.isbn b) w'
      = (Raise (BookNotFoundError None (Some (Book.isbn b))), w').
Proof.
  intros L Hin Hid.
  pose proof (proj1 (Forall_forall _ _) (books_valid _ _ _ L) b Hin) as V.
  destruct (find_index_key Book.id (fun x => Py.eq (Book.id x) (JStr id_)) bs b Hin)
    as (idx & Hfi & Hn).
  { intros x Hx. rewrite <- Hid. apply LedgerFacts.eq_usable_ids.
    - exact (proj1 (Forall_forall _ _) (ids_usable _ _ _ L) x Hx).
    - exact (proj1 (Forall_forall _ _) (ids_usable _ _ _ L) b Hin). }
  { exact (ids_unique _ _ _ L). }
  destruct (list_del_split bs idx b Hn) as (pre & post & Hbs & Hdel & _).
  set (w' := mkWorld (Parsed (JSONStore.dump
                        (mkDoc (map Book.to_dict (pre ++ post)) ss))) (seed w)).
  assert (Hrem : BookRepository.remove id_ w = (Ok tt, w')).
  { unfold BookRepository.remove.
    rewrite (bind_eq_ok _ _ _ _ _ (LedgerFacts.load_books_ledger _ _ _ L)).
    unfold BookRepository._find_index_by_id. rewrite Hfi, Hdel.
    apply (LedgerFacts.save_books_at w _ _ (on_disk _ _ _ L)). }
  assert (L' : ledger w' (pre ++ post) ss).
  { destruct L as [Hd Hv Hu Hi Hs]. rewrite Hbs in Hv, Hu, Hi, Hs.
    rewrite map_app in Hi, Hs. cbn in Hi, Hs.
    apply Forall_app in Hv as [Hv1 Hv2]. apply Forall_app in Hu as [Hu1 Hu2].
    constructor.
    - reflexivity.
    - apply Forall_app. split; [exact Hv1 | now inversion Hv2].
    - apply Forall_app. split; [exact Hu1 | now inversion Hu2].
    - rewrite map_app. exact (NoDup_remove_1 _ _ _ Hi).
    - rewrite map_app. exact (NoDup_remove_1 _ _ _ Hs). }
  exists w', pre, post. split; [exact Hbs|]. split; [exact Hrem|].
  split; [exact L'|]. split.
  - unfold BookRepository.get_by_id.
    rewrite (bind_eq_ok _ _ _ _ _ (LedgerFacts.load_books_ledger _ _ _ L')).
    assert (F : find (fun x => Py.eq (Book.id x) (JStr id_)) (pre ++ post) = None).
    { apply find_none_forall. apply find_id_absent; [exact (ids_usable _ _ _ L')|].
      pose proof (ids_unique _ _ _ L) as Hi. rewrite Hbs, map_app in Hi. cbn in Hi.
      rewrite map_app, <- Hid. exact (NoDup_remove_2 _ _ _ Hi). }
    now rewrite F.
  - unfold BookRepository.get_by_isbn.
    rewrite (bind_eq_ok _ _ _ _ _ (LedgerFacts.load_books_ledger _ _ _ L')).
    assert (N : BookRepository._normalize_isbn (Book.isbn b) = Book.isbn b)
      by exact (isbn_normal b V).
    rewrite N.
    assert (F : find (fun x => String.eqb (Book.isbn x) (Book.isbn b)) (pre ++ post)
                = None).
    { apply find_none_forall. intros x Hx. apply Bool.not_true_is_false. intros E.
      apply String.eqb_eq in E.
      pose proof (isbns_unique _ _ _ L) as Hs. rewrite Hbs, map_app in Hs. cbn in Hs.
      apply (NoDup_remove_2 _ _ _ Hs). rewrite <- map_app, <- E. now apply in_map. }
    now rewrite F.
Qed.

(** X12.  A key that no stored book has is answered with
    BookNotFoundError carrying the key that was used: the normalised ISBN
    for [get_by_isbn] and [archive_by_isbn], the id for [get_by_id],
    [remove] and [update]; nothing is written beyond the empty document
    for a missing file. *)
Theorem absent_keys_are_not_found (w w1 : world) (bs : list Book.t) :
  BookRepository._load_books w = (Ok bs, w1) ->
  boot (fs w) (fs w1) /\
  (forall isbn,
     (forall b, In b bs -> Book.isbn b <> BookRepository._normalize_isbn isbn) ->
     BookRepository.get_by_isbn isbn w
       = (Raise (BookNotFoundError None (Some (BookRepository._normalize_isbn isbn))),
          w1) /\
     BookRepository.archive_by_isbn isbn w
       = (Raise (BookNotFoundError None (Some (BookRepository._normalize_isbn isbn))),
          w1)) /\
  (forall id_,
     (forall b, In b bs -> Py.eq (Book.id b) (JStr id_) = false) ->
     BookRepository.get_by_id id_ w
       = (Raise (BookNotFoundError (Some (JStr id_)) None), w1) /\
     BookRepository.remove id_ w
       = (Raise (BookNotFoundError (Some (JStr id_)) None), w1)) /\
  (forall book,
     (forall b, In b bs -> Py.eq (Book.id b) (Book.id book) = false) ->
     BookRepository.update book w
       = (Raise (BookNotFoundError (Some (Book.id book)) None), w1)).
Proof.
  intros Hl. split; [exact (RepoProps.load_books_boot _ _ _ Hl)|].
  split; [|split].
  - intros isbn Hn.
    assert (Hf : forall x, In x bs ->
                   String.eqb (Book.isbn x) (BookRepository._normalize_isbn isbn)
                   = false).
    { intros x Hx. apply String.eqb_neq. now apply Hn. }
    split.
    + unfold BookRepository.get_by_isbn. rewrite (bind_eq_ok _ _ _ _ _ Hl).
      now rewrite (proj2 (find_none_forall _ _) Hf).
    + unfold BookRepository.archive_by_isbn, BookRepository._find_index_by_isbn.
      rewrite (bind_eq_ok _ _ _ _ _ Hl). now rewrite (find_index_none _ _ Hf).
  - intros id_ Hn. split.
    + unfold BookRepository.get_by_id. rewrite (bind_eq_ok _ _ _ _ _ Hl).
      now rewrite (proj2 (find_none_forall _ _) Hn).
    + unfold BookRepository.remove, BookRepository._find_index_by_id.
      rewrite (bind_eq_ok _ _ _ _ _ Hl). now rewrite (find_index_none _ _ Hn).
  - intros book Hn.
    unfold BookRepository.update, BookRepository._find_index_by_id.
    rewrite (bind_eq_ok _ _ _ _ _ Hl). now rewrite (find_index_none _ _ Hn).
Qed.

Lemma search_loop_first_match (q : string) (limit : Z) (books : list Book.t) :
  limit < 1 ->
  BookRepository.search_loop q limit books []
  = firstn 1 (filter (BookRepository.matches q) books).
Proof.
  intros Hl. induction books as [|b rest IH]; [reflexivity|].
  cbn [BookRepository.search_loop filter].
  destruct (BookRepository.matches q b); [|exact IH].
  cbn [app List.length].
  destruct (Z.leb_spec limit (Z.of_nat 1)); [reflexivity | lia].
Qed.

Lemma search_first_matches
    (query : string) (include_archived : bool) (limit : Z)
    (w w1 : world) (bs : list Book.t) :
  BookRepository.list_all include_archived w = (Ok bs, w1) ->
  Py.strip query <> "" ->
  exists result,
    BookRepository.search query include_archived limit w = (Ok result, w1) /\
    Permutation result
      (firstn (Nat.max 1 (Z.to_nat limit))
              (filter (BookRepository.matches (Py.lower (Py.strip query))) bs)) /\
    (forall b, In b result ->
       In b bs /\ BookRepository.matches (Py.lower (Py.strip query)) b = true) /\
    (List.length result <= Nat.max 1 (Z.to_nat limit))%nat /\
    (result = [] <->
     forall b, In b bs ->
       BookRepository.matches (Py.lower (Py.strip query)) b = false).
Proof.
  intros Hall Hq.
  set (q := Py.lower (Py.strip query)).
  set (hits := filter (BookRepository.matches q) bs).
  set (n := Nat.max 1 (Z.to_nat limit)).
  assert (Hloop : BookRepository.search_loop q limit bs [] = firstn n hits).
  { destruct (Z.lt_ge_cases limit 1) as [Hl|Hl].
    - rewrite (search_loop_first_match q limit bs Hl). unfold n.
      now replace (Nat.max 1 (Z.to_nat limit)) with 1%nat by lia.
    - rewrite SortFacts.search_loop_spec by (cbn; lia). cbn [app List.length].
      rewrite Nat.sub_0_r. unfold n.
      now replace (Nat.max 1 (Z.to_nat limit)) with (Z.to_nat limit) by lia. }
  pose proof (SortFacts.sort_by_perm BookRepository.sort_key BookRepository.key_ltb
                (firstn n hits)) as Hp.
  exists (sort_by BookRepository.sort_key BookRepository.key_ltb (firstn n hits)).
  split.
  { unfold BookRepository.search. fold q.
    destruct (String.eqb_spec q "") as [E|_].
    { exfalso. apply Hq. unfold q in E.
      destruct (Py.strip query); [reflexivity | discriminate E]. }
    now rewrite (bind_eq_ok _ _ _ _ _ Hall), Hloop. }
  split; [exact Hp|]. split.
  { intros b Hb. apply (Permutation_in _ Hp) in Hb.
    assert (Hh : In b hits).
    { rewrite <- (firstn_skipn n hits). apply in_or_app. now left. }
    now apply filter_In in Hh. }
  split.
  { rewrite (Permutation_length Hp), length_firstn. lia. }
  split.
  - intros E b Hb. rewrite E in Hp. apply Permutation_nil in Hp.
    destruct (BookRepository.matches q b) eqn:M; [|reflexivity].
    assert (Hh : In b hits) by (apply filter_In; now split).
    destruct hits as [|h t]; [destruct Hh|].
    unfold n in Hp. destruct (Nat.max 1 (Z.to_nat limit)) eqn:En; [lia|].
    discriminate Hp.
  - intros Hno.
    assert (Hh : hits = []).
    { unfold hits. destruct (filter (BookRepository.matches q) bs) as [|h t] eqn:F;
        [reflexivity|].
      assert (Hin : In h (filter (BookRepository.matches q) bs))
        by (rewrite F; now left).
      apply filter_In in Hin as [Hin M]. rewrite (Hno h Hin) in M. discriminate. }
    rewrite Hh, firstn_nil. reflexivity.
Qed.

(** X13.  For every limit, a search with a query that is not blank returns
    the first [max(1, limit)] hits of the listing in document order, put
    in ascending order of (title, author) in lower case.  A hit is a book
    in whose lower-cased title, author or ISBN the trimmed lower-cased
    query occurs.  Each book returned is a hit of the listing, and nothing
    is returned only when the listing has no hit. *)
Theorem search_returns_first_matches
    (query : string) (include_archived : bool) (limit : Z)
    (w w1 : world) (bs : list Book.t) :
  BookRepository.list_all include_archived w = (Ok bs, w1) ->
  Py.strip query <> "" ->
  exists hits result,
    hits = filter (BookRepository.matches (Py.lower (Py.strip query))) bs /\
    (forall b, In b hits <-> In b bs /\ hit query b) /\
    BookRepository.search query include_archived limit w = (Ok result, w1) /\
    Permutation result (firstn (Nat.max 1 (Z.to_nat limit)) hits) /\
    Sorted in_title_author_order result /\
    (forall b, In b result -> In b bs /\ hit query b) /\
    (List.length result <= Nat.max 1 (Z.to_nat limit))%nat /\
    (result = [] <-> forall b, In b bs -> ~ hit query b).
Proof.
  intros Hall Hq.
  destruct (search_first_matches query include_archived limit w w1 bs Hall Hq)
    as (result & Hs & Hp & Hin & Hlen & Hnil).
  pose proof (Listings.search_run query include_archived limit w w1 bs Hall Hq) as Hr.
  rewrite Hs in Hr. injection Hr as ->.
  eexists. eexists. split; [reflexivity|]. split.
  { intros b. rewrite filter_In. now rewrite SortFacts.matches_hit. }
  split; [exact Hs|]. split; [exact Hp|].
  split; [apply SortFacts.sorted_by_title_author|]. split.
  { intros b Hb. destruct (Hin b Hb) as [H1 H2]. split; [exact H1|].
    now apply SortFacts.matches_hit. }
  split; [exact Hlen|]. rewrite Hnil. split; intros H b Hb.
  - rewrite <- SortFacts.matches_hit. now rewrite (H b Hb).
  - apply Bool.not_true_is_false. rewrite SortFacts.matches_hit. now apply H.
Qed.

End WithPlatform.
End RepoMore.

(* ================================================================== *)
(** ** The constructor of Book and the inventory commands *)

Module InventoryProps.
Section WithPlatform.
Context {P : Platform}.
Import Inv Obs StoreFacts ListFacts CatalogFacts.

(** The fields of the Book that the constructor returns. *)
Lemma init_fields
    (title author isbn currency : string) (price : amount) (quantity : Z)
    (book_id : json) (archived : bool) (created_at : option datetime)
    (w w' : world) (b : Book.t) :
  Book.__init__ (JStr title) (JStr author) (JStr isbn) price (JStr currency)
                quantity book_id archived created_at w = (Ok b, w') ->
  Book.title b = Py.strip title /\ Book.author b = Py.strip author /\
  Book.isbn b = BookRepository._normalize_isbn isbn /\
  Book.currency b = Py.upper (Py.strip currency) /\
  Book._to_cents price = Ok (Book.price_cents b) /\
  Book.quantity b = quantity /\ Book.archived b = archived /\
  Book.id b = (if Py.truthy book_id then book_id else JStr (uuid4_at (seed w))) /\
  (forall d, created_at = Some d -> Book.created_at b = d).
Proof.
  unfold Book.__init__. intros H.
  apply bind_ok in H as (id_ & w1 & Eid & H).
  apply bind_ok in H as (ca & w2 & Eca & H).
  apply bind_ok in H as (t & w3 & Et & H). apply lift_ok in Et as [Et ->].
  apply bind_ok in H as (a & w4 & Ea & H). apply lift_ok in Ea as [Ea ->].
  apply bind_ok in H as (i & w5 & Ei & H). apply lift_ok in Ei as [Ei ->].
  apply bind_ok in H as (u & w6 & Em & H).
  apply bind_ok in H as (c & w7 & Ec & H). apply lift_ok in Ec as [Ec ->].
  apply bind_ok in H as (p & w8 & Ep & H). apply lift_ok in Ep as [Ep ->].
  apply bind_ok in H as (q & w9 & Eq & H). apply lift_ok in Eq as [Eq ->].
  apply ret_ok in H as [-> ->].
  cbn [Book.title Book.author Book.isbn Book.currency Book.price_cents
       Book._price_cents Book.quantity Book.archived Book.id Book.created_at].
  unfold Book._validate_non_empty in Et, Ea.
  destruct (String.eqb (Py.strip title) ""); [discriminate|]. injection Et as <-.
  destruct (String.eqb (Py.strip author) ""); [discriminate|]. injection Ea as <-.
  cbn in Ei. injection Ei as <-.
  unfold Book._validate_currency in Ec.
  destruct (String.eqb (Py.strip currency) ""); [discriminate|]. injection Ec as <-.
  unfold Book._validate_non_negative_int in Eq.
  destruct (quantity <? 0); [discriminate|]. injection Eq as <-.
  assert (Hw6 : w6 = w2).
  { destruct (ISBN_RE.match_ _); [now apply ret_ok in Em | discriminate]. }
  subst w6.
  assert (Hid : id_ = (if Py.truthy book_id then book_id
                       else JStr (uuid4_at (seed w))) /\ fs w1 = fs w).
  { destruct (Py.truthy book_id).
    - apply ret_ok in Eid as [-> ->]. now split.
    - apply bind_ok in Eid as (s & w0 & Eu & Eid). apply ret_ok in Eid as [-> ->].
      unfold uuid4 in Eu. injection Eu as <- <-. now split. }
  destruct Hid as [-> Hfs1].
  assert (Hca : (forall d, created_at = Some d -> ca = d) /\ fs w2 = fs w1).
  { destruct created_at as [d|].
    - apply ret_ok in Eca as [-> ->]. split; [now intros d' [= ->] | reflexivity].
    - unfold now in Eca. injection Eca as _ <-. split; [discriminate | reflexivity]. }
  destruct Hca as [Hca Hfs2].
  repeat split; try reflexivity; assumption.
Qed.

(** X14.  What the constructor returns holds the trimmed title and author,
    the normalised ISBN, the trimmed upper-case currency, the cents of the
    price, and the quantity and archived flag as given; the id is the one
    given when it is truthy and a fresh uuid otherwise, the creation time
    the one given or the current time; it meets the class invariants and
    the file is not touched. *)
Theorem constructor_normalises
    (title author isbn currency : string) (price : amount) (quantity : Z)
    (book_id : json) (archived : bool) (created_at : option datetime)
    (w w' : world) (b : Book.t) :
  Book.__init__ (JStr title) (JStr author) (JStr isbn) price (JStr currency)
                quantity book_id archived created_at w = (Ok b, w') ->
  valid_book b /\
  Book.title b = Py.strip title /\ Book.author b = Py.strip author /\
  Book.isbn b = BookRepository._normalize_isbn isbn /\
  Book.currency b = Py.upper (Py.strip currency) /\
  Book._to_cents price = Ok (Book.price_cents b) /\
  Book.quantity b = quantity /\ Book.archived b = archived /\
  Book.id b = (if Py.truthy book_id then book_id else JStr (uuid4_at (seed w))) /\
  (forall d, created_at = Some d -> Book.created_at b = d) /\
  fs w' = fs w.
Proof.
  intros H. split; [exact (BookTrip.init_valid _ _ _ _ _ _ _ _ _ _ _ _ H)|].
  destruct (init_fields _ _ _ _ _ _ _ _ _ _ _ _ H)
    as (Ht & Ha & Hi & Hc & Hp & Hq & Hr & Hid & Hca).
  pose proof (ReadFacts.untouched_init (JStr title) (JStr author) (JStr isbn) price
                (JStr currency) quantity book_id archived created_at w) as Hu.
  rewrite H in Hu. cbn [snd] in Hu.
  split; [exact Ht|]. split; [exact Ha|]. split; [exact Hi|]. split; [exact Hc|].
  split; [exact Hp|]. split; [exact Hq|]. split; [exact Hr|]. split; [exact Hid|].
  split; [exact Hca | exact Hu].
Qed.

(** The stored record of [b] replaced by [b'], same id and ISBN, and read
    back. *)
Lemma persist (w : world) bs ss (b b' : Book.t) :
  ledger w bs ss -> In b bs -> valid_book b' ->
  Book.id b' = Book.id b -> Book.isbn b' = Book.isbn b ->
  exists idx w',
    nth_error bs idx = Some b /\
    BookRepository.update b' w = (Ok tt, w') /\
    ledger w' (list_set bs idx b') ss /\
    (forall isbn, Book.isbn b = BookRepository._normalize_isbn isbn ->
       BookRepository.get_by_isbn isbn w' = (Ok b', w')) /\
    stored_sales (fs w') = ss.
Proof.
  intros L Hin V Hid Hisbn.
  destruct (LedgerFacts.update_ledger w bs ss b b' L Hin Hid Hisbn)
    as (idx & Hn & Hupd).
  eexists idx, _. split; [exact Hn|]. split; [exact Hupd|].
  assert (L' : ledger (mkWorld (Parsed (JSONStore.dump
                                  (mkDoc (map Book.to_dict (list_set bs idx b')) ss)))
                               (seed w)) (list_set bs idx b') ss).
  { apply (SellFacts.ledger_after_update w _ bs ss ss b b' idx L Hn V Hid Hisbn).
    reflexivity. }
  split; [exact L'|]. split; [|reflexivity].
  intros isbn Hi. apply (LedgerFacts.get_by_isbn_ledger _ _ _ b' isbn L').
  - exact (in_list_set bs idx b b' Hn).
  - now rewrite Hisbn.
Qed.

End WithPlatform.
End InventoryProps.

Module InventoryCommands.
Section WithPlatform.
Context {P : Platform}.
Import Inv Obs StoreFacts ListFacts CatalogFacts InventoryProps.

(** X15.  Adding a book whose ISBN is stored restocks it: the quantity
    grows by the amount given, the price is overwritten only when the flag
    is set, the title and author on file are kept whatever was passed, the
    number of records does not change, and the record read back is the
    Book returned. *)
Theorem add_book_restocks
    (w : world) bs ss (b b' : Book.t) (title author isbn currency : string)
    (price : amount) (quantity : Z) (update_price_if_changed : bool) :
  ledger w bs ss -> In b bs ->
  Book.isbn b = BookRepository._normalize_isbn isbn -> 0 < quantity ->
  (if update_price_if_changed
   then Book.set_price price (Book.set_quantity (Book.quantity b + quantity) b)
   else Ok (Book.set_quantity (Book.quantity b + quantity) b)) = Ok b' ->
  exists idx w',
    InventoryService.add_book title author isbn price currency quantity
                              update_price_if_changed w = (Ok b', w') /\
    nth_error bs idx = Some b /\
    ledger w' (list_set bs idx b') ss /\
    BookRepository.get_by_isbn isbn w' = (Ok b', w') /\
    Book.quantity b' = Book.quantity b + quantity /\
    Book.title b' = Book.title b /\ Book.author b' = Book.author b /\
    (update_price_if_changed = false -> Book.price_cents b' = Book.price_cents b) /\
    List.length (list_set bs idx b') = List.length bs.
Proof.
  intros L Hin Hisbn Hq Hb'.
  pose proof (proj1 (Forall_forall _ _) (books_valid _ _ _ L) b Hin) as V.
  set (b1 := Book.set_quantity (Book.quantity b + quantity) b) in *.
  assert (V1 : valid_book b1).
  { apply LedgerFacts.valid_set_quantity; [exact V|].
    pose proof (quantity_range b V). lia. }
  assert (Hfacts : valid_book b' /\ Book.id b' = Book.id b /\ Book.isbn b' = Book.isbn b
                   /\ Book.quantity b' = Book.quantity b + quantity
                   /\ Book.title b' = Book.title b /\ Book.author b' = Book.author b
                   /\ (update_price_if_changed = false ->
                       Book.price_cents b' = Book.price_cents b)).
  { destruct update_price_if_changed.
    - apply ModelProps.set_price_inv in Hb' as (c & Hc & ->).
      split; [apply ModelProps.valid_set_price;
              [exact V1 | exact (BookFacts.to_cents_range _ _ Hc)]|].
      split; [reflexivity|]. split; [reflexivity|]. split; [reflexivity|].
      split; [reflexivity|]. split; [reflexivity | discriminate].
    - injection Hb' as <-. split; [exact V1|].
      split; [reflexivity|]. split; [reflexivity|]. split; [reflexivity|].
      split; [reflexivity|]. split; reflexivity. }
  destruct Hfacts as (V' & Hid & Hi & Hqty & Ht & Ha & Hp).
  destruct (persist w bs ss b b' L Hin V' Hid Hi) as (idx & w' & Hn & Hupd & L' & Hg & _).
  exists idx, w'. split.
  { unfold InventoryService.add_book. destruct (Z.leb_spec quantity 0); [lia|].
    unfold try_except_then.
    rewrite (LedgerFacts.get_by_isbn_ledger _ _ _ _ _ L Hin Hisbn).
    assert (Hinc : Book.increase_stock quantity b = Ok b1).
    { unfold Book.increase_stock, Book._validate_positive_int.
      destruct (Z.leb_spec quantity 0); [lia | reflexivity]. }
    rewrite Hinc. unfold bind at 1, lift at 1.
    destruct update_price_if_changed.
    - rewrite Hb'. unfold bind at 1, lift.
      now rewrite (bind_eq_ok _ _ _ _ _ Hupd).
    - injection Hb' as <-. unfold bind at 1, ret at 1.
      now rewrite (bind_eq_ok _ _ _ _ _ Hupd). }
  split; [exact Hn|]. split; [exact L'|]. split; [exact (Hg isbn Hisbn)|].
  split; [exact Hqty|]. split; [exact Ht|]. split; [exact Ha|]. split; [exact Hp|].
  clear -Hn. revert idx Hn. induction bs as [|y r IH]; intros [|i] H; cbn in *;
    try discriminate; [reflexivity|]. now rewrite (IH i H).
Qed.

(** X16.  Adding a book whose ISBN is not stored creates it: when the
    constructor accepts the fields, the Book it makes is appended to the
    catalogue with the normalised ISBN, the quantity given and not
    archived, the sales are untouched, and the Book is found by the ISBN
    in any spelling. *)
Theorem add_book_creates
    (w w1 : world) bs ss (book : Book.t) (title author isbn currency : string)
    (price : amount) (quantity : Z) (update_price_if_changed : bool) :
  catalog w bs ss ->
  ~ In (BookRepository._normalize_isbn isbn) (map Book.isbn bs) ->
  0 < quantity ->
  Book.__init__ (JStr title) (JStr author) (JStr isbn) price (JStr currency)
                quantity JNull false None w = (Ok book, w1) ->
  exists w',
    InventoryService.add_book title author isbn price currency quantity
                              update_price_if_changed w = (Ok book, w') /\
    catalog w' (bs ++ [book]) ss /\
    BookRepository.get_by_isbn isbn w' = (Ok book, w') /\
    Book.isbn book = BookRepository._normalize_isbn isbn /\
    Book.quantity book = quantity /\ Book.archived book = false /\
    stored_sales (fs w') = ss.
Proof.
  intros C Hn Hq Hinit.
  pose proof (BookTrip.init_valid _ _ _ _ _ _ _ _ _ _ _ _ Hinit) as V.
  destruct (init_fields _ _ _ _ _ _ _ _ _ _ _ _ Hinit)
    as (_ & _ & Hi & _ & _ & Hqty & Harch & _ & _).
  pose proof (ReadFacts.untouched_init (JStr title) (JStr author) (JStr isbn) price
                (JStr currency) quantity JNull false None w) as Hfs.
  rewrite Hinit in Hfs. cbn [snd] in Hfs.
  assert (C1 : catalog w1 bs ss) by (apply (catalog_same_file w); assumption).
  rewrite <- Hi in Hn.
  destruct (RepoProps.add_catalog w1 bs ss book C1 V Hn) as [Hadd C'].
  eexists. split.
  { unfold InventoryService.add_book. destruct (Z.leb_spec quantity 0); [lia|].
    unfold try_except_then.
    assert (Hget : BookRepository.get_by_isbn isbn w
                   = (Raise (BookNotFoundError None
                               (Some (BookRepository._normalize_isbn isbn))), w)).
    { unfold BookRepository.get_by_isbn.
      rewrite (bind_eq_ok _ _ _ _ _ (load_books_catalog _ _ _ C)).
      assert (F : find (fun x => String.eqb (Book.isbn x)
                                   (BookRepository._normalize_isbn isbn)) bs = None).
      { apply find_none_forall. intros x Hx. apply String.eqb_neq. intros E.
        apply Hn. rewrite Hi, <- E. now apply in_map. }
      now rewrite F. }
    rewrite Hget. cbn [is_BookNotFoundError].
    rewrite (bind_eq_ok _ _ _ _ _ Hinit).
    now rewrite (bind_eq_ok _ _ _ _ _ Hadd). }
  split; [exact C'|]. split.
  { apply (get_by_isbn_catalog _ _ _ book isbn C'); [|exact Hi].
    apply in_or_app. right. now left. }
  split; [exact Hi|]. split; [exact Hqty|]. split; [exact Harch | reflexivity].
Qed.

(** A command that ends in [update b'; return b'], over a stored book
    with the id and ISBN of [b']. *)
Lemma command_persists (w : world) bs ss (b b' : Book.t) (isbn : string)
    (m : M Book.t) :
  ledger w bs ss -> In b bs ->
  Book.isbn b = BookRepository._normalize_isbn isbn ->
  valid_book b' -> Book.id b' = Book.id b -> Book.isbn b' = Book.isbn b ->
  (forall w', BookRepository.update b' w = (Ok tt, w') -> m w = (Ok b', w')) ->
  exists idx w',
    m w = (Ok b', w') /\
    nth_error bs idx = Some b /\
    ledger w' (list_set bs idx b') ss /\
    BookRepository.get_by_isbn isbn w' = (Ok b', w') /\
    stored_sales (fs w') = ss.
Proof.
  intros L Hin Hisbn V Hid Hi Hm.
  destruct (persist w bs ss b b' L Hin V Hid Hi) as (idx & w' & Hn & Hupd & L' & Hg & Hs).
  exists idx, w'. split; [exact (Hm w' Hupd)|]. split; [exact Hn|].
  split; [exact L'|]. split; [exact (Hg isbn Hisbn) | exact Hs].
Qed.

(** X17.  In a well-formed ledger each stock and price command that is
    given an acceptable value succeeds and persists exactly that change:
    the Book it returns is stored in place of the old record and read back
    by a lookup, its quantity is the number given ([set_quantity]), the
    old one plus [n] ([increase_stock]) or minus [n] ([decrease_stock]),
    its price the cents [_to_cents] gives ([set_price]), and every other
    field is as before; the ledger stays well formed and the sales are
    untouched.  Acceptable: a quantity that is not negative, an increase
    that is positive, a decrease that is positive and within the stock, a
    price that [_to_cents] accepts. *)
Theorem inventory_commands_persist
    (w : world) bs ss (b : Book.t) (isbn : string) :
  ledger w bs ss -> In b bs ->
  Book.isbn b = BookRepository._normalize_isbn isbn ->
  (forall q, 0 <= q ->
     exists b' idx w',
       InventoryService.set_quantity isbn q w = (Ok b', w') /\
       nth_error bs idx = Some b /\
       ledger w' (list_set bs idx b') ss /\
       BookRepository.get_by_isbn isbn w' = (Ok b', w') /\
       stored_sales (fs w') = ss /\
       Book.quantity b' = q /\ same_but_quantity b b') /\
  (forall n, 0 < n ->
     exists b' idx w',
       InventoryService.increase_stock isbn n w = (Ok b', w') /\
       nth_error bs idx = Some b /\
       ledger w' (list_set bs idx b') ss /\
       BookRepository.get_by_isbn isbn w' = (Ok b', w') /\
       stored_sales (fs w') = ss /\
       Book.quantity b' = Book.quantity b + n /\ same_but_quantity b b') /\
  (forall n, 0 < n <= Book.quantity b ->
     exists b' idx w',
       InventoryService.decrease_stock isbn n w = (Ok b', w') /\
       nth_error bs idx = Some b /\
       ledger w' (list_set bs idx b') ss /\
       BookRepository.get_by_isbn isbn w' = (Ok b', w') /\
       stored_sales (fs w') = ss /\
       Book.quantity b' = Book.quantity b - n /\ same_but_quantity b b') /\
  (forall a c, Book._to_cents a = Ok c ->
     exists b' idx w',
       InventoryService.set_price isbn a w = (Ok b', w') /\
       nth_error bs idx = Some b /\
       ledger w' (list_set bs idx b') ss /\
       BookRepository.get_by_isbn isbn w' = (Ok b', w') /\
       stored_sales (fs w') = ss /\
       Book.price_cents b' = c /\ same_but_price b b').
Proof.
  intros L Hin Hisbn.
  pose proof (proj1 (Forall_forall _ _) (books_valid _ _ _ L) b Hin) as V.
  pose proof (quantity_range b V) as Hq0.
  pose proof (LedgerFacts.get_by_isbn_ledger _ _ _ _ _ L Hin Hisbn) as Hget.
  assert (Hsame : forall q, same_but_quantity b (Book.set_quantity q b))
    by (intros q; unfold same_but_quantity; now repeat split).
  split; [|split; [|split]].
  - intros q Hq.
    destruct (command_persists w bs ss b (Book.set_quantity q b) isbn
                (InventoryService.set_quantity isbn q) L Hin Hisbn)
      as (idx & w' & Hm & Hn & L' & Hg & Hs); try reflexivity.
    { now apply LedgerFacts.valid_set_quantity. }
    { intros w' Hupd. unfold InventoryService.set_quantity.
      destruct (Z.ltb_spec q 0); [lia|].
      rewrite (bind_eq_ok _ _ _ _ _ Hget). now rewrite (bind_eq_ok _ _ _ _ _ Hupd). }
    exists (Book.set_quantity q b), idx, w'.
    split; [exact Hm|]. split; [exact Hn|]. split; [exact L'|]. split; [exact Hg|].
    split; [exact Hs|]. split; [reflexivity | apply Hsame].
  - intros n Hn0.
    destruct (command_persists w bs ss b (Book.set_quantity (Book.quantity b + n) b)
                isbn (InventoryService.increase_stock isbn n) L Hin Hisbn)
      as (idx & w' & Hm & Hn & L' & Hg & Hs); try reflexivity.
    { apply LedgerFacts.valid_set_quantity; [exact V | lia]. }
    { intros w' Hupd. unfold InventoryService.increase_stock.
      rewrite (bind_eq_ok _ _ _ _ _ Hget).
      unfold Book.increase_stock, Book._validate_positive_int.
      destruct (Z.leb_spec n 0); [lia|]. cbn [rbind]. unfold bind at 1, lift.
      now rewrite (bind_eq_ok _ _ _ _ _ Hupd). }
    exists (Book.set_quantity (Book.quantity b + n) b), idx, w'.
    split; [exact Hm|]. split; [exact Hn|]. split; [exact L'|]. split; [exact Hg|].
    split; [exact Hs|]. split; [reflexivity | apply Hsame].
  - intros n Hn0.
    destruct (command_persists w bs ss b (Book.set_quantity (Book.quantity b - n) b)
                isbn (InventoryService.decrease_stock isbn n) L Hin Hisbn)
      as (idx & w' & Hm & Hn & L' & Hg & Hs); try reflexivity.
    { apply LedgerFacts.valid_set_quantity; [exact V | lia]. }
    { intros w' Hupd. unfold InventoryService.decrease_stock.
      rewrite (bind_eq_ok _ _ _ _ _ Hget).
      rewrite (SellTheorems.decrease_stock_ok b n) by lia. unfold bind at 1, lift.
      now rewrite (bind_eq_ok _ _ _ _ _ Hupd). }
    exists (Book.set_quantity (Book.quantity b - n) b), idx, w'.
    split; [exact Hm|]. split; [exact Hn|]. split; [exact L'|]. split; [exact Hg|].
    split; [exact Hs|]. split; [reflexivity | apply Hsame].
  - intros a c Hc.
    set (b' := Book.mk (Book.id b) (Book.created_at b) (Book.title b) (Book.author b)
                       (Book.isbn b) (Book.currency b) c (Book.quantity b)
                       (Book.archived b)).
    assert (Ha : Book.set_price a b = Ok b')
      by (unfold Book.set_price; now rewrite Hc).
    destruct (command_persists w bs ss b b' isbn (InventoryService.set_price isbn a)
                L Hin Hisbn)
      as (idx & w' & Hm & Hn & L' & Hg & Hs); try reflexivity.
    { apply ModelProps.valid_set_price;
        [exact V | exact (BookFacts.to_cents_range _ _ Hc)]. }
    { intros w' Hupd. unfold InventoryService.set_price.
      rewrite (bind_eq_ok _ _ _ _ _ Hget). rewrite Ha. unfold bind at 1, lift.
      now rewrite (bind_eq_ok _ _ _ _ _ Hupd). }
    exists b', idx, w'.
    split; [exact Hm|]. split; [exact Hn|]. split; [exact L'|]. split; [exact Hg|].
    split; [exact Hs|]. split; [reflexivity|].
    unfold same_but_price. now repeat split.
Qed.

End WithPlatform.
End InventoryCommands.

(* ================================================================== *)
(** ** What a failed command and what a query may write *)

Module Atomicity.
Section WithPlatform.
Context {P : Platform}.
Import Inv Obs StoreFacts.

#[local] Hint Resolve ReadFacts.untouched_ret ReadFacts.untouched_raise
  ReadFacts.untouched_lift ReadFacts.untouched_uuid4 ReadFacts.untouched_now
  : untouched_db.

Ltac pure_steps :=
  repeat first
    [ solve [auto with untouched_db]
    | apply ReadFacts.untouched_bind; [|intros]
    | match goal with
      | |- untouched (if ?c then _ else _) => destruct c
      | |- untouched (match ?x with _ => _ end) => destruct x
      end ].

Lemma boot_refl (f : file) : boot f f.
Proof. now left. Qed.

Lemma boot_trans (f g h : file) : boot f g -> boot g h -> boot f h.
Proof.
  unfold boot. intros [->|[-> ->]] [->|[E ->]]; auto; discriminate.
Qed.

Lemma reads_untouched {A} (m : M A) : untouched m -> reads_only m.
Proof. intros H w. left. apply H. Qed.

Lemma reads_bind {A B} (m : M A) (k : A -> M B) :
  reads_only m -> (forall a, reads_only (k a)) -> reads_only (bind m k).
Proof.
  intros Hm Hk w. unfold bind. specialize (Hm w).
  destruct (m w) as [[a|e] w1]; cbn [snd] in *; [|exact Hm].
  exact (boot_trans _ _ _ Hm (Hk a w1)).
Qed.

Lemma reads_atomic {A} (m : M A) : reads_only m -> all_or_nothing m.
Proof. intros H w e w' E. specialize (H w). now rewrite E in H. Qed.

Lemma atomic_bind {A B} (m : M A) (k : A -> M B) :
  reads_only m -> (forall a, all_or_nothing (k a)) -> all_or_nothing (bind m k).
Proof.
  intros Hm Hk w e w'. unfold bind. specialize (Hm w).
  destruct (m w) as [[a|e0] w1]; cbn [snd] in *.
  - intros E. exact (boot_trans _ _ _ Hm (Hk a w1 e w' E)).
  - now intros [= _ <-].
Qed.

(** A step that may write, followed by steps that cannot raise after it. *)
Lemma atomic_last {A B} (m : M A) (k : A -> M B) :
  all_or_nothing m ->
  (forall a w w', m w = (Ok a, w') -> exists b w'', k a w' = (Ok b, w'')) ->
  all_or_nothing (bind m k).
Proof.
  intros Hm Hk w e w'. unfold bind. destruct (m w) as [[a|e0] w1] eqn:E.
  - destruct (Hk a w w1 E) as (b & w'' & ->). discriminate.
  - intros [= _ <-]. exact (Hm w e0 w1 E).
Qed.

Lemma reads_load : reads_only JSONStore.load.
Proof. intros w. apply StoreProps.load_boot. Qed.

Lemma reads_load_books : reads_only BookRepository._load_books.
Proof.
  intros w. destruct (BookRepository._load_books w) as [r w1] eqn:E.
  exact (RepoProps.load_books_boot w w1 r E).
Qed.

Lemma reads_get_by_isbn isbn : reads_only (BookRepository.get_by_isbn isbn).
Proof.
  unfold BookRepository.get_by_isbn. apply reads_bind; [exact reads_load_books|].
  intros bs. destruct (find _ bs); apply reads_untouched; auto with untouched_db.
Qed.

Lemma reads_get_by_id book_id : reads_only (BookRepository.get_by_id book_id).
Proof.
  unfold BookRepository.get_by_id. apply reads_bind; [exact reads_load_books|].
  intros bs. destruct (find _ bs); apply reads_untouched; auto with untouched_db.
Qed.

Lemma reads_list_all include_archived :
  reads_only (BookRepository.list_all include_archived).
Proof.
  unfold BookRepository.list_all. apply reads_bind; [exact reads_load_books|].
  intros bs. destruct include_archived; apply reads_untouched; auto with untouched_db.
Qed.

Lemma reads_search query include_archived limit :
  reads_only (BookRepository.search query include_archived limit).
Proof.
  unfold BookRepository.search. destruct (String.eqb _ "").
  - apply reads_untouched; auto with untouched_db.
  - apply reads_bind; [apply reads_list_all|].
    intros bs. apply reads_untouched; auto with untouched_db.
Qed.

Lemma reads_list_sales isbn limit : reads_only (SalesService.list_sales isbn limit).
Proof.
  unfold SalesService.list_sales. apply reads_bind; [exact reads_load|].
  intros d. apply reads_untouched. pure_steps.
Qed.

Lemma reads_sales_total isbn : reads_only (SalesService.sales_total isbn).
Proof.
  unfold SalesService.sales_total. apply reads_bind; [apply reads_list_sales|].
  intros s. apply reads_untouched; auto with untouched_db.
Qed.

Lemma untouched_create book_id isbn qty cents currency timestamp :
  untouched (Sale.create book_id isbn qty cents currency timestamp).
Proof. unfold Sale.create. pure_steps. Qed.

(** [_save_books] raises only when its [load] does, and what it leaves on
    success is a document. *)
Lemma save_books_cases (bs : list Book.t) (w : world) :
  (exists e w', BookRepository._save_books bs w = (Raise e, w')
                /\ boot (fs w) (fs w')) \/
  (exists d n, BookRepository._save_books bs w
               = (Ok tt, mkWorld (Parsed (JSONStore.dump d)) n)).
Proof.
  unfold BookRepository._save_books, bind. pose proof (reads_load w) as Hb.
  destruct (JSONStore.load w) as [[d|e] w1]; cbn [snd] in Hb.
  - right. rewrite save_dump. now eexists _, _.
  - left. now exists e, w1.
Qed.

Lemma atomic_save_books bs : all_or_nothing (BookRepository._save_books bs).
Proof.
  intros w e w' E.
  destruct (save_books_cases bs w) as [(e0 & w0 & E0 & Hb)|(d & n & E0)];
    rewrite E0 in E; [now injection E as _ <- | discriminate].
Qed.

Lemma atomic_add book : all_or_nothing (BookRepository.add book).
Proof.
  unfold BookRepository.add. apply atomic_bind; [exact reads_load_books|].
  intros bs. destruct (existsb _ bs); [|apply atomic_save_books].
  apply reads_atomic, reads_untouched; auto with untouched_db.
Qed.

Lemma atomic_update book : all_or_nothing (BookRepository.update book).
Proof.
  unfold BookRepository.update. apply atomic_bind; [exact reads_load_books|].
  intros bs. destruct (BookRepository._find_index_by_id bs _) as [idx|].
  - destruct (existsb _ _); [|apply atomic_save_books].
    apply reads_atomic, reads_untouched; auto with untouched_db.
  - apply reads_atomic, reads_untouched; auto with untouched_db.
Qed.

Lemma atomic_remove book_id : all_or_nothing (BookRepository.remove book_id).
Proof.
  unfold BookRepository.remove. apply atomic_bind; [exact reads_load_books|].
  intros bs. destruct (BookRepository._find_index_by_id bs _) as [idx|].
  - apply atomic_save_books.
  - apply reads_atomic, reads_untouched; auto with untouched_db.
Qed.

Lemma atomic_archive_by_isbn isbn : all_or_nothing (BookRepository.archive_by_isbn isbn).
Proof.
  unfold BookRepository.archive_by_isbn. apply atomic_bind; [exact reads_load_books|].
  intros bs. destruct (BookRepository._find_index_by_isbn bs _) as [idx|].
  - apply atomic_save_books.
  - apply reads_atomic, reads_untouched; auto with untouched_db.
Qed.

(** An update that returned has left a document of the store's shape. *)
Lemma update_settled (book : Book.t) (w w' : world) :
  BookRepository.update book w = (Ok tt, w') ->
  exists d, fs w' = Parsed (JSONStore.dump d).
Proof.
  unfold BookRepository.update. intros H.
  apply bind_ok in H as (bs & w1 & _ & H).
  destruct (BookRepository._find_index_by_id bs _) as [idx|]; [|discriminate].
  destruct (existsb _ _); [discriminate|].
  destruct (save_books_cases (list_set bs idx book) w1)
    as [(e0 & w0 & E0 & _)|(d & n & E0)]; rewrite E0 in H; [discriminate|].
  injection H as <-. now exists d.
Qed.

Lemma then_ret {A B} (m : M A) (b : B) :
  all_or_nothing m -> all_or_nothing (bind m (fun _ => ret b)).
Proof.
  intros H. apply atomic_last; [exact H|]. intros a w w' _. now exists b, w'.
Qed.

Lemma atomic_forget {A} (m : M A) : all_or_nothing m -> all_or_nothing (forget m).
Proof. intros H. unfold forget. now apply then_ret. Qed.

Lemma atomic_store (book : Book.t) (r : result Book.t) :
  all_or_nothing (book <- lift r ;; BookRepository.update book ;;; ret book).
Proof.
  apply atomic_bind; [apply reads_untouched; auto with untouched_db|].
  intros b. apply then_ret, atomic_update.
Qed.

Lemma atomic_add_book title author isbn price currency quantity upd :
  all_or_nothing (InventoryService.add_book title author isbn price currency
                                            quantity upd).
Proof.
  unfold InventoryService.add_book. destruct (quantity <=? 0).
  { apply reads_atomic, reads_untouched; auto with untouched_db. }
  intros w e w'. unfold try_except_then.
  pose proof (reads_get_by_isbn isbn w) as Hb.
  destruct (BookRepository.get_by_isbn isbn w) as [[b|e0] w1]; cbn [snd] in Hb.
  - intros E. refine (boot_trans _ _ _ Hb _). revert E. apply atomic_bind.
    { apply reads_untouched; auto with untouched_db. }
    intros b1. apply atomic_bind.
    { destruct upd; apply reads_untouched; auto with untouched_db. }
    intros b2. apply then_ret, atomic_update.
  - destruct (is_BookNotFoundError e0); [|now intros [= _ <-]].
    intros E. refine (boot_trans _ _ _ Hb _). revert E. apply atomic_bind.
    { apply reads_untouched, ReadFacts.untouched_init. }
    intros b1. apply then_ret, atomic_add.
Qed.

Lemma atomic_sell isbn qty : all_or_nothing (SalesService.sell isbn qty).
Proof.
  unfold SalesService.sell. destruct (qty <=? 0).
  { apply reads_atomic, reads_untouched; auto with untouched_db. }
  apply atomic_bind; [apply reads_get_by_isbn|]. intros b.
  destruct (Book.archived b).
  { apply reads_atomic, reads_untouched; auto with untouched_db. }
  destruct (Book.quantity b <? qty).
  { apply reads_atomic, reads_untouched; auto with untouched_db. }
  apply atomic_bind; [apply reads_untouched, untouched_create|]. intros sale.
  apply atomic_bind; [apply reads_untouched; auto with untouched_db|]. intros b1.
  apply atomic_last; [apply atomic_update|].
  intros [] w w' Hu. destruct (update_settled _ _ _ Hu) as (d & Hd).
  unfold bind. rewrite (load_dump _ _ Hd), save_dump. unfold ret. now eexists _, _.
Qed.

End WithPlatform.
End Atomicity.

Module Guarantees.
Section WithPlatform.
Context {P : Platform}.
Import Inv Obs Atomicity.

Lemma boot_same_collections (f f' : file) :
  boot f f' -> stored_books f' = stored_books f /\ stored_sales f' = stored_sales f.
Proof. intros [->|[-> ->]]; now split. Qed.

Lemma atomic_run (c : command) : all_or_nothing (run c).
Proof.
  destruct c; cbn [run]; try apply atomic_forget.
  - apply atomic_add.
  - apply atomic_update.
  - apply atomic_remove.
  - apply atomic_archive_by_isbn.
  - apply atomic_add_book.
  - unfold InventoryService.set_price.
    apply atomic_bind; [apply reads_get_by_isbn | intros b; apply atomic_store; exact b].
  - unfold InventoryService.set_quantity. destruct (new_qty <? 0).
    + apply reads_atomic, reads_untouched, ReadFacts.untouched_raise.
    + apply atomic_bind; [apply reads_get_by_isbn|].
      intros b. apply then_ret, atomic_update.
  - unfold InventoryService.increase_stock.
    apply atomic_bind; [apply reads_get_by_isbn | intros b; apply atomic_store; exact b].
  - unfold InventoryService.decrease_stock.
    apply atomic_bind; [apply reads_get_by_isbn | intros b; apply atomic_store; exact b].
  - unfold InventoryService.archive_if_empty.
    apply atomic_bind; [apply reads_get_by_isbn|]. intros b.
    destruct (negb _).
    + apply reads_atomic, reads_untouched, ReadFacts.untouched_raise.
    + apply then_ret, atomic_archive_by_isbn.
  - apply atomic_sell.
Qed.

(** X18.  A command that raises has written nothing: whichever of the
    ledger's and the services' mutating operations it is, and whatever the
    file holds, when it ends in an exception the file is as it was (or was
    missing and is now the empty document), so the stored books and the
    stored sales are those from before.  The exceptions are those the code
    raises itself; [_atomic_write] is taken to succeed, so a write that the
    operating system refuses is not among them. *)
Theorem failed_command_writes_nothing (c : command) (w w' : world) (e : exn) :
  run c w = (Raise e, w') ->
  boot (fs w) (fs w') /\
  stored_books (fs w') = stored_books (fs w) /\
  stored_sales (fs w') = stored_sales (fs w).
Proof.
  intros H. pose proof (atomic_run c w e w' H) as Hb.
  split; [exact Hb | exact (boot_same_collections _ _ Hb)].
Qed.

(** X19.  The queries write nothing: lookups by id and ISBN, the listings,
    search, the sales listing and total, and the statistics leave the file
    as it was, whatever it holds and whether they return or raise; the
    one exception is the empty document written for a missing file. *)
Theorem queries_write_nothing (w : world) :
  (forall isbn, boot (fs w) (fs (snd (BookRepository.get_by_isbn isbn w)))) /\
  (forall book_id, boot (fs w) (fs (snd (BookRepository.get_by_id book_id w)))) /\
  (forall arch, boot (fs w) (fs (snd (InventoryService.list_all arch w)))) /\
  (forall q arch limit,
     boot (fs w) (fs (snd (InventoryService.search_books q arch limit w)))) /\
  (forall isbn limit, boot (fs w) (fs (snd (SalesService.list_sales isbn limit w)))) /\
  (forall isbn, boot (fs w) (fs (snd (SalesService.sales_total isbn w)))) /\
  boot (fs w) (fs (snd (Bookstore.stats w))).
Proof.
  split; [intros; apply reads_get_by_isbn|].
  split; [intros; apply reads_get_by_id|].
  split; [intros; apply reads_list_all|].
  split; [intros; apply reads_search|].
  split; [intros; apply reads_list_sales|].
  split; [intros; apply reads_sales_total|].
  unfold Bookstore.stats.
  apply reads_bind; [apply reads_list_all|]. intros bs.
  apply reads_bind; [apply reads_list_sales|]. intros ss.
  apply reads_bind; [apply reads_sales_total|]. intros r.
  apply reads_untouched, ReadFacts.untouched_ret.
Qed.

End WithPlatform.
End Guarantees.

(* ================================================================== *)
(** ** One record per ISBN, under every command *)

Module CatalogInvariant.
Section WithPlatform.
Context {P : Platform}.
Import Inv Obs StoreFacts ListFacts CatalogFacts.

Lemma in_list_set_inv {A} (l : list A) (idx : nat) (y z : A) :
  In z (list_set l idx y) -> z = y \/ In z l.
Proof.
  revert idx. induction l as [|a r IH]; intros [|i]; cbn; try tauto.
  - intros [->|H]; [now left | right; now right].
  - intros [->|H]; [right; now left|].
    destruct (IH i H) as [->|H']; [now left | right; now right].
Qed.

Lemma in_list_del_inv {A} (l : list A) (idx : nat) (z : A) :
  In z (list_del l idx) -> In z l.
Proof.
  revert idx. induction l as [|a r IH]; intros [|i]; cbn; try tauto.
  intros [->|H]; [now left | right; exact (IH i H)].
Qed.

Lemma nodup_list_set {A B} (f : A -> B) (l : list A) (idx : nat) (y : A) :
  NoDup (map f l) ->
  (forall i x, nth_error l i = Some x -> i <> idx -> f x <> f y) ->
  NoDup (map f (list_set l idx y)).
Proof.
  revert idx. induction l as [|a r IH]; intros idx Hnd Hy; [constructor|].
  cbn [map] in Hnd. apply NoDup_cons_iff in Hnd as [Ha Hr].
  destruct idx as [|i]; cbn [list_set map]; apply NoDup_cons_iff; split.
  - intros Hin. apply in_map_iff in Hin as (x & Hx & Hin).
    apply In_nth_error in Hin as (j & Hj).
    exact (Hy (S j) x Hj ltac:(discriminate) Hx).
  - exact Hr.
  - intros Hin. apply in_map_iff in Hin as (x & Hx & Hin).
    apply in_list_set_inv in Hin as [->|Hin].
    + exact (Hy O a eq_refl ltac:(discriminate) (eq_sym Hx)).
    + apply Ha. rewrite <- Hx. now apply in_map.
  - apply IH; [exact Hr|]. intros j x Hj Hne.
    apply (Hy (S j) x Hj). congruence.
Qed.

Lemma nodup_list_del {A B} (f : A -> B) (l : list A) (idx : nat) :
  NoDup (map f l) -> NoDup (map f (list_del l idx)).
Proof.
  revert idx. induction l as [|a r IH]; intros idx Hnd; [destruct idx; constructor|].
  cbn [map] in Hnd. apply NoDup_cons_iff in Hnd as [Ha Hr].
  destruct idx as [|i]; cbn [list_del map]; [exact Hr|].
  apply NoDup_cons_iff. split; [|now apply IH].
  intros Hin. apply in_map_iff in Hin as (x & Hx & Hin).
  apply in_list_del_inv in Hin. apply Ha. rewrite <- Hx. now apply in_map.
Qed.

Lemma Forall_list_del {A} (Q : A -> Prop) (l : list A) (idx : nat) :
  Forall Q l -> Forall Q (list_del l idx).
Proof.
  intros Hl. revert idx. induction Hl as [|z r Hz Hr IH]; intros [|i]; cbn;
    try constructor; auto.
Qed.

Lemma map_list_update_same {A B} (f : A -> B) (g : A -> A) (l : list A) (idx : nat) :
  (forall x, f (g x) = f x) -> map f (list_update l idx g) = map f l.
Proof.
  intros Hg. revert idx. induction l as [|a r IH]; intros [|i]; cbn; try reflexivity.
  - now rewrite Hg.
  - now rewrite IH.
Qed.

Lemma Forall_list_update {A} (Q : A -> Prop) (g : A -> A) (l : list A) (idx : nat) :
  Forall Q l -> (forall x, Q x -> Q (g x)) -> Forall Q (list_update l idx g).
Proof.
  intros Hl Hg. revert idx. induction Hl as [|z r Hz Hr IH]; intros [|i]; cbn;
    constructor; auto.
Qed.

Lemma catalog_at (bs : list Book.t) (ss : list json) (n : nat) :
  Forall valid_book bs -> NoDup (map Book.isbn bs) ->
  catalog (mkWorld (Parsed (JSONStore.dump (mkDoc (map Book.to_dict bs) ss))) n) bs ss.
Proof. intros V N. now constructor. Qed.

Lemma settles_add (book : Book.t) : valid_book book -> settles (BookRepository.add book).
Proof.
  intros V w w' a bs ss C. unfold BookRepository.add.
  rewrite (bind_eq_ok _ _ _ _ _ (load_books_catalog _ _ _ C)).
  destruct (existsb _ bs) eqn:E; [discriminate|].
  rewrite (save_books_catalog w bs ss _ C). intros [= <- <-].
  exists (bs ++ [book])%list.
  assert (Hn : ~ In (Book.isbn book) (map Book.isbn bs)).
  { intros Hin. apply in_map_iff in Hin as (x & Hx & Hin).
    apply Bool.not_true_iff_false in E. apply E, existsb_exists.
    exists x. split; [exact Hin | now apply String.eqb_eq]. }
  exact (proj2 (RepoProps.add_catalog w bs ss book C V Hn)).
Qed.

Lemma settles_update (book : Book.t) :
  valid_book book -> settles (BookRepository.update book).
Proof.
  intros V w w' a bs ss C. unfold BookRepository.update.
  rewrite (bind_eq_ok _ _ _ _ _ (load_books_catalog _ _ _ C)).
  destruct (BookRepository._find_index_by_id bs _) as [idx|]; [|discriminate].
  destruct (existsb _ _) eqn:E; [discriminate|].
  rewrite (save_books_catalog w bs ss _ C). intros [= <- <-].
  exists (list_set bs idx book). apply catalog_at.
  - apply Forall_list_set; [exact (cat_valid _ _ _ C) | exact V].
  - apply nodup_list_set; [exact (cat_isbns _ _ _ C)|].
    intros i x Hi Hne Heq. apply Bool.not_true_iff_false in E. apply E.
    apply existsb_exists. exists (i, x). split; [now apply enumerate_in|].
    cbn [fst snd]. apply andb_true_intro. split.
    + now apply negb_true_iff, Nat.eqb_neq.
    + now apply String.eqb_eq.
Qed.

Lemma settles_remove (book_id : string) : settles (BookRepository.remove book_id).
Proof.
  intros w w' a bs ss C. unfold BookRepository.remove.
  rewrite (bind_eq_ok _ _ _ _ _ (load_books_catalog _ _ _ C)).
  destruct (BookRepository._find_index_by_id bs _) as [idx|]; [|discriminate].
  rewrite (save_books_catalog w bs ss _ C). intros [= <- <-].
  exists (list_del bs idx). apply catalog_at.
  - apply Forall_list_del, (cat_valid _ _ _ C).
  - apply nodup_list_del, (cat_isbns _ _ _ C).
Qed.

Lemma settles_archive_by_isbn (isbn : string) :
  settles (BookRepository.archive_by_isbn isbn).
Proof.
  intros w w' a bs ss C. unfold BookRepository.archive_by_isbn.
  rewrite (bind_eq_ok _ _ _ _ _ (load_books_catalog _ _ _ C)).
  destruct (BookRepository._find_index_by_isbn bs _) as [idx|]; [|discriminate].
  rewrite (save_books_catalog w bs ss _ C). intros [= <- <-].
  exists (list_update bs idx Book.mark_archived). apply catalog_at.
  - apply Forall_list_update; [exact (cat_valid _ _ _ C)|].
    exact LedgerFacts.valid_mark_archived.
  - rewrite map_list_update_same; [exact (cat_isbns _ _ _ C) | reflexivity].
Qed.

(** A lookup in a catalogue returns one of its books and writes nothing. *)
Lemma get_in_catalog (w w1 : world) bs ss (b : Book.t) (isbn : string) :
  catalog w bs ss -> BookRepository.get_by_isbn isbn w = (Ok b, w1) ->
  w1 = w /\ In b bs /\ valid_book b.
Proof.
  intros C. unfold BookRepository.get_by_isbn.
  rewrite (bind_eq_ok _ _ _ _ _ (load_books_catalog _ _ _ C)).
  destruct (find _ bs) as [x|] eqn:F; [|discriminate].
  intros [= <- <-]. apply find_some in F as [Hin _].
  split; [reflexivity|]. split; [exact Hin|].
  exact (proj1 (Forall_forall _ _) (cat_valid _ _ _ C) x Hin).
Qed.

Lemma settles_then_ret {A B} (m : M A) (b : B) :
  settles m -> settles (bind m (fun _ => ret b)).
Proof.
  intros H w w' a bs ss C E. apply bind_ok in E as (x & w1 & E & R).
  apply ret_ok in R as [_ ->]. exact (H w w1 x bs ss C E).
Qed.

Lemma valid_increase (n : Z) (b b' : Book.t) :
  valid_book b -> Book.increase_stock n b = Ok b' -> valid_book b'.
Proof.
  intros V H. apply ModelProps.increase_stock_ok in H as [Hn ->].
  apply LedgerFacts.valid_set_quantity; [exact V|].
  pose proof (quantity_range b V). lia.
Qed.

Lemma valid_decrease (n : Z) (b b' : Book.t) :
  valid_book b -> Book.decrease_stock n b = Ok b' -> valid_book b'.
Proof.
  intros V H. apply ModelProps.decrease_stock_inv in H as [Hn ->].
  apply LedgerFacts.valid_set_quantity; [exact V | lia].
Qed.

Lemma valid_new_price (a : amount) (b b' : Book.t) :
  valid_book b -> Book.set_price a b = Ok b' -> valid_book b'.
Proof.
  intros V H. apply ModelProps.set_price_inv in H as (c & Hc & ->).
  apply ModelProps.valid_set_price; [exact V | exact (BookFacts.to_cents_range _ _ Hc)].
Qed.

(** [book = get_by_isbn(isbn); <change book>; update(book); return book] *)
Lemma settles_change (isbn : string) (change : Book.t -> result Book.t) :
  (forall b b', valid_book b -> change b = Ok b' -> valid_book b') ->
  settles (book <- BookRepository.get_by_isbn isbn ;;
           book <- lift (change book) ;;
           BookRepository.update book ;;;
           ret book).
Proof.
  intros Hc w w' a bs ss C E.
  apply bind_ok in E as (b & w1 & Hg & E).
  destruct (get_in_catalog _ _ _ _ _ _ C Hg) as (-> & Hin & V).
  apply bind_ok in E as (b' & w2 & Hl & E). apply lift_ok in Hl as [Hl ->].
  exact (settles_then_ret _ _ (settles_update b' (Hc b b' V Hl)) w w' a bs ss C E).
Qed.

Lemma settles_add_book title author isbn price currency quantity upd :
  settles (InventoryService.add_book title author isbn price currency quantity upd).
Proof.
  intros w w' a bs ss C. unfold InventoryService.add_book.
  destruct (quantity <=? 0); [discriminate|]. unfold try_except_then.
  destruct (BookRepository.get_by_isbn isbn w) as [[b|e] w1] eqn:Hg.
  - destruct (get_in_catalog _ _ _ _ _ _ C Hg) as (-> & Hin & V). intros E.
    apply bind_ok in E as (b1 & w2 & H1 & E). apply lift_ok in H1 as [H1 ->].
    apply bind_ok in E as (b2 & w3 & H2 & E).
    assert (V2 : valid_book b2 /\ w3 = w).
    { pose proof (valid_increase _ _ _ V H1) as V1. destruct upd.
      - apply lift_ok in H2 as [H2 ->]. split; [|reflexivity].
        exact (valid_new_price _ _ _ V1 H2).
      - apply ret_ok in H2 as [-> ->]. now split. }
    destruct V2 as [V2 ->].
    exact (settles_then_ret _ _ (settles_update b2 V2) w w' a bs ss C E).
  - destruct (is_BookNotFoundError e); [|discriminate]. intros E.
    apply bind_ok in E as (b1 & w2 & H1 & E).
    pose proof (BookTrip.init_valid _ _ _ _ _ _ _ _ _ _ _ _ H1) as V1.
    assert (C2 : catalog w2 bs ss).
    { apply (catalog_same_file w); [|exact C].
      pose proof (ReadFacts.untouched_init (JStr title) (JStr author) (JStr isbn) price
                    (JStr currency) quantity JNull false None w1) as Hu.
      rewrite H1 in Hu. cbn [snd] in Hu. rewrite Hu.
      pose proof (Atomicity.reads_get_by_isbn isbn w) as Hb. rewrite Hg in Hb.
      cbn [snd] in Hb. destruct Hb as [Hb|[Hb _]]; [exact Hb|].
      rewrite (cat_on_disk _ _ _ C) in Hb. discriminate. }
    exact (settles_then_ret _ _ (settles_add b1 V1) w2 w' a bs ss C2 E).
Qed.

(** From a catalogue, a sale that returns leaves a catalogue whose sales
    are the old ones and one more. *)
Lemma sell_catalog (isbn : string) (qty : Z) (w w' : world) (s : Sale.t) bs ss :
  catalog w bs ss -> SalesService.sell isbn qty w = (Ok s, w') ->
  exists bs', catalog w' bs' (ss ++ [Sale.to_dict s]).
Proof.
  intros C. unfold SalesService.sell. destruct (qty <=? 0); [discriminate|].
  intros E. apply bind_ok in E as (b & w1 & Hg & E).
  destruct (get_in_catalog _ _ _ _ _ _ C Hg) as (-> & Hin & V).
  destruct (Book.archived b); [discriminate|].
  destruct (Book.quantity b <? qty); [discriminate|].
  apply bind_ok in E as (sale & w2 & Hs & E).
  assert (C2 : catalog w2 bs ss).
  { apply (catalog_same_file w); [|exact C].
    pose proof (Atomicity.untouched_create (Book.id b) (JStr (Book.isbn b)) qty
                  (Book.price_cents b) (JStr (Book.currency b)) None w) as Hu.
    now rewrite Hs in Hu. }
  apply bind_ok in E as (b' & w3 & Hd & E). apply lift_ok in Hd as [Hd ->].
  apply bind_ok in E as ([] & w4 & Hu & E).
  destruct (settles_update b' (valid_decrease _ _ _ V Hd) w2 w4 tt bs ss C2 Hu)
    as (bs' & C4).
  exists bs'. revert E. unfold bind.
  rewrite (load_dump _ _ (cat_on_disk _ _ _ C4)). cbn [books sales].
  rewrite save_dump. intros [= <- <-]. apply catalog_at.
  - exact (cat_valid _ _ _ C4).
  - exact (cat_isbns _ _ _ C4).
Qed.

Lemma forget_ok {A} (m : M A) (w w' : world) (u : unit) :
  forget m w = (Ok u, w') -> exists a, m w = (Ok a, w').
Proof.
  unfold forget. intros E. apply bind_ok in E as (a & w1 & E & R).
  apply ret_ok in R as [_ ->]. now exists a.
Qed.

(** X20.  One record per ISBN is an invariant of every command.  From a
    file that holds valid books with pairwise distinct ISBNs, each
    mutating operation of the ledger and the services, given Books that
    meet the class invariants, ends, whether it returns or raises, in a
    file that again holds valid books with pairwise distinct ISBNs. *)
Theorem commands_keep_one_record_per_isbn
    (c : command) (w : world) (bs : list Book.t) (ss : list json) :
  well_formed c -> catalog w bs ss ->
  exists bs' ss',
    catalog (snd (run c w)) bs' ss' /\
    NoDup (map Book.isbn bs') /\ Forall valid_book bs'.
Proof.
  intros Hc C.
  enough (H : exists bs' ss', catalog (snd (run c w)) bs' ss').
  { destruct H as (bs' & ss' & C'). exists bs', ss'.
    split; [exact C'|]. split; [exact (cat_isbns _ _ _ C') | exact (cat_valid _ _ _ C')]. }
  destruct (run c w) as [[u|e] w'] eqn:E; cbn [snd].
  2:{ exists bs, ss. apply (catalog_same_file w); [|exact C].
      destruct (Guarantees.atomic_run c w e w' E) as [Hb|[Hb _]]; [exact Hb|].
      rewrite (cat_on_disk _ _ _ C) in Hb. discriminate. }
  destruct c; cbn [run well_formed] in *.
  - destruct (settles_add book Hc w w' u bs ss C E) as (bs' & C'). now exists bs', ss.
  - destruct (settles_update book Hc w w' u bs ss C E) as (bs' & C'). now exists bs', ss.
  - destruct (settles_remove book_id w w' u bs ss C E) as (bs' & C'). now exists bs', ss.
  - destruct (settles_archive_by_isbn isbn w w' u bs ss C E) as (bs' & C').
    now exists bs', ss.
  - apply forget_ok in E as (a & E).
    destruct (settles_add_book _ _ _ _ _ _ _ w w' a bs ss C E) as (bs' & C').
    now exists bs', ss.
  - apply forget_ok in E as (a & E).
    destruct (settles_change isbn (Book.set_price new_price)
                (valid_new_price new_price) w w' a bs ss C E) as (bs' & C').
    now exists bs', ss.
  - apply forget_ok in E as (a & E). unfold InventoryService.set_quantity in E.
    destruct (Z.ltb_spec new_qty 0); [discriminate|].
    apply bind_ok in E as (b & w1 & Hg & E).
    destruct (get_in_catalog _ _ _ _ _ _ C Hg) as (-> & Hin & V).
    destruct (settles_then_ret _ _
                (settles_update _ (LedgerFacts.valid_set_quantity b new_qty V H))
                w w' a bs ss C E) as (bs' & C').
    now exists bs', ss.
  - apply forget_ok in E as (a & E).
    destruct (settles_change isbn (Book.increase_stock by_)
                (valid_increase by_) w w' a bs ss C E) as (bs' & C').
    now exists bs', ss.
  - apply forget_ok in E as (a & E).
    destruct (settles_change isbn (Book.decrease_stock by_)
                (valid_decrease by_) w w' a bs ss C E) as (bs' & C').
    now exists bs', ss.
  - apply forget_ok in E as (a & E). unfold InventoryService.archive_if_empty in E.
    apply bind_ok in E as (b & w1 & Hg & E).
    destruct (get_in_catalog _ _ _ _ _ _ C Hg) as (-> & Hin & V).
    destruct (negb _); [discriminate|].
    destruct (settles_then_ret _ _ (settles_archive_by_isbn isbn) w w' a bs ss C E)
      as (bs' & C').
    now exists bs', ss.
  - apply forget_ok in E as (a & E).
    destruct (sell_catalog _ _ _ _ _ _ _ C E) as (bs' & C').
    exists bs', (ss ++ [Sale.to_dict a])%list. exact C'.
Qed.

End WithPlatform.
End CatalogInvariant.

(* ================================================================== *)
(** ** Revenue and the statistics *)

Module SalesProps.
Section WithPlatform.
Context {P : Platform}.
Import Inv Obs StoreFacts CatalogFacts.

Lemma fold_sum_shift {A} (f : A -> Z) (l : list A) (a : Z) :
  fold_left (fun acc x => acc + f x) l a
  = a + fold_left (fun acc x => acc + f x) l 0.
Proof.
  revert a. induction l as [|x r IH]; intros a; cbn [fold_left]; [lia|].
  rewrite (IH (a + f x)), (IH (0 + f x)). lia.
Qed.

Lemma fold_sum_perm {A} (f : A -> Z) (l l' : list A) :
  Permutation l l' ->
  fold_left (fun acc x => acc + f x) l 0 = fold_left (fun acc x => acc + f x) l' 0.
Proof.
  induction 1 as [|x l l' _ IH|x y l|l l' l'' _ IH1 _ IH2]; cbn [fold_left].
  - reflexivity.
  - rewrite (fold_sum_shift f l), (fold_sum_shift f l'). now rewrite IH.
  - rewrite (fold_sum_shift f l (0 + f y + f x)), (fold_sum_shift f l (0 + f x + f y)).
    lia.
  - now rewrite IH1.
Qed.

Lemma fold_sum_app {A} (f : A -> Z) (l : list A) (x : A) :
  fold_left (fun acc x => acc + f x) (l ++ [x]) 0
  = fold_left (fun acc x => acc + f x) l 0 + f x.
Proof. now rewrite fold_left_app. Qed.

Lemma fold_count {A} (p : A -> bool) (l : list A) :
  fold_left (fun acc x => if p x then acc + 1 else acc) l 0
  = Z.of_nat (List.length (filter p l)).
Proof.
  enough (H : forall a, fold_left (fun acc x => if p x then acc + 1 else acc) l a
                        = a + Z.of_nat (List.length (filter p l))) by apply H.
  induction l as [|x r IH]; intros a; cbn [fold_left filter]; [cbn; lia|].
  rewrite IH. destruct (p x); cbn [List.length]; lia.
Qed.

Lemma filter_split_length {A} (p : A -> bool) (l : list A) :
  (List.length (filter p l) + List.length (filter (fun x => negb (p x)) l)
   = List.length l)%nat.
Proof.
  induction l as [|x r IH]; [reflexivity|]. cbn [filter].
  destruct (p x); cbn [negb List.length]; lia.
Qed.

Lemma map_result_app {A B} (f : A -> result B) (l : list A) (x : A) ys y :
  map_result f l = Ok ys -> f x = Ok y ->
  map_result f (l ++ [x]) = Ok (ys ++ [y])%list.
Proof.
  revert ys. induction l as [|a r IH]; intros ys; cbn [map_result app].
  - intros [= <-] ->. reflexivity.
  - destruct (f a) as [b|]; [|discriminate].
    destruct (map_result f r) as [bs|]; [|discriminate].
    intros [= <-] Hx. now rewrite (IH bs eq_refl Hx).
Qed.

Lemma list_all_catalog (w : world) bs ss (include_archived : bool) :
  catalog w bs ss ->
  BookRepository.list_all include_archived w
  = (Ok (all_or_active include_archived bs), w).
Proof.
  intros C. unfold BookRepository.list_all.
  rewrite (bind_eq_ok _ _ _ _ _ (load_books_catalog _ _ _ C)).
  now destruct include_archived.
Qed.

(** The sales that [list_sales] returns when no limit is given. *)
Lemma list_sales_unlimited (w w1 : world) (d : document) (all selected : list Sale.t)
    (isbn : option string) :
  JSONStore.load w = (Ok d, w1) ->
  map_result Sale.from_dict (sales d) = Ok all ->
  selects isbn all selected -> comparable selected ->
  SalesService.list_sales isbn None w
  = (Ok (sort_by Sale.timestamp dt_ltb selected), w1).
Proof.
  intros Hl Hdec Hsel Hcmp.
  rewrite (SortFacts.list_sales_run _ _ _ _ _ _ None Hl Hdec Hsel).
  now rewrite (SortFacts.sort_sales selected Hcmp).
Qed.

Lemma sales_total_selected (w w1 : world) (d : document) (all selected : list Sale.t)
    (isbn : option string) :
  JSONStore.load w = (Ok d, w1) ->
  map_result Sale.from_dict (sales d) = Ok all ->
  selects isbn all selected -> comparable selected ->
  SalesService.sales_total isbn w
  = (Ok (Decimal.div100 (Decimal.of_int (sum_cents selected))), w1).
Proof.
  intros Hl Hdec Hsel Hcmp. unfold SalesService.sales_total.
  rewrite (bind_eq_ok _ _ _ _ _
             (list_sales_unlimited _ _ _ _ _ _ Hl Hdec Hsel Hcmp)).
  unfold ret, sum_cents.
  now rewrite (fold_sum_perm Sale.total_cents _ _
                 (SortFacts.sort_by_perm Sale.timestamp dt_ltb selected)).
Qed.

(** X21.  When the stored sales decode and the timestamps of the selected
    ones compare (all naive or all offset-aware), the sales total is the
    sum over the selected sales of unit price times quantity, in cents,
    divided by one hundred, whatever the order of the records in the
    file; no limit applies to it.  While the sum stays below 10^28 the
    division is exact: turning the total back into cents gives the sum.
    When a naive and an offset-aware timestamp are among the selected
    sales, the total raises TypeError, as the listing does. *)
Theorem sales_total_sums_the_selected_sales
    (w w1 : world) (d : document) (all selected : list Sale.t)
    (isbn : option string) :
  JSONStore.load w = (Ok d, w1) ->
  map_result Sale.from_dict (sales d) = Ok all ->
  selects isbn all selected ->
  (forall a b, In a selected -> In b selected ->
     aware (Sale.timestamp a) <> aware (Sale.timestamp b) ->
     SalesService.sales_total isbn w = (Raise TypeError, w1)) /\
  (comparable selected ->
   exists total,
    SalesService.sales_total isbn w = (Ok total, w1) /\
    total = Decimal.div100 (Decimal.of_int (sum_cents selected)) /\
    sum_cents selected
      = fold_right Z.add 0
          (map (fun s => Sale.unit_price_cents s * Sale.qty s) selected) /\
    (0 <= sum_cents selected < 10 ^ 28 ->
     Book._to_cents (Amount total) = Ok (sum_cents selected))).
Proof.
  intros Hl Hdec Hsel. split.
  { intros a b Ha Hb Hab. unfold SalesService.sales_total, bind.
    now rewrite (Listings.list_sales_mixed _ _ _ _ _ _ None a b Hl Hdec Hsel Ha Hb Hab). }
  intros Hcmp. eexists. split; [|split; [reflexivity|split]].
  - exact (sales_total_selected _ _ _ _ _ _ Hl Hdec Hsel Hcmp).
  - unfold sum_cents. clear. induction selected as [|s r IH]; [reflexivity|].
    cbn [fold_left map fold_right]. rewrite fold_sum_shift, IH.
    unfold Sale.total_cents. lia.
  - intros Hr. now apply BookFacts.to_cents_div100.
Qed.

Lemma create_fields (book_id isbn : json) (qty cents : Z) (currency : json)
    (w w' : world) (s : Sale.t) :
  Sale.create book_id isbn qty cents currency None w = (Ok s, w') ->
  Sale.qty s = qty /\ Sale.unit_price_cents s = cents /\
  aware (Sale.timestamp s) = false.
Proof.
  unfold Sale.create. intros H.
  apply bind_ok in H as (u1 & w1 & _ & H). apply bind_ok in H as (u2 & w2 & _ & H).
  apply bind_ok in H as (u3 & w3 & _ & H). apply bind_ok in H as (i & w4 & _ & H).
  apply bind_ok in H as (c & w5 & _ & H). apply bind_ok in H as (u & w6 & _ & H).
  apply bind_ok in H as (ts & w7 & Hts & H). apply ret_ok in H as [-> _].
  unfold now in Hts. injection Hts as <- _.
  split; [reflexivity|]. split; [reflexivity | apply now_naive].
Qed.

(** X22.  A sale adds its amount to the revenue.  When [sell] returns from
    a file that holds a catalogue and sales that decode and carry naive
    timestamps (as those that [sell] writes do), the sale is of a stored
    book with that ISBN at that book's price, its timestamp is naive, the
    sales listed afterwards are the former ones and this one, and the
    total over all sales has grown by price times quantity. *)
Theorem sale_adds_to_revenue
    (w w' : world) (bs : list Book.t) (ss : list json) (all : list Sale.t)
    (isbn : string) (qty : Z) (s : Sale.t) :
  catalog w bs ss -> map_result Sale.from_dict ss = Ok all ->
  Forall (fun x => aware (Sale.timestamp x) = false) all ->
  SalesService.sell isbn qty w = (Ok s, w') ->
  exists b listed,
    In b bs /\ Book.isbn b = BookRepository._normalize_isbn isbn /\
    Sale.qty s = qty /\ Sale.unit_price_cents s = Book.price_cents b /\
    aware (Sale.timestamp s) = false /\
    SalesService.list_sales None None w' = (Ok listed, w') /\
    Permutation listed (all ++ [s]) /\
    SalesService.sales_total None w'
    = (Ok (Decimal.div100
             (Decimal.of_int (sum_cents all + Book.price_cents b * qty))), w').
Proof.
  intros C Hdec Hnaive Hsell.
  destruct (CatalogInvariant.sell_catalog _ _ _ _ _ _ _ C Hsell) as (bs' & C').
  pose proof (load_dump _ _ (cat_on_disk _ _ _ C')) as Hl.
  assert (Hdec' : map_result Sale.from_dict
                    (sales (mkDoc (map Book.to_dict bs') (ss ++ [Sale.to_dict s])))
                  = Ok (all ++ [s])%list).
  { cbn [sales]. apply map_result_app; [exact Hdec|].
    apply ModelProps.sale_from_dict_to_dict. }
  revert Hsell. unfold SalesService.sell. destruct (qty <=? 0); [discriminate|].
  intros E. apply bind_ok in E as (b & w1 & Hg & E).
  destruct (CatalogInvariant.get_in_catalog _ _ _ _ _ _ C Hg) as (-> & Hin & V).
  destruct (ReadFacts.get_by_isbn_found _ _ _ _ Hg) as [_ Hisbn].
  destruct (Book.archived b); [discriminate|].
  destruct (Book.quantity b <? qty); [discriminate|].
  apply bind_ok in E as (sale & w2 & Hs & E).
  apply create_fields in Hs as (Hq & Hp & Hts).
  apply bind_ok in E as (b' & w3 & _ & E). apply bind_ok in E as (u & w4 & _ & E).
  apply bind_ok in E as (d & w5 & _ & E). apply bind_ok in E as (u' & w6 & _ & E).
  apply ret_ok in E as [<- _].
  assert (Hcmp : comparable (all ++ [s])).
  { assert (Hk : forall x, In x (all ++ [s]) -> aware (Sale.timestamp x) = false).
    { intros x Hx. apply in_app_or in Hx as [Hx|[<-|[]]]; [|exact Hts].
      exact (proj1 (Forall_forall _ _) Hnaive x Hx). }
    intros x y Hx Hy. now rewrite (Hk x Hx), (Hk y Hy). }
  exists b, (sort_by Sale.timestamp dt_ltb (all ++ [s])).
  split; [exact Hin|]. split; [exact Hisbn|]. split; [exact Hq|]. split; [exact Hp|].
  split; [exact Hts|].
  split; [exact (list_sales_unlimited _ _ _ _ _ None Hl Hdec' (selects_all _) Hcmp)|].
  split; [apply SortFacts.sort_by_perm|].
  rewrite (sales_total_selected _ _ _ _ _ None Hl Hdec' (selects_all _) Hcmp).
  unfold sum_cents. rewrite fold_sum_app. unfold Sale.total_cents.
  now rewrite Hq, Hp.
Qed.

(** X23.  The statistics of a catalogue whose sales decode and have
    timestamps that compare (all naive or all offset-aware): the titles
    are the stored records, archived or not; the active and the archived
    ones are counted apart and add up to them; the quantity is the sum
    over all records, archived ones too; the sales count is the number of
    stored sales, with no limit of a hundred; and the revenue is their
    total.  Nothing is written.  With a naive and an offset-aware
    timestamp among the sales the statistics raise TypeError. *)
Theorem stats_counts_the_catalogue
    (w : world) (bs : list Book.t) (ss : list json) (all : list Sale.t) :
  catalog w bs ss -> map_result Sale.from_dict ss = Ok all ->
  (forall a b, In a all -> In b all ->
     aware (Sale.timestamp a) <> aware (Sale.timestamp b) ->
     Bookstore.stats w = (Raise TypeError, w)) /\
  (comparable all ->
   exists st,
    Bookstore.stats w = (Ok st, w) /\
    Bookstore.total_titles st = Z.of_nat (List.length bs) /\
    Bookstore.active_titles st
      = Z.of_nat (List.length (filter (fun b => negb (Book.archived b)) bs)) /\
    Bookstore.archived_titles st = Z.of_nat (List.length (filter Book.archived bs)) /\
    Bookstore.total_quantity st = fold_right Z.add 0 (map Book.quantity bs) /\
    0 <= Bookstore.total_quantity st /\
    Bookstore.sales_count st = Z.of_nat (List.length all) /\
    Bookstore.revenue st = Decimal.div100 (Decimal.of_int (sum_cents all))).
Proof.
  intros C Hdec.
  pose proof (load_dump _ _ (cat_on_disk _ _ _ C)) as Hl.
  split.
  { intros a b Ha Hb Hab. unfold Bookstore.stats.
    rewrite (bind_eq_ok _ _ _ _ _ (list_all_catalog _ _ _ true C)).
    unfold bind.
    now rewrite (Listings.list_sales_mixed _ _ _ _ _ _ None a b Hl Hdec
                   (selects_all _) Ha Hb Hab). }
  intros Hcmp. eexists. split.
  { unfold Bookstore.stats.
    rewrite (bind_eq_ok _ _ _ _ _ (list_all_catalog _ _ _ true C)). cbn [all_or_active].
    rewrite (bind_eq_ok _ _ _ _ _
               (list_sales_unlimited _ _ _ _ _ None Hl Hdec (selects_all _) Hcmp)).
    rewrite (bind_eq_ok _ _ _ _ _
               (sales_total_selected _ _ _ _ _ None Hl Hdec (selects_all _) Hcmp)).
    reflexivity. }
  cbn [Bookstore.total_titles Bookstore.active_titles Bookstore.archived_titles
       Bookstore.total_quantity Bookstore.sales_count Bookstore.revenue].
  assert (Hq : fold_left (fun acc b => acc + Book.quantity b) bs 0
               = fold_right Z.add 0 (map Book.quantity bs)).
  { clear. induction bs as [|b r IH]; [reflexivity|].
    cbn [fold_left map fold_right]. rewrite fold_sum_shift, IH. lia. }
  split; [reflexivity|]. split; [apply fold_count|]. split.
  { rewrite fold_count.
    pose proof (filter_split_length Book.archived bs). lia. }
  split; [exact Hq|]. split.
  { rewrite Hq. pose proof (cat_valid _ _ _ C) as V. clear -V.
    induction V as [|b r Hb _ IH]; cbn [map fold_right]; [lia|].
    pose proof (quantity_range b Hb). lia. }
  split; [|reflexivity].
  f_equal. apply Permutation_length, SortFacts.sort_by_perm.
Qed.

(** X24.  A filter that is not blank and does not normalise to an ISBN of
    ten or thirteen characters is an error, not an empty answer: with
    sales that decode, [list_sales] and [sales_total] raise
    ValidationError for the field isbn and write nothing. *)
Theorem sales_filter_must_be_an_isbn
    (w w1 : world) (d : document) (all : list Sale.t) (i : string)
    (limit : option Z) :
  JSONStore.load w = (Ok d, w1) ->
  map_result Sale.from_dict (sales d) = Ok all ->
  Py.strip i <> "" -> ISBN_RE.match_ (Sale.clean i) = false ->
  SalesService.list_sales (Some i) limit w = (Raise (ValidationError "isbn"), w1) /\
  SalesService.sales_total (Some i) w = (Raise (ValidationError "isbn"), w1).
Proof.
  intros Hl Hdec Hne Hm.
  assert (H : forall limit, SalesService.list_sales (Some i) limit w
                            = (Raise (ValidationError "isbn"), w1)).
  { intros lim. unfold SalesService.list_sales.
    rewrite (bind_eq_ok _ _ _ _ _ Hl), Hdec. unfold bind at 1, lift at 1.
    destruct (String.eqb_spec i "") as [->|_]; [now contradiction Hne|].
    destruct (String.eqb_spec (Py.strip i) ""); [contradiction|].
    cbn [negb andb Sale._normalize_isbn]. now rewrite Hm. }
  split; [apply H|]. unfold SalesService.sales_total, bind. now rewrite H.
Qed.

(** X25.  The sales are decoded with no exception caught: one stored sale
    that does not decode makes the listing, the total and, over a
    catalogue, the statistics raise what the decoding raised, whatever
    the filter and the limit. *)
Theorem one_bad_sale_fails_the_listing
    (w : world) (bs : list Book.t) (ss : list json) (e : exn) :
  catalog w bs ss -> map_result Sale.from_dict ss = Raise e ->
  (forall isbn limit, SalesService.list_sales isbn limit w = (Raise e, w)) /\
  (forall isbn, SalesService.sales_total isbn w = (Raise e, w)) /\
  Bookstore.stats w = (Raise e, w).
Proof.
  intros C Hdec.
  pose proof (load_dump _ _ (cat_on_disk _ _ _ C)) as Hl.
  assert (H : forall isbn limit, SalesService.list_sales isbn limit w = (Raise e, w)).
  { intros isbn limit. unfold SalesService.list_sales.
    rewrite (bind_eq_ok _ _ _ _ _ Hl). cbn [sales]. now rewrite Hdec. }
  split; [exact H|]. split.
  - intros isbn. unfold SalesService.sales_total, bind. now rewrite H.
  - unfold Bookstore.stats.
    rewrite (bind_eq_ok _ _ _ _ _ (list_all_catalog _ _ _ true C)).
    unfold bind. now rewrite H.
Qed.

End WithPlatform.
End SalesProps.

(* ================================================================== *)
(** ** Archiving, and what the inventory commands refuse *)

Module ShelfProps.
Section WithPlatform.
Context {P : Platform}.
Import Inv Obs StoreFacts ListFacts CatalogFacts.

Lemma find_index_isbn (w : world) bs ss (b : Book.t) :
  catalog w bs ss -> In b bs ->
  exists idx,
    BookRepository._find_index_by_isbn bs (Book.isbn b) = Some idx /\
    nth_error bs idx = Some b.
Proof.
  intros C Hin. unfold BookRepository._find_index_by_isbn.
  apply (find_index_key Book.isbn _ bs b Hin); [|exact (cat_isbns _ _ _ C)].
  intros x _. apply String.eqb_eq.
Qed.

Lemma filter_others (bs pre post : list Book.t) (b p : Book.t) :
  bs = (pre ++ b :: post)%list -> NoDup (map Book.isbn bs) ->
  Book.archived p = true ->
  filter (fun x => negb (Book.archived x)) (pre ++ p :: post)
  = filter (fun x => negb (Book.archived x)
                     && negb (String.eqb (Book.isbn x) (Book.isbn b))) bs.
Proof.
  intros -> Hnd Hp. rewrite map_app in Hnd. cbn [map] in Hnd.
  pose proof (NoDup_remove_2 _ _ _ Hnd) as Hb.
  rewrite !filter_app. cbn [filter]. rewrite Hp, String.eqb_refl, andb_false_r.
  cbn [negb].
  assert (Hx : forall l, (forall x, In x l -> Book.isbn x <> Book.isbn b) ->
               filter (fun x => negb (Book.archived x)) l
               = filter (fun x => negb (Book.archived x)
                                  && negb (String.eqb (Book.isbn x) (Book.isbn b))) l).
  { intros l Hl. apply filter_ext_in. intros x Hin.
    destruct (String.eqb_spec (Book.isbn x) (Book.isbn b)) as [E|_];
      [now contradiction (Hl x Hin) | now rewrite andb_true_r]. }
  rewrite <- !Hx; [reflexivity| |].
  - intros x Hin E. apply Hb, in_or_app. right. rewrite <- E. now apply in_map.
  - intros x Hin E. apply Hb, in_or_app. left. rewrite <- E. now apply in_map.
Qed.

(** X26.  Archiving a stored book with no stock takes it off the shelf and
    keeps its record: the call returns the Book as read, every record is
    still stored under its ISBN with that one marked archived, the listing
    with archived books shows them all, the listing without them shows the
    other books that are not archived, and the book can no longer be
    sold. *)
Theorem archived_book_leaves_the_shelf
    (w : world) (bs : list Book.t) (ss : list json) (b : Book.t) (isbn : string) :
  catalog w bs ss -> In b bs ->
  Book.isbn b = BookRepository._normalize_isbn isbn -> Book.quantity b = 0 ->
  exists w' idx,
    InventoryService.archive_if_empty isbn w = (Ok b, w') /\
    nth_error bs idx = Some b /\
    catalog w' (list_set bs idx (Book.mark_archived b)) ss /\
    InventoryService.list_all true w'
      = (Ok (list_set bs idx (Book.mark_archived b)), w') /\
    InventoryService.list_all false w'
      = (Ok (filter (fun x => negb (Book.archived x)
                              && negb (String.eqb (Book.isbn x) (Book.isbn b))) bs),
         w') /\
    (forall qty, 0 < qty ->
       SalesService.sell isbn qty w' = (Raise (ValidationError "book"), w')).
Proof.
  intros C Hin Hisbn Hq.
  pose proof (proj1 (Forall_forall _ _) (cat_valid _ _ _ C) b Hin) as V.
  destruct (find_index_isbn w bs ss b C Hin) as (idx & Hfi & Hn).
  set (p := Book.mark_archived b).
  set (w' := mkWorld (Parsed (JSONStore.dump
                        (mkDoc (map Book.to_dict (list_set bs idx p)) ss)))
                     (seed w)).
  assert (Harc : BookRepository.archive_by_isbn isbn w = (Ok tt, w')).
  { unfold BookRepository.archive_by_isbn.
    rewrite (bind_eq_ok _ _ _ _ _ (load_books_catalog _ _ _ C)).
    rewrite <- Hisbn, Hfi. rewrite (list_update_set _ _ _ _ Hn).
    apply (save_books_catalog w bs ss _ C). }
  assert (C' : catalog w' (list_set bs idx p) ss).
  { constructor.
    - reflexivity.
    - apply Forall_list_set; [exact (cat_valid _ _ _ C)|].
      now apply LedgerFacts.valid_mark_archived.
    - rewrite (map_list_set_same Book.isbn _ _ _ _ Hn); [exact (cat_isbns _ _ _ C)|].
      reflexivity. }
  exists w', idx.
  split.
  { unfold InventoryService.archive_if_empty.
    rewrite (bind_eq_ok _ _ _ _ _ (get_by_isbn_catalog _ _ _ _ _ C Hin Hisbn)).
    rewrite Hq. cbn [Z.eqb negb]. now rewrite (bind_eq_ok _ _ _ _ _ Harc). }
  split; [exact Hn|]. split; [exact C'|].
  split; [exact (SalesProps.list_all_catalog _ _ _ true C')|].
  split.
  { unfold InventoryService.list_all.
    rewrite (SalesProps.list_all_catalog _ _ _ false C'). cbn [all_or_active].
    destruct (list_set_split bs idx b p Hn) as (pre & post & Hbs & ->).
    now rewrite (filter_others bs pre post b p Hbs (cat_isbns _ _ _ C)). }
  intros qty Hqty.
  apply (Refusals.sell_archived w' w' p isbn qty); [|reflexivity | exact Hqty].
  apply (get_by_isbn_catalog _ _ _ p isbn C'); [|exact Hisbn].
  exact (in_list_set bs idx b p Hn).
Qed.

(** X27.  What the inventory commands refuse for a stored book, each time
    with ValidationError and with nothing written: a stock change by zero
    or less (field n), a decrease beyond the stock (field quantity), a
    negative quantity, a price that [_to_cents] refuses, archiving while
    copies are left, and adding zero or fewer copies. *)
Theorem inventory_refusals
    (w : world) (bs : list Book.t) (ss : list json) (b : Book.t) (isbn : string) :
  catalog w bs ss -> In b bs ->
  Book.isbn b = BookRepository._normalize_isbn isbn ->
  (forall n, n <= 0 ->
     InventoryService.increase_stock isbn n w = (Raise (ValidationError "n"), w) /\
     InventoryService.decrease_stock isbn n w = (Raise (ValidationError "n"), w)) /\
  (forall n, Book.quantity b < n ->
     InventoryService.decrease_stock isbn n w
     = (Raise (ValidationError "quantity"), w)) /\
  (forall q, q < 0 ->
     InventoryService.set_quantity isbn q w = (Raise (ValidationError "quantity"), w)) /\
  (forall a e, Book._to_cents a = Raise e ->
     InventoryService.set_price isbn a w = (Raise e, w)) /\
  (Book.quantity b <> 0 ->
     InventoryService.archive_if_empty isbn w
     = (Raise (ValidationError "quantity"), w)) /\
  (forall title author price currency q upd, q <= 0 ->
     InventoryService.add_book title author isbn price currency q upd w
     = (Raise (ValidationError "quantity"), w)).
Proof.
  intros C Hin Hisbn.
  pose proof (proj1 (Forall_forall _ _) (cat_valid _ _ _ C) b Hin) as V.
  pose proof (quantity_range b V) as Hq0.
  pose proof (get_by_isbn_catalog _ _ _ _ _ C Hin Hisbn) as Hget.
  split; [|split; [|split; [|split; [|split]]]].
  - intros n Hn. split.
    + unfold InventoryService.increase_stock. rewrite (bind_eq_ok _ _ _ _ _ Hget).
      unfold Book.increase_stock, Book._validate_positive_int.
      destruct (Z.leb_spec n 0); [reflexivity | lia].
    + unfold InventoryService.decrease_stock. rewrite (bind_eq_ok _ _ _ _ _ Hget).
      unfold Book.decrease_stock, Book._validate_positive_int.
      destruct (Z.leb_spec n 0); [reflexivity | lia].
  - intros n Hn.
    unfold InventoryService.decrease_stock. rewrite (bind_eq_ok _ _ _ _ _ Hget).
    unfold Book.decrease_stock, Book._validate_positive_int.
    destruct (Z.leb_spec n 0); [lia|]. cbn [rbind].
    destruct (Z.ltb_spec (Book.quantity b) n); [reflexivity | lia].
  - intros q Hq. unfold InventoryService.set_quantity.
    destruct (Z.ltb_spec q 0); [reflexivity | lia].
  - intros a e Ha.
    unfold InventoryService.set_price. rewrite (bind_eq_ok _ _ _ _ _ Hget).
    unfold Book.set_price. now rewrite Ha.
  - intros Hne.
    unfold InventoryService.archive_if_empty. rewrite (bind_eq_ok _ _ _ _ _ Hget).
    destruct (Z.eqb_spec (Book.quantity b) 0); [contradiction | reflexivity].
  - intros title author price currency q upd Hq. unfold InventoryService.add_book.
    destruct (Z.leb_spec q 0); [reflexivity | lia].
Qed.

End WithPlatform.
End ShelfProps.

(* ================================================================== *)
(** ** Prices to cents *)

Module PriceProps.
Section WithPlatform.
Context {P : Platform}.
Import Decimal DecimalFacts.

Lemma round_half_even_near (c k : Z) :
  0 <= c -> 0 <= k ->
  0 <= round_half_even c k <= c / 10 ^ k + 1 /\
  2 * Z.abs (round_half_even c k * 10 ^ k - c) <= 10 ^ k.
Proof.
  intros Hc Hk. unfold round_half_even.
  assert (Hp : 0 < 10 ^ k) by (apply Z.pow_pos_nonneg; lia).
  rewrite (Z.abs_eq c) by lia.
  pose proof (Z.div_mod c (10 ^ k) ltac:(lia)) as Hdm.
  pose proof (Z.mod_pos_bound c (10 ^ k) Hp) as Hr.
  assert (Hq : 0 <= c / 10 ^ k) by (apply Z.div_pos; lia).
  set (p := 10 ^ k) in *. set (q := c / p) in *. set (r := c mod p) in *.
  destruct (Z.eq_dec c 0) as [->|Hne].
  - cbn [Z.sgn]. rewrite Z.mul_0_l. cbn. lia.
  - rewrite Z.sgn_pos by lia. rewrite Z.mul_1_l.
    destruct (Z.ltb_spec (2 * r) p); [|destruct (Z.ltb_spec p (2 * r));
      [|destruct (Z.even q)]]; split; try lia.
Qed.

Lemma round_half_even_scale (c k : Z) :
  0 <= c -> 0 <= k -> round_half_even (c * 100) (k + 2) = round_half_even c k.
Proof.
  intros Hc Hk. unfold round_half_even.
  assert (Hp : 0 < 10 ^ k) by (apply Z.pow_pos_nonneg; lia).
  rewrite !Z.abs_eq by lia.
  rewrite Z.pow_add_r by lia. change (10 ^ 2) with 100.
  rewrite (Z.mul_comm c 100), (Z.mul_comm (10 ^ k) 100).
  rewrite Z.div_mul_cancel_l by lia.
  rewrite Z.mul_mod_distr_l by lia.
  set (p := 10 ^ k) in *. set (q := c / p). set (r := c mod p).
  assert (Hs : Z.sgn (100 * c) = Z.sgn c).
  { destruct (Z.eq_dec c 0) as [->|]; [reflexivity|].
    rewrite !Z.sgn_pos by lia. reflexivity. }
  rewrite Hs. f_equal.
  destruct (Z.ltb_spec (2 * (100 * r)) (100 * p)), (Z.ltb_spec (2 * r) p); try lia.
  destruct (Z.ltb_spec (100 * p) (2 * (100 * r))), (Z.ltb_spec p (2 * r)); try lia.
Qed.

Lemma fits (c : Z) : 0 <= c < 10 ^ 28 -> (ndigits c <=? prec) = true.
Proof.
  intros Hc. apply Z.leb_le. unfold prec. apply ndigits_le; [lia|].
  rewrite Z.abs_eq; lia.
Qed.

(** X28.  How a price becomes cents.  For a price [c * 10^e] that is not
    negative, with [c * 100] below 10^28: with at most two decimals
    ([-2 <= e]) the cents are the price times a hundred, exactly, as long
    as they stay below 10^28; with more decimals the cents are the nearest
    integer to the price times a hundred, a tie going to the even one, so
    they are off by at most half a cent and never negative.  A negative
    price is refused with ValidationError. *)
Theorem price_to_cents (c e : Z) :
  0 <= c -> c * 100 < 10 ^ 28 ->
  (-2 <= e -> c * 10 ^ (e + 2) < 10 ^ 28 ->
   Book._to_cents (Amount (mk c e)) = Ok (c * 10 ^ (e + 2))) /\
  (e < -2 ->
   exists cents,
     Book._to_cents (Amount (mk c e)) = Ok cents /\
     cents = round_half_even c (- e - 2) /\
     0 <= cents /\
     2 * Z.abs (cents * 10 ^ (- e - 2) - c) <= 10 ^ (- e - 2)) /\
  (forall c', c' < 0 ->
     Book._to_cents (Amount (mk c' e)) = Raise (ValidationError "price")).
Proof.
  intros Hc Hb.
  assert (Hmul : mul100 (mk c e) = mk (c * 100) e).
  { unfold mul100; cbn [coef exp]. apply fix_small. cbn [coef].
    apply ndigits_le; [lia|]. rewrite Z.abs_eq; lia. }
  assert (Hneg : is_negative (mk c e) = false).
  { unfold is_negative; cbn [coef]. destruct (Z.ltb_spec c 0); [lia | reflexivity]. }
  split; [|split].
  - intros He Hr. unfold Book._to_cents. rewrite Hneg, Hmul.
    unfold quantize_int; cbn [coef exp].
    assert (Hp : 0 <= c * 10 ^ (e + 2)).
    { apply Z.mul_nonneg_nonneg; [lia|]. apply Z.pow_nonneg. lia. }
    destruct (Z.leb_spec 0 e) as [H0|H0].
    + replace (c * 100 * 10 ^ e) with (c * 10 ^ (e + 2))
        by (rewrite Z.pow_add_r by lia; change (10 ^ 2) with 100; lia).
      now rewrite fits by lia.
    + assert (Hx : c * 100 = c * 10 ^ (e + 2) * 10 ^ (- e)).
      { rewrite <- Z.mul_assoc, <- Z.pow_add_r by lia.
        now replace (e + 2 + - e) with 2 by lia. }
      rewrite Hx, round_half_even_exact by lia.
      now rewrite fits by lia.
  - intros He. exists (round_half_even c (- e - 2)).
    destruct (round_half_even_near c (- e - 2) Hc ltac:(lia)) as [[Hlo Hhi] Hnear].
    split; [|split; [reflexivity | split; [exact Hlo | exact Hnear]]].
    unfold Book._to_cents. rewrite Hneg, Hmul.
    unfold quantize_int; cbn [coef exp].
    destruct (Z.leb_spec 0 e) as [H0|H0]; [lia|].
    assert (Hs : round_half_even (c * 100) (- e) = round_half_even c (- e - 2)).
    { rewrite <- (round_half_even_scale c (- e - 2)) by lia. f_equal. lia. }
    rewrite Hs.
    rewrite fits; [reflexivity|]. split; [exact Hlo|].
    assert (Hd : c / 10 ^ (- e - 2) <= c).
    { apply Z.div_le_upper_bound; [apply Z.pow_pos_nonneg; lia|].
      assert (0 < 10 ^ (- e - 2)) by (apply Z.pow_pos_nonneg; lia). nia. }
    lia.
  - intros c' Hc'. unfold Book._to_cents, is_negative; cbn [coef].
    destruct (Z.ltb_spec c' 0); [reflexivity | lia].
Qed.

End WithPlatform.
End PriceProps.

(* ================================================================== *)
(** ** An update that changes the ISBN *)

Module UpdateProps.
Section WithPlatform.
Context {P : Platform}.
Import Inv Obs StoreFacts ListFacts CatalogFacts.

(** X29.  In a well-formed ledger, updating a stored book with a valid
    Book of the same id whose ISBN no other record has succeeds, also when
    the ISBN is a new one: the record is replaced in place, the ledger is
    still well formed, the Book is found by its id and by its ISBN, and
    when the ISBN has changed nothing is found under the old one. *)
Theorem update_replaces_the_record
    (w : world) (bs : list Book.t) (ss : list json) (b b' : Book.t) (id_ : string) :
  ledger w bs ss -> In b bs -> valid_book b' ->
  Book.id b = JStr id_ -> Book.id b' = JStr id_ ->
  (forall x, In x bs -> Book.isbn x = Book.isbn b' -> x = b) ->
  exists idx w',
    BookRepository.update b' w = (Ok tt, w') /\
    nth_error bs idx = Some b /\
    ledger w' (list_set bs idx b') ss /\
    BookRepository.get_by_id id_ w' = (Ok b', w') /\
    BookRepository.get_by_isbn (Book.isbn b') w' = (Ok b', w') /\
    (Book.isbn b' <> Book.isbn b ->
     BookRepository.get_by_isbn (Book.isbn b) w'
     = (Raise (BookNotFoundError None (Some (Book.isbn b))), w')).
Proof.
  intros L Hin V Hid Hid' Hfree.
  assert (Hids : Book.id b' = Book.id b) by congruence.
  pose proof (proj1 (Forall_forall _ _) (books_valid _ _ _ L) b Hin) as Vb.
  pose proof (proj1 (Forall_forall _ _) (ids_usable _ _ _ L) b Hin) as Ub.
  destruct (find_index_key Book.id (fun x => Py.eq (Book.id x) (Book.id b')) bs b Hin)
    as (idx & Hfi & Hn).
  { intros x Hx. rewrite Hids. apply LedgerFacts.eq_usable_ids; [|exact Ub].
    exact (proj1 (Forall_forall _ _) (ids_usable _ _ _ L) x Hx). }
  { exact (ids_unique _ _ _ L). }
  assert (Hother : forall i x, nth_error bs i = Some x -> i <> idx ->
                     Book.isbn x <> Book.isbn b').
  { intros i x Hi Hne E. apply Hne.
    pose proof (Hfree x (nth_error_In _ _ Hi) E) as ->.
    exact (nodup_key_index Book.id bs i idx b b (ids_unique _ _ _ L) Hi Hn eq_refl). }
  set (w' := mkWorld (Parsed (JSONStore.dump
                        (mkDoc (map Book.to_dict (list_set bs idx b')) ss)))
                     (seed w)).
  assert (L' : ledger w' (list_set bs idx b') ss).
  { constructor.
    - reflexivity.
    - apply Forall_list_set; [exact (books_valid _ _ _ L) | exact V].
    - apply Forall_list_set; [exact (ids_usable _ _ _ L)|].
      unfold usable_id. rewrite Hids. exact Ub.
    - rewrite (map_list_set_same Book.id _ _ _ _ Hn Hids). exact (ids_unique _ _ _ L).
    - apply CatalogInvariant.nodup_list_set; [exact (isbns_unique _ _ _ L)|].
      exact Hother. }
  pose proof (in_list_set bs idx b b' Hn) as Hin'.
  exists idx, w'.
  split.
  { unfold BookRepository.update.
    rewrite (bind_eq_ok _ _ _ _ _ (LedgerFacts.load_books_ledger _ _ _ L)).
    unfold BookRepository._find_index_by_id. rewrite Hfi.
    assert (Hno : existsb (fun ib : nat * Book.t =>
                             negb (Nat.eqb (fst ib) idx)
                             && String.eqb (Book.isbn (snd ib)) (Book.isbn b'))
                          (BookRepository.enumerate bs) = false).
    { apply Bool.not_true_is_false. intros Hex.
      apply existsb_exists in Hex as ([i x] & Hix & Ht). cbn [fst snd] in Ht.
      apply andb_prop in Ht as [Hne Heq].
      apply in_enumerate in Hix. apply String.eqb_eq in Heq.
      apply negb_true_iff, Nat.eqb_neq in Hne.
      exact (Hother i x Hix Hne Heq). }
    rewrite Hno. apply (LedgerFacts.save_books_at w _ _ (on_disk _ _ _ L)). }
  split; [exact Hn|]. split; [exact L'|]. split; [|split].
  - unfold BookRepository.get_by_id.
    rewrite (bind_eq_ok _ _ _ _ _ (LedgerFacts.load_books_ledger _ _ _ L')).
    rewrite (find_key Book.id _ (list_set bs idx b') b' Hin');
      [reflexivity| |exact (ids_unique _ _ _ L')].
    intros x Hx.
    destruct (proj1 (Forall_forall _ _) (ids_usable _ _ _ L') x Hx) as (s & Hs & _).
    rewrite Hs, Hid'. cbn [Py.eq]. rewrite String.eqb_eq.
    split; [now intros -> | now intros [= ->]].
  - apply (LedgerFacts.get_by_isbn_ledger w' _ _ b' _ L' Hin').
    unfold BookRepository._normalize_isbn. symmetry. exact (isbn_normal b' V).
  - intros Hchg. unfold BookRepository.get_by_isbn.
    rewrite (bind_eq_ok _ _ _ _ _ (LedgerFacts.load_books_ledger _ _ _ L')).
    assert (Hnorm : BookRepository._normalize_isbn (Book.isbn b) = Book.isbn b)
      by exact (isbn_normal b Vb).
    rewrite Hnorm.
    assert (F : find (fun x => String.eqb (Book.isbn x) (Book.isbn b))
                     (list_set bs idx b') = None).
    { apply find_none_forall. intros x Hx. apply String.eqb_neq.
      destruct (list_set_split bs idx b b' Hn) as (pre & post & Hbs & Hset).
      rewrite Hset in Hx. pose proof (isbns_unique _ _ _ L) as Hnd.
      rewrite Hbs, map_app in Hnd. cbn [map] in Hnd.
      pose proof (NoDup_remove_2 _ _ _ Hnd) as Hb.
      apply in_app_or in Hx as [Hx|[<-|Hx]].
      - intros E. apply Hb, in_or_app. left. rewrite <- E. now apply in_map.
      - exact Hchg.
      - intros E. apply Hb, in_or_app. right. rewrite <- E. now apply in_map. }
    now rewrite F.
Qed.

End WithPlatform.
End UpdateProps.

(* ================================================================== *)
(** * The further properties at work on the sample ledgers *)

Module MoreCases.
Import Inv Obs Examples Cases.

Ltac catalog_sample :=
  constructor;
  [ reflexivity
  | repeat (constructor; [valid_sample|]); constructor
  | nodup_sample ].

Lemma create_returns_checked_sale_witness :
  Sale.create (Book.id clean_code) (JStr "978-0132350884") 2 1000 (JStr "usd") None
              (mkWorld Missing 0)
    = (Ok (sale_of (mkWorld Missing 0) clean_code 2), mkWorld Missing 2) /\
  0 <= Sale.total_cents (sale_of (mkWorld Missing 0) clean_code 2).
Proof.
  assert (H : Sale.create (Book.id clean_code) (JStr "978-0132350884") 2 1000
                (JStr "usd") None (mkWorld Missing 0)
              = (Ok (sale_of (mkWorld Missing 0) clean_code 2), mkWorld Missing 2))
    by reflexivity.
  split; [exact H|].
  destruct (ModelProps.create_returns_checked_sale _ _ _ _ _ _ _ _ _ H)
    as (_ & _ & _ & _ & Ht & _).
  exact Ht.
Defined.

Lemma mutators_keep_invariants_witness :
  valid_book clean_code /\
  valid_book (Book.mark_archived clean_code) /\
  Book.archived (Book.mark_archived clean_code) = true /\
  Book.isbn (Book.mark_archived clean_code) = "9780132350884" /\
  Book.quantity (Book.mark_archived clean_code) = 2 /\
  exists b', Book.decrease_stock 2 clean_code = Ok b' /\ Book.quantity b' = 0.
Proof.
  assert (V : valid_book clean_code) by valid_sample.
  split; [exact V|].
  destruct (ModelProps.mutators_keep_invariants clean_code V)
    as (_ & Hd & _ & Hv & Ha & Hq & _ & Hi & _).
  split; [exact Hv|]. split; [exact Ha|]. split; [exact Hi|]. split; [exact Hq|].
  exists (Book.set_quantity 0 clean_code).
  assert (E : Book.decrease_stock 2 clean_code = Ok (Book.set_quantity 0 clean_code))
    by reflexivity.
  split; [exact E|].
  destruct (Hd 2 _ E) as (_ & _ & Hq' & _). exact Hq'.
Defined.

Lemma increase_then_decrease_witness :
  0 <= Book.quantity ddd /\ 0 < 3 /\
  exists b1, Book.increase_stock 3 ddd = Ok b1 /\ Book.decrease_stock 3 b1 = Ok ddd.
Proof.
  assert (Hq : 0 <= Book.quantity ddd) by (cbn; lia).
  assert (Hn : 0 < 3) by lia.
  split; [exact Hq|]. split; [exact Hn|].
  exact (ModelProps.increase_then_decrease ddd 3 Hq Hn).
Defined.

Lemma price_getter_setter_witness :
  valid_book clean_code /\
  Book.set_price (Amount (Book.price clean_code)) clean_code = Ok clean_code.
Proof.
  assert (V : valid_book clean_code) by valid_sample.
  split; [exact V|]. exact (ModelProps.price_getter_setter clean_code V).
Defined.

Lemma save_then_load_witness :
  JSONStore.save (JDict [("sales", JList []); ("note", JStr "kept?");
                         ("books", JList [Book.to_dict ddd])])
                 (mkWorld Corrupted 0)
    = (Ok tt, raw_store [Book.to_dict ddd]) /\
  JSONStore.load (raw_store [Book.to_dict ddd])
    = (Ok (mkDoc [Book.to_dict ddd] []), raw_store [Book.to_dict ddd]).
Proof.
  assert (H : JSONStore.save (JDict [("sales", JList []); ("note", JStr "kept?");
                                     ("books", JList [Book.to_dict ddd])])
                             (mkWorld Corrupted 0)
              = (Ok tt, raw_store [Book.to_dict ddd])) by reflexivity.
  split; [exact H|].
  destruct (StoreProps.save_then_load _ _ _ H)
    as (kv & bs & ss & _ & _ & _ & _ & _ & _ & _).
  reflexivity.
Defined.

Lemma add_refuses_taken_isbn_witness :
  BookRepository._load_books (store_of [clean_code; ddd] [])
    = (Ok [clean_code; ddd], store_of [clean_code; ddd] []) /\
  BookRepository.add clean_code_as_ddd (store_of [clean_code; ddd] [])
    = (Raise (DuplicateISBNError (Book.isbn clean_code_as_ddd)),
       store_of [clean_code; ddd] []).
Proof.
  assert (Hl : BookRepository._load_books (store_of [clean_code; ddd] [])
               = (Ok [clean_code; ddd], store_of [clean_code; ddd] []))
    by reflexivity.
  split; [exact Hl|].
  exact (proj1 (RepoProps.add_refuses_taken_isbn _ _ _ clean_code_as_ddd ddd Hl
                  (or_intror (or_introl eq_refl)) eq_refl)).
Defined.

Lemma add_then_lookup_witness :
  catalog (store_of [clean_code] []) [clean_code] [] /\
  valid_book ddd /\
  exists w',
    BookRepository.add ddd (store_of [clean_code] []) = (Ok tt, w') /\
    BookRepository.get_by_isbn (Book.isbn ddd) w' = (Ok ddd, w').
Proof.
  assert (C : catalog (store_of [clean_code] []) [clean_code] []) by catalog_sample.
  assert (V : valid_book ddd) by valid_sample.
  split; [exact C|]. split; [exact V|].
  destruct (RepoProps.add_then_lookup _ _ _ ddd C V) as (w' & Ha & _ & _ & Hg & _).
  - cbn. intros [H|[]]. discriminate H.
  - exists w'. split; [exact Ha | exact Hg].
Defined.

Lemma remove_deletes_the_record_witness :
  ledger (store_of [clean_code; ddd] []) [clean_code; ddd] [] /\
  exists w',
    BookRepository.remove "b-1" (store_of [clean_code; ddd] []) = (Ok tt, w') /\
    BookRepository.get_by_isbn (Book.isbn clean_code) w'
      = (Raise (BookNotFoundError None (Some (Book.isbn clean_code))), w').
Proof.
  assert (L : ledger (store_of [clean_code; ddd] []) [clean_code; ddd] [])
    by ledger_sample.
  split; [exact L|].
  destruct (RepoMore.remove_deletes_the_record _ _ _ clean_code "b-1" L
              (or_introl eq_refl) eq_refl)
    as (w' & pre & post & _ & Hr & _ & _ & Hg).
  exists w'. split; [exact Hr | exact Hg].
Defined.

Lemma absent_keys_are_not_found_witness :
  BookRepository._load_books (store_of [clean_code; ddd] [])
    = (Ok [clean_code; ddd], store_of [clean_code; ddd] []) /\
  BookRepository.get_by_id "b-9" (store_of [clean_code; ddd] [])
    = (Raise (BookNotFoundError (Some (JStr "b-9")) None),
       store_of [clean_code; ddd] []).
Proof.
  assert (Hl : BookRepository._load_books (store_of [clean_code; ddd] [])
               = (Ok [clean_code; ddd], store_of [clean_code; ddd] []))
    by reflexivity.
  split; [exact Hl|].
  destruct (RepoMore.absent_keys_are_not_found _ _ _ Hl) as (_ & _ & Hid & _).
  apply (Hid "b-9"). intros b [<-|[<-|[]]]; reflexivity.
Defined.

Lemma search_returns_first_matches_witness :
  BookRepository.list_all false (store_of [refactoring; ddd; clean_code] [])
    = (Ok [refactoring; ddd; clean_code], store_of [refactoring; ddd; clean_code] []) /\
  Py.strip " MARTIN " <> "" /\
  BookRepository.search " MARTIN " false (-3)
      (store_of [refactoring; ddd; clean_code] [])
    = (Ok [refactoring], store_of [refactoring; ddd; clean_code] []) /\
  BookRepository.search " MARTIN " false 2
      (store_of [refactoring; ddd; clean_code] [])
    = (Ok [clean_code; refactoring], store_of [refactoring; ddd; clean_code] []) /\
  hit " MARTIN " clean_code /\ ~ hit " MARTIN " ddd.
Proof.
  assert (G : BookRepository.list_all false (store_of [refactoring; ddd; clean_code] [])
              = (Ok [refactoring; ddd; clean_code],
                 store_of [refactoring; ddd; clean_code] [])) by reflexivity.
  assert (Q : Py.strip " MARTIN " <> "") by (vm_compute; discriminate).
  split; [exact G|]. split; [exact Q|].
  destruct (RepoMore.search_returns_first_matches " MARTIN " false 2 _ _ _ G Q)
    as (hits & result & Hh & Hhit & Hs & _).
  split; [reflexivity|]. split; [reflexivity|].
  assert (E : hits = [refactoring; clean_code]) by (rewrite Hh; reflexivity).
  rewrite E in Hhit. split.
  - apply (Hhit clean_code). right. now left.
  - intros Hd.
    assert (Hin : In ddd [refactoring; clean_code]).
    { apply Hhit. split; [right; now left | exact Hd]. }
    destruct Hin as [H|[H|[]]]; discriminate H.
Defined.

Lemma constructor_normalises_witness :
  Book.__init__ (JStr " Clean Code ") (JStr "Robert C. Martin")
                (JStr "978-0132350884") (Amount (Decimal.mk 1234 (-2)))
                (JStr "usd") 5 JNull false None (mkWorld Missing 0)
    = (Ok new_clean_code, mkWorld Missing 2) /\
  valid_book new_clean_code /\
  Book.isbn new_clean_code = BookRepository._normalize_isbn "978-0132350884".
Proof.
  assert (I : Book.__init__ (JStr " Clean Code ") (JStr "Robert C. Martin")
                (JStr "978-0132350884") (Amount (Decimal.mk 1234 (-2)))
                (JStr "usd") 5 JNull false None (mkWorld Missing 0)
              = (Ok new_clean_code, mkWorld Missing 2)) by reflexivity.
  split; [exact I|].
  destruct (InventoryProps.constructor_normalises _ _ _ _ _ _ _ _ _ _ _ _ I)
    as (V & _ & _ & Hi & _).
  split; [exact V | exact Hi].
Defined.

Lemma add_book_restocks_witness :
  ledger (store_of [clean_code; ddd] []) [clean_code; ddd] [] /\
  Book.set_price (Amount (Decimal.mk 1250 (-2)))
                 (Book.set_quantity (Book.quantity clean_code + 3) clean_code)
    = Ok restocked /\
  exists w',
    InventoryService.add_book "Another title" "Somebody" "978-0132350884"
                              (Amount (Decimal.mk 1250 (-2))) "EUR" 3 true
                              (store_of [clean_code; ddd] [])
      = (Ok restocked, w') /\
    BookRepository.get_by_isbn "978-0132350884" w' = (Ok restocked, w').
Proof.
  assert (L : ledger (store_of [clean_code; ddd] []) [clean_code; ddd] [])
    by ledger_sample.
  assert (S : Book.set_price (Amount (Decimal.mk 1250 (-2)))
                (Book.set_quantity (Book.quantity clean_code + 3) clean_code)
              = Ok restocked) by reflexivity.
  split; [exact L|]. split; [exact S|].
  destruct (InventoryCommands.add_book_restocks
              (store_of [clean_code; ddd] []) [clean_code; ddd] [] clean_code
              restocked "Another title" "Somebody" "978-0132350884" "EUR"
              (Amount (Decimal.mk 1250 (-2))) 3 true L)
    as (idx & w' & Ha & _ & _ & Hg & _).
  - now left.
  - reflexivity.
  - lia.
  - exact S.
  - exists w'. split; [exact Ha | exact Hg].
Defined.

Lemma add_book_creates_witness :
  catalog (store_of [ddd] []) [ddd] [] /\
  Book.__init__ (JStr " Clean Code ") (JStr "Robert C. Martin")
                (JStr "978-0132350884") (Amount (Decimal.mk 1234 (-2)))
                (JStr "usd") 5 JNull false None (store_of [ddd] [])
    = (Ok new_clean_code, mkWorld (fs (store_of [ddd] [])) 2) /\
  exists w',
    InventoryService.add_book " Clean Code " "Robert C. Martin" "978-0132350884"
                              (Amount (Decimal.mk 1234 (-2))) "usd" 5 true
                              (store_of [ddd] [])
      = (Ok new_clean_code, w') /\
    BookRepository.get_by_isbn "978-0132350884" w' = (Ok new_clean_code, w').
Proof.
  assert (C : catalog (store_of [ddd] []) [ddd] []) by catalog_sample.
  assert (I : Book.__init__ (JStr " Clean Code ") (JStr "Robert C. Martin")
                (JStr "978-0132350884") (Amount (Decimal.mk 1234 (-2)))
                (JStr "usd") 5 JNull false None (store_of [ddd] [])
              = (Ok new_clean_code, mkWorld (fs (store_of [ddd] [])) 2))
    by reflexivity.
  split; [exact C|]. split; [exact I|].
  destruct (InventoryCommands.add_book_creates
              (store_of [ddd] []) (mkWorld (fs (store_of [ddd] [])) 2) [ddd] []
              new_clean_code " Clean Code "
              "Robert C. Martin" "978-0132350884" "usd"
              (Amount (Decimal.mk 1234 (-2))) 5 true C)
    as (w' & Ha & _ & Hg & _).
  - cbn. intros [H|[]]. discriminate H.
  - lia.
  - exact I.
  - exists w'. split; [exact Ha | exact Hg].
Defined.

Lemma inventory_commands_persist_witness :
  ledger (store_of [clean_code; ddd] []) [clean_code; ddd] [] /\
  Book.quantity clean_code = 2 /\ Book.price_cents clean_code = 1000 /\
  (exists b' w',
     InventoryService.set_quantity "978-0132350884" 7 (store_of [clean_code; ddd] [])
       = (Ok b', w') /\
     BookRepository.get_by_isbn "978-0132350884" w' = (Ok b', w') /\
     Book.quantity b' = 7 /\ Book.price_cents b' = 1000) /\
  (exists b' w',
     InventoryService.decrease_stock "978-0132350884" 2 (store_of [clean_code; ddd] [])
       = (Ok b', w') /\
     BookRepository.get_by_isbn "978-0132350884" w' = (Ok b', w') /\
     Book.quantity b' = 0) /\
  (exists b' w',
     InventoryService.set_price "978-0132350884" (Amount (Decimal.mk 1250 (-2)))
                                (store_of [clean_code; ddd] [])
       = (Ok b', w') /\
     BookRepository.get_by_isbn "978-0132350884" w' = (Ok b', w') /\
     Book.price_cents b' = 1250 /\ Book.quantity b' = 2).
Proof.
  assert (L : ledger (store_of [clean_code; ddd] []) [clean_code; ddd] [])
    by ledger_sample.
  split; [exact L|]. split; [reflexivity|]. split; [reflexivity|].
  destruct (InventoryCommands.inventory_commands_persist
              (store_of [clean_code; ddd] []) [clean_code; ddd] [] clean_code
              "978-0132350884" L (or_introl eq_refl) eq_refl) as (Hq & _ & Hd & Hp).
  split; [|split].
  - destruct (Hq 7 ltac:(lia)) as (b' & idx & w' & Hs & _ & _ & Hg & _ & Hn & Hsame).
    exists b', w'. split; [exact Hs|]. split; [exact Hg|]. split; [exact Hn|].
    destruct Hsame as (_ & _ & _ & _ & _ & _ & Hpr & _). exact Hpr.
  - destruct (Hd 2 ltac:(cbn; lia)) as (b' & idx & w' & Hs & _ & _ & Hg & _ & Hn & _).
    exists b', w'. split; [exact Hs|]. split; [exact Hg | exact Hn].
  - destruct (Hp (Amount (Decimal.mk 1250 (-2))) 1250 eq_refl)
      as (b' & idx & w' & Hs & _ & _ & Hg & _ & Hn & Hsame).
    exists b', w'. split; [exact Hs|]. split; [exact Hg|]. split; [exact Hn|].
    destruct Hsame as (_ & _ & _ & _ & _ & _ & Hqt & _). exact Hqt.
Defined.

Lemma failed_command_writes_nothing_witness :
  run (Remove "b-1") (mkWorld Missing 0)
    = (Raise (BookNotFoundError (Some (JStr "b-1")) None),
       mkWorld (Parsed JSONStore._default_data) 0) /\
  boot Missing (Parsed JSONStore._default_data) /\
  stored_sales (Parsed JSONStore._default_data) = stored_sales Missing.
Proof.
  assert (H : run (Remove "b-1") (mkWorld Missing 0)
              = (Raise (BookNotFoundError (Some (JStr "b-1")) None),
                 mkWorld (Parsed JSONStore._default_data) 0)) by reflexivity.
  split; [exact H|].
  destruct (Guarantees.failed_command_writes_nothing _ _ _ _ H) as (Hb & _ & Hs).
  split; [exact Hb | exact Hs].
Defined.

Lemma commands_keep_one_record_per_isbn_witness :
  well_formed (Update clean_code_as_ddd) /\
  catalog (store_of [clean_code; ddd] []) [clean_code; ddd] [] /\
  exists bs' ss',
    catalog (snd (run (Update clean_code_as_ddd) (store_of [clean_code; ddd] [])))
            bs' ss' /\
    NoDup (map Book.isbn bs').
Proof.
  assert (V : well_formed (Update clean_code_as_ddd)) by (cbn; valid_sample).
  assert (C : catalog (store_of [clean_code; ddd] []) [clean_code; ddd] [])
    by catalog_sample.
  split; [exact V|]. split; [exact C|].
  destruct (CatalogInvariant.commands_keep_one_record_per_isbn
              (Update clean_code_as_ddd) _ _ _ V C) as (bs' & ss' & C' & N & _).
  exists bs', ss'. split; [exact C' | exact N].
Defined.

Lemma sales_total_sums_the_selected_sales_witness :
  JSONStore.load (store_of [clean_code; ddd] (map Sale.to_dict three_sales))
    = (Ok (mkDoc (map Book.to_dict [clean_code; ddd]) (map Sale.to_dict three_sales)),
       store_of [clean_code; ddd] (map Sale.to_dict three_sales)) /\
  map_result Sale.from_dict (map Sale.to_dict three_sales) = Ok three_sales /\
  selects (Some "978-0132350884") three_sales [sale_march; sale_january] /\
  comparable [sale_march; sale_january] /\
  exists total,
    SalesService.sales_total (Some "978-0132350884")
        (store_of [clean_code; ddd] (map Sale.to_dict three_sales))
      = (Ok total, store_of [clean_code; ddd] (map Sale.to_dict three_sales)) /\
    Book._to_cents (Amount total) = Ok 2800.
Proof.
  assert (Hl : JSONStore.load (store_of [clean_code; ddd] (map Sale.to_dict three_sales))
               = (Ok (mkDoc (map Book.to_dict [clean_code; ddd])
                            (map Sale.to_dict three_sales)),
                  store_of [clean_code; ddd] (map Sale.to_dict three_sales)))
    by reflexivity.
  assert (D : map_result Sale.from_dict (map Sale.to_dict three_sales)
              = Ok three_sales) by reflexivity.
  assert (S : selects (Some "978-0132350884") three_sales [sale_march; sale_january]).
  { apply (selects_isbn "978-0132350884" three_sales);
      [vm_compute; discriminate | reflexivity]. }
  assert (C : comparable [sale_march; sale_january]).
  { intros a b [<-|[<-|[]]] [<-|[<-|[]]]; reflexivity. }
  split; [exact Hl|]. split; [exact D|]. split; [exact S|]. split; [exact C|].
  destruct (SalesProps.sales_total_sums_the_selected_sales _ _ _ _ _ _ Hl D S)
    as [_ H].
  destruct (H C) as (total & Ht & _ & _ & Hc).
  exists total. split; [exact Ht|].
  apply Hc. unfold sum_cents. cbn -[Z.pow]. lia.
Defined.

Lemma sale_adds_to_revenue_witness :
  catalog (store_of [clean_code; ddd] []) [clean_code; ddd] [] /\
  SalesService.sell "978-0132350884" 1 (store_of [clean_code; ddd] [])
    = (Ok first_sale, after_first_sale) /\
  exists b,
    In b [clean_code; ddd] /\
    Book.isbn b = "9780132350884" /\
    Sale.unit_price_cents first_sale = Book.price_cents b /\
    SalesService.sales_total None after_first_sale
    = (Ok (Decimal.div100
             (Decimal.of_int (sum_cents [] + Book.price_cents b * 1))),
       after_first_sale).
Proof.
  assert (C : catalog (store_of [clean_code; ddd] []) [clean_code; ddd] [])
    by catalog_sample.
  assert (H : SalesService.sell "978-0132350884" 1 (store_of [clean_code; ddd] [])
              = (Ok first_sale, after_first_sale)) by reflexivity.
  split; [exact C|]. split; [exact H|].
  destruct (SalesProps.sale_adds_to_revenue _ _ _ _ [] _ _ _ C eq_refl
              (Forall_nil _) H)
    as (b & listed & Hin & Hi & _ & Hp & _ & _ & _ & Ht).
  exists b. split; [exact Hin|]. split; [exact Hi|]. split; [exact Hp | exact Ht].
Defined.

Lemma stats_counts_the_catalogue_witness :
  catalog (store_of [clean_code; ddd_archived] (map Sale.to_dict three_sales))
          [clean_code; ddd_archived] (map Sale.to_dict three_sales) /\
  map_result Sale.from_dict (map Sale.to_dict three_sales) = Ok three_sales /\
  comparable three_sales /\
  exists st,
    Bookstore.stats (store_of [clean_code; ddd_archived] (map Sale.to_dict three_sales))
      = (Ok st, store_of [clean_code; ddd_archived] (map Sale.to_dict three_sales)) /\
    Bookstore.total_titles st = 2 /\ Bookstore.active_titles st = 1 /\
    Bookstore.archived_titles st = 1 /\ Bookstore.total_quantity st = 2 /\
    Bookstore.sales_count st = 3 /\
    Book._to_cents (Amount (Bookstore.revenue st)) = Ok 4300.
Proof.
  assert (C : catalog (store_of [clean_code; ddd_archived]
                                (map Sale.to_dict three_sales))
                      [clean_code; ddd_archived] (map Sale.to_dict three_sales))
    by catalog_sample.
  assert (D : map_result Sale.from_dict (map Sale.to_dict three_sales)
              = Ok three_sales) by reflexivity.
  assert (K : comparable three_sales).
  { intros a b [<-|[<-|[<-|[]]]] [<-|[<-|[<-|[]]]]; reflexivity. }
  split; [exact C|]. split; [exact D|]. split; [exact K|].
  destruct (SalesProps.stats_counts_the_catalogue _ _ _ _ C D) as [_ H].
  destruct (H K) as (st & Hs & Ht & Hact & Ha & Hq & _ & Hc & Hr).
  exists st. split; [exact Hs|]. split; [exact Ht|]. split; [exact Hact|].
  split; [exact Ha|]. split; [exact Hq|]. split; [exact Hc|].
  rewrite Hr. reflexivity.
Defined.

Lemma sales_filter_must_be_an_isbn_witness :
  JSONStore.load (store_of [clean_code; ddd] [])
    = (Ok (mkDoc (map Book.to_dict [clean_code; ddd]) []),
       store_of [clean_code; ddd] []) /\
  Py.strip "97801323" <> "" /\ ISBN_RE.match_ (Sale.clean "97801323") = false /\
  SalesService.list_sales (Some "97801323") None (store_of [clean_code; ddd] [])
    = (Raise (ValidationError "isbn"), store_of [clean_code; ddd] []).
Proof.
  assert (Hl : JSONStore.load (store_of [clean_code; ddd] [])
               = (Ok (mkDoc (map Book.to_dict [clean_code; ddd]) []),
                  store_of [clean_code; ddd] [])) by reflexivity.
  assert (Hs : Py.strip "97801323" <> "") by (vm_compute; discriminate).
  assert (Hm : ISBN_RE.match_ (Sale.clean "97801323") = false)
    by (vm_compute; reflexivity).
  split; [exact Hl|]. split; [exact Hs|]. split; [exact Hm|].
  exact (proj1 (SalesProps.sales_filter_must_be_an_isbn _ _ _ [] "97801323" None
                  Hl eq_refl Hs Hm)).
Defined.

Lemma one_bad_sale_fails_the_listing_witness :
  catalog (store_of [clean_code] [JDict [("sale_id", JStr "s-1")]]) [clean_code]
          [JDict [("sale_id", JStr "s-1")]] /\
  map_result Sale.from_dict [JDict [("sale_id", JStr "s-1")]]
    = Raise (KeyError "timestamp") /\
  Bookstore.stats (store_of [clean_code] [JDict [("sale_id", JStr "s-1")]])
    = (Raise (KeyError "timestamp"),
       store_of [clean_code] [JDict [("sale_id", JStr "s-1")]]).
Proof.
  assert (C : catalog (store_of [clean_code] [JDict [("sale_id", JStr "s-1")]])
                      [clean_code] [JDict [("sale_id", JStr "s-1")]])
    by catalog_sample.
  assert (D : map_result Sale.from_dict [JDict [("sale_id", JStr "s-1")]]
              = Raise (KeyError "timestamp")) by reflexivity.
  split; [exact C|]. split; [exact D|].
  destruct (SalesProps.one_bad_sale_fails_the_listing _ _ _ _ C D) as (_ & _ & Hs).
  exact Hs.
Defined.

Lemma archived_book_leaves_the_shelf_witness :
  catalog (store_of [clean_code; ddd] []) [clean_code; ddd] [] /\
  Book.quantity ddd = 0 /\
  exists w',
    InventoryService.archive_if_empty "978-0321125217" (store_of [clean_code; ddd] [])
      = (Ok ddd, w') /\
    InventoryService.list_all false w' = (Ok [clean_code], w') /\
    SalesService.sell "978-0321125217" 1 w' = (Raise (ValidationError "book"), w').
Proof.
  assert (C : catalog (store_of [clean_code; ddd] []) [clean_code; ddd] [])
    by catalog_sample.
  split; [exact C|]. split; [reflexivity|].
  destruct (ShelfProps.archived_book_leaves_the_shelf _ _ _ ddd "978-0321125217" C
              (or_intror (or_introl eq_refl)) eq_refl eq_refl)
    as (w' & idx & Ha & _ & _ & _ & Hl & Hs).
  exists w'. split; [exact Ha|]. split; [exact Hl|]. apply Hs. lia.
Defined.

Lemma inventory_refusals_witness :
  catalog (store_of [clean_code; ddd] []) [clean_code; ddd] [] /\
  Book.quantity clean_code < 3 /\
  InventoryService.decrease_stock "978-0132350884" 3 (store_of [clean_code; ddd] [])
    = (Raise (ValidationError "quantity"), store_of [clean_code; ddd] []).
Proof.
  assert (C : catalog (store_of [clean_code; ddd] []) [clean_code; ddd] [])
    by catalog_sample.
  assert (Q : Book.quantity clean_code < 3) by (cbn; lia).
  split; [exact C|]. split; [exact Q|].
  destruct (ShelfProps.inventory_refusals _ _ _ clean_code "978-0132350884" C
              (or_introl eq_refl) eq_refl) as (_ & Hd & _).
  exact (Hd 3 Q).
Defined.

Lemma price_to_cents_witness :
  0 <= 125 /\ 125 * 100 < 10 ^ 28 /\
  Book._to_cents (Amount (Decimal.mk 125 (-3))) = Ok 12 /\
  Book._to_cents (Amount (Decimal.mk 135 (-3))) = Ok 14.
Proof.
  assert (H0 : 0 <= 125) by lia.
  assert (H1 : 125 * 100 < 10 ^ 28) by lia.
  split; [exact H0|]. split; [exact H1|].
  destruct (PriceProps.price_to_cents 125 (-3) H0 H1) as (_ & Hr & _).
  destruct (Hr ltac:(lia)) as (cents & Hc & -> & _).
  split; [exact Hc | reflexivity].
Defined.

Lemma update_replaces_the_record_witness :
  ledger (store_of [clean_code; ddd] []) [clean_code; ddd] [] /\
  valid_book reissued /\
  exists w',
    BookRepository.update reissued (store_of [clean_code; ddd] []) = (Ok tt, w') /\
    BookRepository.get_by_id "b-1" w' = (Ok reissued, w') /\
    BookRepository.get_by_isbn (Book.isbn clean_code) w'
      = (Raise (BookNotFoundError None (Some (Book.isbn clean_code))), w').
Proof.
  assert (L : ledger (store_of [clean_code; ddd] []) [clean_code; ddd] [])
    by ledger_sample.
  assert (V : valid_book reissued) by valid_sample.
  split; [exact L|]. split; [exact V|].
  destruct (UpdateProps.update_replaces_the_record
              (store_of [clean_code; ddd] []) [clean_code; ddd] [] clean_code
              reissued "b-1" L (or_introl eq_refl) V eq_refl eq_refl)
    as (idx & w' & Hu & _ & _ & Hg & _ & Ho).
  - intros x [<-|[<-|[]]] E; [reflexivity | discriminate E].
  - exists w'. split; [exact Hu|]. split; [exact Hg|]. apply Ho. discriminate.
Defined.

End MoreCases.
